(** * Bible_RAG: the retrieval-fusion query pipeline

    A shallow embedding of the query pipeline of the backend
    ([app/services/fusion.py], [context_builder.py], [rag_pipeline.py],
    [retrievers/graph_retriever.py], [retrievers/sparse_retriever.py],
    [retrievers/dense_retriever.py], [llm_client.py], [core/neo4j_client.py],
    [models/schemas/query.py], [api/v1/endpoints/query.py]) and the proofs of
    its specified properties (C1 to C10) and of further properties of the
    code (X1 to X25).

    Conventions of the embedding.
    - Python [int] is [Z]; [list] is [list]; [str] is [string], one [ascii]
      per character (text outside ASCII is held as its UTF-8 bytes: it is
      compared for equality, and [strip] knows the white space characters in
      that encoding).
    - Python [float] is an interface ([PyFloat]) with the four operations the
      pipeline's ranking uses.  Structural results are proved for every
      implementation of the interface whose [<] is a strict weak order (IEEE
      binary64 without NaN is one); results on the values of the scores are
      proved in IEEE binary64 ([PrimFloat]), by evaluation over the ranks
      the pipeline can produce; the response of the pipeline is modelled
      with the exact rationals [Q].
    - A [dict] whose iteration order is observed is an insertion-ordered
      association list; a [dict] that is only looked up is a [gmap].
    - A raised exception is the [Raise] outcome; awaited backend calls are
      answered by a [World] of oracles and recorded in a trace of events. *)

From Stdlib Require Import ZArith QArith Qround Qminmax List String Ascii Bool Lia.
From Stdlib Require Import Permutation Sorting.Sorted PrimFloat Uint63.
From stdpp Require Import base option list gmap strings pretty.
Import ListNotations.
Local Open Scope string_scope.
Local Open Scope Z_scope.

(** ** Python values and exceptions *)

Inductive exn : Type :=
| ZeroDivisionError
| KeyError
| ValidationError
| BackendError (msg : string)
| HTTPException (status_code : Z) (cause : exn).

Inductive outcome (A : Type) : Type :=
| Ok (a : A)
| Raise (e : exn).
Arguments Ok {A} a.
Arguments Raise {A} e.

#[global] Instance outcome_ret : MRet outcome := fun _ a => Ok a.
#[global] Instance outcome_bind : MBind outcome := fun _ _ f m =>
  match m with
  | Ok a => f a
  | Raise e => Raise e
  end.

(** The operations on [float] that the ranking code performs. *)
Class PyFloat (F : Type) : Type := {
  fzero : F;                  (* [float()], the default of [defaultdict(float)] *)
  fadd : F -> F -> F;         (* [x + y] *)
  frecip : Z -> F;            (* [1.0 / n] for an [int] [n <> 0] *)
  fltb : F -> F -> bool;      (* [x < y], the comparison [sorted] uses *)
}.

(** [<] is a strict weak order: what [sorted] needs to have one answer. *)
Class PyFloatOrder (F : Type) `{PyFloat F} : Prop := {
  fltb_asym : forall x y : F, fltb x y = true -> fltb y x = false;
  fltb_negtrans : forall x y z : F,
      fltb x z = true -> fltb x y = true \/ fltb y z = true;
}.

(** Exact rational arithmetic. *)
Definition Qltb (x y : Q) : bool :=
  match Qcompare x y with
  | Lt => true
  | _ => false
  end.

#[global] Instance PyFloat_Q : PyFloat Q := {|
  fzero := 0%Q;
  fadd := Qplus;
  frecip := fun n => Qinv (inject_Z n);
  fltb := Qltb;
|}.

(** IEEE binary64, for [int]s in the range of [Uint63]. *)
Definition float_of_int (n : Z) : float :=
  if n <? 0 then PrimFloat.opp (PrimFloat.of_uint63 (Uint63.of_Z (- n)))
  else PrimFloat.of_uint63 (Uint63.of_Z n).

Definition PyFloat_binary64 : PyFloat float := {|
  fzero := PrimFloat.zero;
  fadd := PrimFloat.add;
  frecip := fun n => PrimFloat.div PrimFloat.one (float_of_int n);
  fltb := PrimFloat.ltb;
|}.

(** ** Python built-ins *)

Module Py.

(** [enumerate(l, start)] *)
Fixpoint enumerate {A : Type} (start : Z) (l : list A) : list (Z * A) :=
  match l with
  | [] => []
  | x :: l' => (start, x) :: enumerate (start + 1) l'
  end.

(** [x or y] for [x : int | None]: [None] and [0] are falsy. *)
Definition int_or (x : option Z) (y : Z) : Z :=
  match x with
  | None => y
  | Some v => if v =? 0 then y else v
  end.

(** [l[:n]]: a negative [n] counts from the end. *)
Definition slice_to {A : Type} (l : list A) (n : Z) : list A :=
  if n <? 0 then firstn (Z.to_nat (Z.of_nat (length l) + n)) l
  else firstn (Z.to_nat n) l.

(** One step of the stable descending sort: [x] came before every element
    of the already sorted [l], so it is placed in front of the first
    element that is not strictly greater. *)
Fixpoint insert_desc {A K : Type} (lt : K -> K -> bool) (key : A -> K)
         (x : A) (l : list A) : list A :=
  match l with
  | [] => [x]
  | y :: l' =>
      if lt (key x) (key y) then y :: insert_desc lt key x l'
      else x :: y :: l'
  end.

(** [sorted(l, key=key, reverse=True)]: stable, largest key first. *)
Fixpoint sorted_desc {A K : Type} (lt : K -> K -> bool) (key : A -> K)
         (l : list A) : list A :=
  match l with
  | [] => []
  | x :: l' => insert_desc lt key x (sorted_desc lt key l')
  end.

(** [x in l] for a list of strings *)
Definition str_in (x : string) (l : list string) : bool :=
  existsb (String.eqb x) l.

(** [sep.join(parts)] *)
Fixpoint join (sep : string) (parts : list string) : string :=
  match parts with
  | [] => ""
  | [p] => p
  | p :: rest => String.append p (String.append sep (join sep rest))
  end.

(** Left-to-right loop over a list whose body may raise. *)
Fixpoint foldM {S E : Type} (body : S -> E -> outcome S) (l : list E) (s : S)
  : outcome S :=
  match l with
  | [] => Ok s
  | e :: l' =>
      match body s e with
      | Ok s' => foldM body l' s'
      | Raise ex => Raise ex
      end
  end.

(** A loop that appends one item per element, stopping at the first raise. *)
Fixpoint mapM {A B : Type} (f : A -> outcome B) (l : list A)
  : outcome (list B) :=
  match l with
  | [] => Ok []
  | a :: l' =>
      match f a with
      | Ok b =>
          match mapM f l' with
          | Ok bs => Ok (b :: bs)
          | Raise ex => Raise ex
          end
      | Raise ex => Raise ex
      end
  end.

End Py.

(** ** app/core/config.py *)

Module Config.

Record Settings : Type := {
  LLM_MODEL_NAME : string;
  LLM_TEMPERATURE : Q;
  LLM_MAX_TOKENS : Z;
  RRF_K : Z;
  MAX_RETRIEVE_RESULTS : Z;
  MAX_CONTEXT_TOKENS : Z;
  TOP_K_PERICOPES : Z;
}.

Definition settings : Settings := {|
  LLM_MODEL_NAME := "gemma3:4b";
  LLM_TEMPERATURE := 7 # 10;
  LLM_MAX_TOKENS := 2048;
  RRF_K := 60;
  MAX_RETRIEVE_RESULTS := 20;
  MAX_CONTEXT_TOKENS := 4000;
  TOP_K_PERICOPES := 5;
|}.

End Config.

(** ** The attributes a retrieval result exposes

    [RRFFusion.fuse] takes results of any class ([list[Any]]) and reads these
    nine attributes; the three retrievers' dataclasses all have them. *)

Class PericopeAttrs (A : Type) : Type := {
  attr_id : A -> Z;
  attr_book_id : A -> Z;
  attr_book_name : A -> string;
  attr_chapter_start : A -> Z;
  attr_verse_start : A -> Z;
  attr_chapter_end : A -> Z;
  attr_verse_end : A -> Z;
  attr_title : A -> string;
  attr_text : A -> string;
}.

(** ** app/services/fusion.py *)

Module FusedResult.
Record t {F : Type} : Type := mk {
  id : Z;
  book_id : Z;
  book_name : string;
  chapter_start : Z;
  verse_start : Z;
  chapter_end : Z;
  verse_end : Z;
  title : string;
  text : string;
  score : F;
  sources : list string;
}.
Arguments t : clear implicits.
Arguments mk {F}.
End FusedResult.

Module RRFFusion.

Record t : Type := { k : Z }.

(** [__init__]: [self.k = k or settings.RRF_K] *)
Definition init (cfg : Config.Settings) (k : option Z) : t :=
  {| k := Py.int_or k (Config.RRF_K cfg) |}.

Section Fuse.
Context {F : Type} `{PyFloat F} {A : Type} `{PericopeAttrs A}.

(** [doc_scores[doc_id] += x] on a [defaultdict(float)]: an existing key
    keeps its place, a new key starts from [float()] at the end. *)
Fixpoint add_score (doc_id : Z) (x : F) (d : list (Z * F)) : list (Z * F) :=
  match d with
  | [] => [(doc_id, fadd fzero x)]
  | (i, s) :: d' =>
      if i =? doc_id then (i, fadd s x) :: d'
      else (i, s) :: add_score doc_id x d'
  end.

(** The three dictionaries of [fuse]. *)
Record dicts : Type := {
  doc_scores : list (Z * F);
  doc_data : gmap Z A;
  doc_sources : gmap Z (list string);
}.

Definition empty_dicts : dicts :=
  {| doc_scores := []; doc_data := ∅; doc_sources := ∅ |}.

(** [1.0 / (self.k + rank)], for a [self.k + rank] that [float] holds *)
Definition rrf_score (self : t) (rank : Z) : outcome F :=
  if k self + rank =? 0 then Raise ZeroDivisionError
  else Ok (frecip (k self + rank)).

(** The body of the inner loop, for one [(rank, result)]. *)
Definition visit (self : t) (source_name : string) (d : dicts)
           (e : Z * A) : outcome dicts :=
  let '(rank, result) := e in
  let doc_id := attr_id result in
  rrf ← rrf_score self rank;
  let scores := add_score doc_id rrf (doc_scores d) in
  let data :=
    match doc_data d !! doc_id with
    | Some _ => doc_data d
    | None => <[doc_id := result]> (doc_data d)
    end in
  let seen := default [] (doc_sources d !! doc_id) in
  let srcs :=
    if Py.str_in source_name seen then <[doc_id := seen]> (doc_sources d)
    else <[doc_id := (seen ++ [source_name])%list]> (doc_sources d) in
  Ok {| doc_scores := scores; doc_data := data; doc_sources := srcs |}.

(** The body of the outer loop, for one [(source_name, results)]. *)
Definition visit_source (self : t) (d : dicts)
           (sr : string * list A) : outcome dicts :=
  Py.foldM (visit self (fst sr)) (Py.enumerate 1 (snd sr)) d.

(** One [FusedResult(...)] of the second loop. *)
Definition build (d : dicts) (item : Z * F) : outcome (FusedResult.t F) :=
  let '(doc_id, rrf) := item in
  match doc_data d !! doc_id with
  | None => Raise KeyError
  | Some data =>
      Ok (FusedResult.mk doc_id (attr_book_id data) (attr_book_name data)
            (attr_chapter_start data) (attr_verse_start data)
            (attr_chapter_end data) (attr_verse_end data)
            (attr_title data) (attr_text data) rrf
            (default [] (doc_sources d !! doc_id)))
  end.

Definition fuse (self : t) (result_lists : list (string * list A))
  : outcome (list (FusedResult.t F)) :=
  d ← Py.foldM (visit_source self) result_lists empty_dicts;
  Py.mapM (build d) (Py.sorted_desc fltb snd (doc_scores d)).

End Fuse.
Arguments dicts : clear implicits.

End RRFFusion.

(** ** Strings: the [str] methods the pipeline calls

    [upper] acts on the ASCII letters.  [strip] removes the characters of
    [str.isspace]: the ASCII ones and, in their UTF-8 encoding, U+0085,
    U+00A0, U+1680, U+2000 to U+200A, U+2028, U+2029, U+202F, U+205F and
    U+3000. *)

Module Str.

Definition len (s : string) : Z := Z.of_nat (String.length s).

Definition upper_char (c : ascii) : ascii :=
  let n := nat_of_ascii c in
  if ((97 <=? n) && (n <=? 122))%nat then ascii_of_nat (n - 32) else c.

(** [s.upper()] *)
Fixpoint upper (s : string) : string :=
  match s with
  | EmptyString => EmptyString
  | String c s' => String (upper_char c) (upper s')
  end.

(** White space of one byte: U+0009 to U+000D, U+001C to U+0020. *)
Definition is_space (c : ascii) : bool :=
  let n := nat_of_ascii c in
  (((9 <=? n) && (n <=? 13)) || ((28 <=? n) && (n <=? 32)))%nat.

(** White space of two bytes: U+0085 and U+00A0. *)
Definition is_space2 (c1 c2 : ascii) : bool :=
  let n1 := nat_of_ascii c1 in
  let n2 := nat_of_ascii c2 in
  ((n1 =? 194) && ((n2 =? 133) || (n2 =? 160)))%nat.

(** White space of three bytes: U+1680, U+2000 to U+200A, U+2028, U+2029,
    U+202F, U+205F and U+3000. *)
Definition is_space3 (c1 c2 c3 : ascii) : bool :=
  let n1 := nat_of_ascii c1 in
  let n2 := nat_of_ascii c2 in
  let n3 := nat_of_ascii c3 in
  (((n1 =? 225) && (n2 =? 154) && (n3 =? 128))
   || ((n1 =? 226) && (n2 =? 128)
       && (((128 <=? n3) && (n3 <=? 138))
           || (n3 =? 168) || (n3 =? 169) || (n3 =? 175)))
   || ((n1 =? 226) && (n2 =? 129) && (n3 =? 159))
   || ((n1 =? 227) && (n2 =? 128) && (n3 =? 128)))%nat.

(** [s] is one white space character. *)
Definition is_space_char (s : string) : bool :=
  match s with
  | String c1 EmptyString => is_space c1
  | String c1 (String c2 EmptyString) => is_space2 c1 c2
  | String c1 (String c2 (String c3 EmptyString)) => is_space3 c1 c2 c3
  | _ => false
  end.

Fixpoint lstrip (s : string) : string :=
  match s with
  | EmptyString => EmptyString
  | String c1 s1 =>
      if is_space c1 then lstrip s1
      else
        match s1 with
        | EmptyString => s
        | String c2 s2 =>
            if is_space2 c1 c2 then lstrip s2
            else
              match s2 with
              | EmptyString => s
              | String c3 s3 => if is_space3 c1 c2 c3 then lstrip s3 else s
              end
        end
  end.

Fixpoint rstrip (s : string) : string :=
  match s with
  | EmptyString => EmptyString
  | String c s' =>
      let r := String c (rstrip s') in
      if is_space_char r then EmptyString else r
  end.

(** [s.strip()] *)
Definition strip (s : string) : string := rstrip (lstrip s).

(** [s.split(sep)] for a one-character separator *)
Fixpoint split (sep : ascii) (s : string) : list string :=
  match s with
  | EmptyString => [EmptyString]
  | String c s' =>
      if Ascii.eqb c sep then EmptyString :: split sep s'
      else
        match split sep s' with
        | [] => [String c EmptyString]
        | w :: ws => String c w :: ws
        end
  end.

(** [sub in s] *)
Fixpoint contains (sub s : string) : bool :=
  String.prefix sub s ||
  match s with
  | EmptyString => false
  | String _ s' => contains sub s'
  end.

(** [s[:n]] for [n >= 0] *)
Definition take (n : nat) (s : string) : string := String.substring 0 n s.

(** [str(n)] for an [int] *)
Definition of_int (n : Z) : string := pretty.pretty n.

End Str.

(** ** The retrievers' result dataclasses *)

(** [RetrievalResult] of dense_retriever.py; [SparseRetrievalResult] of
    sparse_retriever.py has the same fields under another class name. *)
Module RetrievalResult.
Record t : Type := mk {
  id : Z;
  book_id : Z;
  book_name : string;
  chapter_start : Z;
  verse_start : Z;
  chapter_end : Z;
  verse_end : Z;
  title : string;
  text : string;
  score : Q;
}.
End RetrievalResult.

(** The [graph_context] dict of a graph result: [{"type": ..., "entities":
    ..., "mention_count" | "weight": ...}]. *)
Module GraphCtx.
Record t : Type := mk {
  type : string;
  entities : list string;
  amount : Q;
}.
End GraphCtx.

Module GraphRetrievalResult.
Record t : Type := mk {
  id : Z;
  book_id : Z;
  book_name : string;
  chapter_start : Z;
  verse_start : Z;
  chapter_end : Z;
  verse_end : Z;
  title : string;
  text : string;
  score : Q;
  graph_context : GraphCtx.t;
}.

(** The [reference] property. *)
Definition reference (self : t) : string :=
  if chapter_start self =? chapter_end self then
    book_name self +:+ " " +:+ Str.of_int (chapter_start self) +:+ ":"
      +:+ Str.of_int (verse_start self) +:+ "-" +:+ Str.of_int (verse_end self)
  else
    book_name self +:+ " " +:+ Str.of_int (chapter_start self) +:+ ":"
      +:+ Str.of_int (verse_start self) +:+ "-"
      +:+ Str.of_int (chapter_end self) +:+ ":" +:+ Str.of_int (verse_end self).
End GraphRetrievalResult.

#[global] Instance RetrievalResult_attrs : PericopeAttrs RetrievalResult.t := {|
  attr_id := RetrievalResult.id;
  attr_book_id := RetrievalResult.book_id;
  attr_book_name := RetrievalResult.book_name;
  attr_chapter_start := RetrievalResult.chapter_start;
  attr_verse_start := RetrievalResult.verse_start;
  attr_chapter_end := RetrievalResult.chapter_end;
  attr_verse_end := RetrievalResult.verse_end;
  attr_title := RetrievalResult.title;
  attr_text := RetrievalResult.text;
|}.

#[global] Instance GraphRetrievalResult_attrs
  : PericopeAttrs GraphRetrievalResult.t := {|
  attr_id := GraphRetrievalResult.id;
  attr_book_id := GraphRetrievalResult.book_id;
  attr_book_name := GraphRetrievalResult.book_name;
  attr_chapter_start := GraphRetrievalResult.chapter_start;
  attr_verse_start := GraphRetrievalResult.verse_start;
  attr_chapter_end := GraphRetrievalResult.chapter_end;
  attr_verse_end := GraphRetrievalResult.verse_end;
  attr_title := GraphRetrievalResult.title;
  attr_text := GraphRetrievalResult.text;
|}.

(** An element of a fusion input list in the pipeline: a result of either
    class. *)
Inductive AnyResult : Type :=
| Plain (r : RetrievalResult.t)
| FromGraph (g : GraphRetrievalResult.t).

Definition any_attr {B : Type} (f : RetrievalResult.t -> B)
           (g : GraphRetrievalResult.t -> B) (x : AnyResult) : B :=
  match x with
  | Plain r => f r
  | FromGraph r => g r
  end.

#[global] Instance AnyResult_attrs : PericopeAttrs AnyResult := {|
  attr_id := any_attr attr_id attr_id;
  attr_book_id := any_attr attr_book_id attr_book_id;
  attr_book_name := any_attr attr_book_name attr_book_name;
  attr_chapter_start := any_attr attr_chapter_start attr_chapter_start;
  attr_verse_start := any_attr attr_verse_start attr_verse_start;
  attr_chapter_end := any_attr attr_chapter_end attr_chapter_end;
  attr_verse_end := any_attr attr_verse_end attr_verse_end;
  attr_title := any_attr attr_title attr_title;
  attr_text := any_attr attr_text attr_text;
|}.

(** ** app/services/context_builder.py *)

Module ContextBuilder.

Record t : Type := { max_tokens : Z }.

(** [__init__]: [self.max_tokens = max_tokens or settings.MAX_CONTEXT_TOKENS] *)
Definition init (cfg : Config.Settings) (max_tokens : option Z) : t :=
  {| max_tokens := Py.int_or max_tokens (Config.MAX_CONTEXT_TOKENS cfg) |}.

(** [int(self.max_tokens * self.chars_per_token)] with [chars_per_token =
    1.5]: the product is exact in binary64 for [|max_tokens| < 2^51], and
    [int] truncates toward zero. *)
Definition max_chars (self : t) : Z := Z.quot (3 * max_tokens self) 2.

(** The separator of [join]: [\n\n---\n\n]. *)
Definition nl : string := String (ascii_of_nat 10) EmptyString.
Definition separator : string := nl +:+ nl +:+ "---" +:+ nl +:+ nl.

(** The context returned for an empty result list (held as UTF-8). *)
Definition no_results_text : string := "沒有找到相關經文。".

Record Metadata {F : Type} : Type := {
  md_id : Z;
  md_book : string;
  md_reference : string;
  md_title : string;
  md_score : F;
  md_sources : list string;
}.
Arguments Metadata : clear implicits.

Section Build.
Context {F : Type}.
Abbreviation FR := (FusedResult.t F).

Definition _format_reference (result : FR) : string :=
  let book := FusedResult.book_name result in
  let cs := Str.of_int (FusedResult.chapter_start result) in
  let vs := Str.of_int (FusedResult.verse_start result) in
  let ce := Str.of_int (FusedResult.chapter_end result) in
  let ve := Str.of_int (FusedResult.verse_end result) in
  if FusedResult.chapter_start result =? FusedResult.chapter_end result then
    if FusedResult.verse_start result =? FusedResult.verse_end result then
      book +:+ " " +:+ cs +:+ ":" +:+ vs
    else book +:+ " " +:+ cs +:+ ":" +:+ vs +:+ "-" +:+ ve
  else book +:+ " " +:+ cs +:+ ":" +:+ vs +:+ "-" +:+ ce +:+ ":" +:+ ve.

Definition _format_pericope (result : FR) : string :=
  let reference := _format_reference result in
  Py.join nl
    [ "### " +:+ FusedResult.title result;
      "**" +:+ reference +:+ "**";
      "";
      FusedResult.text result ].

Definition metadata_of (result : FR) : Metadata F :=
  {| md_id := FusedResult.id result;
     md_book := FusedResult.book_name result;
     md_reference := _format_reference result;
     md_title := FusedResult.title result;
     md_score := FusedResult.score result;
     md_sources := FusedResult.sources result |}.

(** The [for result in results] loop of [build_with_metadata], from the
    state [(context_parts, metadata, total_chars)]; the first branch is the
    [break]. *)
Fixpoint collect (max_chars : Z) (results : list FR)
         (context_parts : list string) (metadata : list (Metadata F))
         (total_chars : Z) : list string * list (Metadata F) :=
  match results with
  | [] => (context_parts, metadata)
  | result :: rest =>
      let pericope_text := _format_pericope result in
      let part_length := Str.len pericope_text in
      if (total_chars + part_length >? max_chars)
         && negb (Nat.eqb (length context_parts) 0)
      then (context_parts, metadata)
      else collect max_chars rest
             (context_parts ++ [pericope_text])%list
             (metadata ++ [metadata_of result])%list
             (total_chars + part_length)
  end.

Definition build_with_metadata (self : t) (results : list FR)
  : string * list (Metadata F) :=
  match results with
  | [] => (no_results_text, [])
  | _ =>
      let '(context_parts, metadata) :=
        collect (max_chars self) results [] [] 0 in
      (Py.join separator context_parts, metadata)
  end.

(** The [for i, result in enumerate(results)] loop of [build], from the
    state [(context_parts, total_chars)]; the first branch is the [break]. *)
Fixpoint collect_parts (max_chars : Z) (results : list (Z * FR))
         (context_parts : list string) (total_chars : Z) : list string :=
  match results with
  | [] => context_parts
  | (i, result) :: rest =>
      let reference := _format_reference result in
      let pericope_text := _format_pericope result in
      let part_length := Str.len pericope_text in
      if (total_chars + part_length >? max_chars)
         && negb (Nat.eqb (length context_parts) 0)
      then context_parts
      else collect_parts max_chars rest
             (context_parts ++ [pericope_text])%list
             (total_chars + part_length)
  end.

Definition build (self : t) (results : list FR) (query : option string)
  : string :=
  match results with
  | [] => no_results_text
  | _ =>
      Py.join separator
        (collect_parts (max_chars self) (Py.enumerate 0 results) [] 0)
  end.

End Build.

End ContextBuilder.

(** ** Awaited backend calls

    Every [await] on a backend is one [event]; the [World] answers it.  A
    computation returns the events it caused, in order, and its outcome. *)

(** The three fixed system prompts of the code base. *)
Inductive SystemPrompt : Type :=
| ClassifierPrompt      (* [classify_query], llm_client.py *)
| EntityPrompt          (* [_extract_entities_from_query], graph_retriever.py *)
| AnswerPrompt.         (* [generate_answer], llm_client.py *)

(** The three Cypher texts of graph_retriever.py. *)
Inductive Cypher : Type :=
| PersonCypher
| TopicCypher
| EventCypher.

(** The parameter dict of a Cypher run: [{"names" | "topics" | "events":
    ..., "limit": ...}]. *)
Record CypherParams : Type := {
  cp_names : list string;
  cp_limit : Z;
}.

(** A record of a Cypher result, already [dict(record)]; [row_amount] is the
    [mention_count] or [total_weight] column and [row_names] the collected
    person, topic or event names. *)
Record Row : Type := {
  row_id : Z;
  row_book_id : Z;
  row_book_name : string;
  row_chapter_start : Z;
  row_verse_start : Z;
  row_chapter_end : Z;
  row_verse_end : Z;
  row_title : string;
  row_verse_texts : list string;
  row_amount : Q;
  row_names : list string;
}.

Inductive event : Type :=
| LLMChat (system_prompt : SystemPrompt) (prompt : string)
          (temperature : Q) (num_predict : Z)
| DenseRetrieve (query : string) (top_k : Z)
| SparseRetrieve (query : string) (top_k : Z)
| Neo4jRun (query : Cypher) (parameters : CypherParams).

Record World : Type := {
  cfg : Config.Settings;
  (** [get_embedding_service()], which loads the embedding model, and
      [get_llm_client()], which builds the Ollama client: either may raise *)
  get_embedding_service : outcome unit;
  get_llm_client : outcome unit;
  (** [AsyncClient.chat], reduced to [response["message"]["content"]] *)
  ollama_chat : SystemPrompt -> string -> Q -> Z -> outcome string;
  (** [DenseRetriever.retrieve] and [SparseRetriever.retrieve] *)
  dense_retrieve : string -> Z -> outcome (list RetrievalResult.t);
  sparse_retrieve : string -> Z -> outcome (list RetrievalResult.t);
  (** [Neo4jClient._initialized] and [Neo4jClient._driver is not None] *)
  neo4j_initialized : bool;
  neo4j_driver : bool;
  (** [session.run(query, parameters)] followed by [result.data()] *)
  neo4j_run : Cypher -> CypherParams -> outcome (list Row);
  (** the [n]-th reading of [time.time()], in seconds *)
  time_time : nat -> Q;
}.

Definition M (A : Type) : Type := list event * outcome A.

#[global] Instance M_ret : MRet M := fun _ a => ([], Ok a).
#[global] Instance M_bind : MBind M := fun _ _ f m =>
  match m with
  | (t, Ok a) => let '(t', r) := f a in ((t ++ t')%list, r)
  | (t, Raise e) => (t, Raise e)
  end.

(** An awaited call: the event and the world's answer. *)
Definition await {A : Type} (e : event) (answer : outcome A) : M A :=
  ([e], answer).

(** [try: body  except Exception as e: handler(e)] *)
Definition try_except {A : Type} (body : M A) (handler : exn -> M A) : M A :=
  match body with
  | (t, Ok a) => (t, Ok a)
  | (t, Raise e) => let '(t', r) := handler e in ((t ++ t')%list, r)
  end.

Definition trace {A : Type} (m : M A) : list event := fst m.
Definition result {A : Type} (m : M A) : outcome A := snd m.

(** ** app/services/llm_client.py *)

Module OllamaLLMClient.

(** [x or y] for [x : float | None] *)
Definition float_or (x : option Q) (y : Q) : Q :=
  match x with
  | None => y
  | Some v => if Qeq_bool v 0 then y else v
  end.

Definition generate (w : World) (prompt : string)
           (system_prompt : SystemPrompt)
           (temperature : option Q) (max_tokens : option Z) : M string :=
  let t := float_or temperature (Config.LLM_TEMPERATURE (cfg w)) in
  let n := Py.int_or max_tokens (Config.LLM_MAX_TOKENS (cfg w)) in
  await (LLMChat system_prompt prompt t n)
        (ollama_chat w system_prompt prompt t n).

Definition valid_types : list string :=
  [ "VERSE_LOOKUP"; "TOPIC_QUESTION"; "PERSON_QUESTION"; "EVENT_QUESTION";
    "GENERAL_BIBLE_QUESTION" ].

Definition classify_query (w : World) (query : string) : M string :=
  response ← generate w ("請分類這個問題：" +:+ query) ClassifierPrompt
               (Some (1 # 10)%Q) (Some 50);
  let response := Str.upper (Str.strip response) in
  mret (match List.find (fun query_type => Str.contains query_type response)
                valid_types with
        | Some query_type => query_type
        | None => "GENERAL_BIBLE_QUESTION"
        end).

Definition answer_prompt (query context query_type : string) : string :=
  let nl := ContextBuilder.nl in
  "問題類型：" +:+ query_type +:+ nl +:+ nl +:+
  "用戶問題：" +:+ query +:+ nl +:+ nl +:+
  "參考經文：" +:+ nl +:+ context +:+ nl +:+ nl +:+
  "請根據以上經文回答用戶的問題。".

Definition generate_answer (w : World) (query context query_type : string)
  : M string :=
  generate w (answer_prompt query context query_type) AnswerPrompt
           (Some (Config.LLM_TEMPERATURE (cfg w)))
           (Some (Config.LLM_MAX_TOKENS (cfg w))).

End OllamaLLMClient.

(** ** app/core/neo4j_client.py *)

Module Neo4jClient.

Definition is_available (w : World) : bool :=
  neo4j_initialized w && neo4j_driver w.

Definition execute_read (w : World) (query : Cypher)
           (parameters : CypherParams) : M (list Row) :=
  if negb (is_available w) then mret []
  else try_except (await (Neo4jRun query parameters)
                         (neo4j_run w query parameters))
                  (fun _ => mret []).

End Neo4jClient.

(** *** The class state of [Neo4jClient]

    [initialize], [close], [execute_write] and [health_check] read and write
    the class attributes [_driver] and [_initialized]; here the attributes
    are a record that every method takes and, when it writes, returns. *)

Module Neo4jClientState.

Inductive error : Type :=
| ServiceUnavailable                 (* neo4j.exceptions *)
| AuthError                          (* neo4j.exceptions *)
| RuntimeError (msg : string)
| OtherError (msg : string).         (* any other [Exception] *)

Inductive res (A : Type) : Type :=
| Returns (a : A)
| Raises (e : error).
Arguments Returns {A} a.
Arguments Raises {A} e.

(** What an [AsyncDriver] does when called; a record of a query result is a
    dict from column names to integers. *)
Record Driver : Type := {
  verify_connectivity : res unit;
  driver_close : res unit;
  (** [session.run(query, parameters)] followed by [result.data()] *)
  session_run : string -> res (list (list (string * Z)));
}.

Record t : Type := {
  _driver : option Driver;
  _initialized : bool;
}.

(** The class attributes as declared. *)
Definition initial : t := {| _driver := None; _initialized := false |}.

(** [except (ServiceUnavailable, AuthError)] of [initialize]; any other
    exception leaves the attributes as they are and propagates. *)
Definition connection_failed (e : error) (cls : t) : t * res unit :=
  match e with
  | ServiceUnavailable | AuthError =>
      ({| _driver := None; _initialized := false |}, Returns tt)
  | _ => (cls, Raises e)
  end.

(** [initialize]; [connect] is what [AsyncGraphDatabase.driver(...)] does. *)
Definition initialize (connect : res Driver) (cls : t) : t * res unit :=
  match _driver cls with
  | Some _ => (cls, Returns tt)
  | None =>
      match connect with
      | Raises e => connection_failed e cls
      | Returns driver =>
          let cls := {| _driver := Some driver;
                        _initialized := _initialized cls |} in
          match verify_connectivity driver with
          | Raises e => connection_failed e cls
          | Returns _ =>
              ({| _driver := Some driver; _initialized := true |}, Returns tt)
          end
      end
  end.

Definition close (cls : t) : t * res unit :=
  match _driver cls with
  | Some driver =>
      match driver_close driver with
      | Raises e => (cls, Raises e)
      | Returns _ => ({| _driver := None; _initialized := false |}, Returns tt)
      end
  | None => (cls, Returns tt)
  end.

Definition is_available (cls : t) : bool :=
  _initialized cls &&
  match _driver cls with Some _ => true | None => false end.

(** [async with cls.session() as session: await session.run(query, ...)] *)
Definition in_session (cls : t) (query : string)
  : res (list (list (string * Z))) :=
  match _driver cls with
  | None =>
      Raises (RuntimeError "Neo4j is not initialized. Call initialize() first.")
  | Some driver => session_run driver query
  end.

Definition execute_read (cls : t) (query : string)
  : res (list (list (string * Z))) :=
  if negb (is_available cls) then Returns []
  else
    match in_session cls query with
    | Returns records => Returns records
    | Raises _ => Returns []
    end.

Definition execute_write (cls : t) (query : string) : res unit :=
  if negb (is_available cls) then Raises (RuntimeError "Neo4j is not available")
  else
    match in_session cls query with
    | Returns _ => Returns tt
    | Raises e => Raises e
    end.

(** The [status] of the dict [health_check] returns. *)
Inductive Health : Type :=
| Unavailable
| Healthy
| Unhealthy (e : error)
| Unknown.

(** [record.get(key)] *)
Definition record_get (record : list (string * Z)) (key : string) : option Z :=
  option_map snd (List.find (fun kv => String.eqb (fst kv) key) record).

Definition health_check (cls : t) : Health :=
  if negb (is_available cls) then Unavailable
  else
    match execute_read cls "RETURN 1 as n" with
    | Raises e => Unhealthy e
    | Returns result =>
        match result with
        | record :: _ =>
            match record_get record "n" with
            | Some 1 => Healthy
            | _ => Unknown
            end
        | [] => Unknown
        end
    end.

End Neo4jClientState.

(** ** app/services/retrievers/graph_retriever.py *)

Module GraphRetriever.

(** [llm_client] is [true] when the retriever was given an LLM client. *)
Record t : Type := { llm_client : bool }.

(** [min(1.0, weight / 10.0)] *)
Definition _calculate_score (weight : Q) : Q := Qmin 1 (weight / 10).

Definition entity_prompt (query query_type : string) : string :=
  "問題類型: " +:+ query_type +:+ ContextBuilder.nl +:+ "問題: " +:+ query.

Definition nonempty (s : string) : bool := negb (String.eqb s "").

Definition _extract_entities_from_query (self : t) (w : World)
           (query query_type : string) : M (list string) :=
  if negb (llm_client self) then mret [query]
  else
    try_except
      (response ← OllamaLLMClient.generate w (entity_prompt query query_type)
                    EntityPrompt (Some (1 # 10)%Q) (Some 100);
       let entities := List.map Str.strip
                         (Str.split "," (Str.strip response)) in
       mret (List.filter nonempty entities))
      (fun _ => mret [query]).

(** The list comprehension shared by the three scoped strategies. *)
Definition result_of_row (kind : string) (r : Row) : GraphRetrievalResult.t :=
  GraphRetrievalResult.mk (row_id r) (row_book_id r) (row_book_name r)
    (row_chapter_start r) (row_verse_start r) (row_chapter_end r)
    (row_verse_end r) (row_title r)
    (Py.join ContextBuilder.nl (firstn 5 (row_verse_texts r)))
    (_calculate_score (row_amount r))
    (GraphCtx.mk kind (row_names r) (row_amount r)).

Definition scoped (w : World) (query : Cypher) (kind : string)
           (names : list string) (top_k : Z) : M (list GraphRetrievalResult.t) :=
  results ← try_except
              (Neo4jClient.execute_read w query
                 {| cp_names := names; cp_limit := top_k |})
              (fun _ => mret []);
  mret (List.map (result_of_row kind) results).

Definition _retrieve_by_person (w : World) := scoped w PersonCypher "person".
Definition _retrieve_by_topic (w : World) := scoped w TopicCypher "topic".
Definition _retrieve_by_event (w : World) := scoped w EventCypher "event".

(** The deduplication loop of [_retrieve_general], from the state
    [(seen_ids, unique_results)]. *)
Fixpoint dedup (l : list GraphRetrievalResult.t) (seen_ids : gset Z)
         (unique_results : list GraphRetrievalResult.t)
  : list GraphRetrievalResult.t :=
  match l with
  | [] => unique_results
  | r :: l' =>
      if decide (GraphRetrievalResult.id r ∈ seen_ids)
      then dedup l' seen_ids unique_results
      else dedup l' ({[GraphRetrievalResult.id r]} ∪ seen_ids)
                 (unique_results ++ [r])%list
  end.

Definition _retrieve_general (w : World) (keywords : list string) (top_k : Z)
  : M (list GraphRetrievalResult.t) :=
  let k_per_type := Z.max (top_k / 3) 5 in
  person_results ← _retrieve_by_person w keywords k_per_type;
  topic_results ← _retrieve_by_topic w keywords k_per_type;
  event_results ← _retrieve_by_event w keywords k_per_type;
  let all_results := (person_results ++ topic_results ++ event_results)%list in
  let unique_results :=
    dedup (Py.sorted_desc Qltb GraphRetrievalResult.score all_results) ∅ [] in
  mret (Py.slice_to unique_results top_k).

Definition retrieve (self : t) (w : World) (query query_type : string)
           (top_k : Z) : M (list GraphRetrievalResult.t) :=
  if negb (Neo4jClient.is_available w) then mret []
  else
    entities ← _extract_entities_from_query self w query query_type;
    match entities with
    | [] => mret []
    | _ =>
        if String.eqb query_type "PERSON_QUESTION" then
          _retrieve_by_person w entities top_k
        else if String.eqb query_type "TOPIC_QUESTION" then
          _retrieve_by_topic w entities top_k
        else if String.eqb query_type "EVENT_QUESTION" then
          _retrieve_by_event w entities top_k
        else _retrieve_general w entities top_k
    end.

End GraphRetriever.

(** ** app/services/retrievers/sparse_retriever.py

    The retriever as the code runs it against PostgreSQL: the three
    statements it executes are answered by a [Db]. *)

Module SparseRetriever.

(** A [Pericope] row with its [book] relationship loaded:
    [book_name_zh] is [pericope.book.name_zh], absent when [pericope.book]
    is [None]. *)
Record Pericope : Type := {
  id : Z;
  book_id : Z;
  book_name_zh : option string;
  chapter_start : Z;
  verse_start : Z;
  chapter_end : Z;
  verse_end : Z;
  title : string;
}.

Record Db : Type := {
  (** the verse statement, for the query text and its [LIMIT]: the rows
      [(pericope_id, rank)] *)
  verse_ranks : string -> Z -> outcome (list (Z * Q));
  (** [select(Pericope).where(Pericope.id.in_(pericope_ids))] *)
  pericopes_in : list Z -> outcome (list Pericope);
  (** [select(Verse.text).where(Verse.pericope_id == id)], in verse order *)
  verse_texts : Z -> outcome (list string);
}.

(** [d[key] = value] on a dict: an existing key keeps its place. *)
Fixpoint dict_set (key : Z) (value : Q) (d : list (Z * Q)) : list (Z * Q) :=
  match d with
  | [] => [(key, value)]
  | (k, v) :: d' =>
      if k =? key then (k, value) :: d' else (k, v) :: dict_set key value d'
  end.

(** [{row.pericope_id: row.rank for row in rows}] *)
Definition ranks_dict (rows : list (Z * Q)) : list (Z * Q) :=
  fold_left (fun d row => dict_set (fst row) (snd row) d) rows [].

(** [pericope_ranks.get(key, 0)] *)
Definition get (d : list (Z * Q)) (key : Z) : Q :=
  match List.find (fun kv => fst kv =? key) d with
  | Some kv => snd kv
  | None => 0
  end.

(** [min(1.0, raw_rank / 0.5) if raw_rank > 0 else 0.0] *)
Definition normalized_score (raw_rank : Q) : Q :=
  if Qltb 0 raw_rank then Qmin 1 (raw_rank / (1 # 2)) else 0.

(** The body of the loop over the pericopes. *)
Definition result_of (db : Db) (pericope_ranks : list (Z * Q))
           (pericope : Pericope) : outcome RetrievalResult.t :=
  verse_texts ← verse_texts db (id pericope);
  let full_text := Py.join ContextBuilder.nl verse_texts in
  let raw_rank := get pericope_ranks (id pericope) in
  Ok (RetrievalResult.mk (id pericope) (book_id pericope)
        (default "Unknown" (book_name_zh pericope))
        (chapter_start pericope) (verse_start pericope)
        (chapter_end pericope) (verse_end pericope) (title pericope)
        full_text (normalized_score raw_rank)).

Definition retrieve (db : Db) (query : string) (top_k : Z)
  : outcome (list RetrievalResult.t) :=
  rows ← verse_ranks db query (top_k * 2);
  let pericope_ranks := ranks_dict rows in
  match pericope_ranks with
  | [] => Ok []
  | _ =>
      let pericope_ids := Py.slice_to (List.map fst pericope_ranks) top_k in
      pericopes ← pericopes_in db pericope_ids;
      results ← Py.mapM (result_of db pericope_ranks) pericopes;
      Ok (Py.slice_to (Py.sorted_desc Qltb RetrievalResult.score results)
                      top_k)
  end.

End SparseRetriever.

(** ** app/services/retrievers/dense_retriever.py *)

Module DenseRetriever.

(** A row of the similarity statement. *)
Record Row : Type := {
  id : Z;
  book_id : Z;
  chapter_start : Z;
  verse_start : Z;
  chapter_end : Z;
  verse_end : Z;
  title : string;
  distance : Q;
}.

Record Db : Type := {
  (** [embed_service.encode(query)] then the similarity statement with its
      [LIMIT]: the rows in ascending cosine distance *)
  nearest : string -> Z -> outcome (list Row);
  (** [select(Pericope).where(Pericope.id == id)] then [scalar_one()], which
      raises unless there is exactly one row; the answer is
      [pericope.book.name_zh], absent when [pericope.book] is [None] *)
  book_name_zh : Z -> outcome (option string);
  (** [select(Verse.text).where(Verse.pericope_id == id)], in verse order *)
  verse_texts : Z -> outcome (list string);
}.

(** The body of the loop over the rows. *)
Definition result_of (db : Db) (row : Row) : outcome RetrievalResult.t :=
  book ← book_name_zh db (id row);
  let book_name := default "Unknown" book in
  verse_texts ← verse_texts db (id row);
  let full_text := Py.join ContextBuilder.nl verse_texts in
  let similarity := (1 - distance row)%Q in
  Ok (RetrievalResult.mk (id row) (book_id row) book_name
        (chapter_start row) (verse_start row) (chapter_end row)
        (verse_end row) (title row) full_text similarity).

Definition retrieve (db : Db) (query : string) (top_k : Z)
  : outcome (list RetrievalResult.t) :=
  rows ← nearest db query top_k;
  Py.mapM (result_of db) rows.

End DenseRetriever.

(** ** app/models/schemas/query.py *)

Module QueryMode.
Inductive t : Type := AUTO | VERSE | TOPIC | PERSON | EVENT.

Definition value (m : t) : string :=
  match m with
  | AUTO => "auto"
  | VERSE => "verse"
  | TOPIC => "topic"
  | PERSON => "person"
  | EVENT => "event"
  end.

Definition all : list t := [AUTO; VERSE; TOPIC; PERSON; EVENT].

(** Validation of the [mode] field: the member with that value. *)
Definition of_value (s : string) : outcome t :=
  match List.find (fun m => String.eqb (value m) s) all with
  | Some m => Ok m
  | None => Raise ValidationError
  end.
End QueryMode.

Module QueryOptions.
Record t : Type := { max_results : Z; include_graph : bool }.

(** The [options] object of a request body, each field possibly absent. *)
Record body : Type := {
  body_max_results : option Z;
  body_include_graph : option bool;
}.

(** [max_results: int = Field(default=5, ge=1, le=20)],
    [include_graph: bool = Field(default=False)] *)
Definition validate (b : body) : outcome t :=
  let m := default 5 (body_max_results b) in
  if (1 <=? m) && (m <=? 20)
  then Ok {| max_results := m;
             include_graph := default false (body_include_graph b) |}
  else Raise ValidationError.
End QueryOptions.

Module QueryRequest.
Record t : Type := {
  query : string;
  mode : QueryMode.t;
  options : QueryOptions.t;
}.

Record body : Type := {
  body_query : string;
  body_mode : option string;
  body_options : option QueryOptions.body;
}.

(** [query: str = Field(..., min_length=1, max_length=500)],
    [mode = Field(default=QueryMode.AUTO)],
    [options = Field(default_factory=QueryOptions)] *)
Definition validate (b : body) : outcome t :=
  if negb ((1 <=? Str.len (body_query b)) && (Str.len (body_query b) <=? 500))
  then Raise ValidationError
  else
    m ← match body_mode b with
         | None => Ok QueryMode.AUTO
         | Some s => QueryMode.of_value s
         end;
    o ← QueryOptions.validate
          (default {| QueryOptions.body_max_results := None;
                      QueryOptions.body_include_graph := None |}
                   (body_options b));
    Ok {| query := body_query b; mode := m; options := o |}.
End QueryRequest.

Module PericopeSegment.
Record t : Type := {
  id : Z;
  type : string;
  book : string;
  chapter_start : Z;
  verse_start : Z;
  chapter_end : Z;
  verse_end : Z;
  title : string;
  text_excerpt : string;
  relevance_score : Q;
}.

(** [relevance_score: float = Field(ge=0.0, le=1.0)] *)
Definition validate (s : t) : outcome t :=
  if Qle_bool 0 (relevance_score s) && Qle_bool (relevance_score s) 1
  then Ok s else Raise ValidationError.
End PericopeSegment.

Module QueryMeta.
Record t : Type := {
  query_type : string;
  used_retrievers : list string;
  total_processing_time_ms : Z;
  llm_model : string;
}.

(** [total_processing_time_ms: int = Field(ge=0)] *)
Definition validate (m : t) : outcome t :=
  if 0 <=? total_processing_time_ms m then Ok m else Raise ValidationError.
End QueryMeta.

Module GraphContext.
Record t : Type := {
  related_topics : list string;
  related_persons : list string;
}.
End GraphContext.

Module QueryResponse.
Record t : Type := {
  answer : string;
  segments : list PericopeSegment.t;
  meta : QueryMeta.t;
  graph_context : option GraphContext.t;
}.
End QueryResponse.

(** ** app/services/rag_pipeline.py *)

Module RAGPipeline.

Record t : Type := {
  use_graph : bool;
  graph_retriever : option GraphRetriever.t;
  fusion : RRFFusion.t;
  context_builder : ContextBuilder.t;
}.

(** [__init__]; the [GraphRetriever] is built with the pipeline's LLM
    client. *)
Definition init (w : World) (use_graph : bool) : t :=
  {| use_graph := use_graph;
     graph_retriever :=
       if use_graph then Some {| GraphRetriever.llm_client := true |}
       else None;
     fusion := RRFFusion.init (cfg w) None;
     context_builder := ContextBuilder.init (cfg w) None |}.

(** The [options] dict of [execute], each key possibly absent. *)
Record Options : Type := {
  opt_max_results : option Z;
  opt_include_graph : option bool;
}.
Definition no_options : Options :=
  {| opt_max_results := None; opt_include_graph := None |}.

(** The answer used when nothing was retrieved (held as UTF-8). *)
Definition apology : string :=
  "抱歉，我找不到與您問題相關的聖經經文。請嘗試用不同的方式描述您的問題。".

Definition lift {A : Type} (o : outcome A) : M A := ([], o).

Definition is_empty {A : Type} (l : list A) : bool :=
  match l with [] => true | _ => false end.

(** Step 1: classify the query. *)
Definition classify (w : World) (query mode : string) : M string :=
  if String.eqb mode "auto" then OllamaLLMClient.classify_query w query
  else mret (Str.upper mode).

(** What step 2 leaves behind. *)
Record Retrieved : Type := {
  dense_results : list RetrievalResult.t;
  sparse_results : list RetrievalResult.t;
  graph_results : list GraphRetrievalResult.t;
  graph_context_data : list string * list string;  (* topics, persons *)
  used_retrievers : list string;
}.

Definition run_dense (w : World) (query : string) (used : list string)
  : M (list RetrievalResult.t * list string) :=
  let top_k := Config.MAX_RETRIEVE_RESULTS (cfg w) in
  try_except
    (dense_results ← await (DenseRetrieve query top_k)
                           (dense_retrieve w query top_k);
     mret (dense_results,
           if is_empty dense_results then used
           else (used ++ ["dense"])%list))
    (fun _ => mret ([], used)).

Definition run_sparse (w : World) (query : string) (used : list string)
  : M (list RetrievalResult.t * list string) :=
  let top_k := Config.MAX_RETRIEVE_RESULTS (cfg w) in
  try_except
    (sparse_results ← await (SparseRetrieve query top_k)
                            (sparse_retrieve w query top_k);
     mret (sparse_results,
           if is_empty sparse_results then used
           else (used ++ ["sparse"])%list))
    (fun _ => mret ([], used)).

(** [_build_graph_context]; the iteration order of a Python [set] is
    unspecified, [elements] fixes one. *)
Fixpoint gather (kind : string) (results : list GraphRetrievalResult.t)
         (acc : gset string) : gset string :=
  match results with
  | [] => acc
  | r :: rest =>
      let ctx := GraphRetrievalResult.graph_context r in
      if String.eqb (GraphCtx.type ctx) kind
      then gather kind rest (acc ∪ list_to_set (GraphCtx.entities ctx))
      else gather kind rest acc
  end.

Definition _build_graph_context (results : list GraphRetrievalResult.t)
  : list string * list string :=
  (firstn 10 (elements (gather "topic" results ∅)),
   firstn 10 (elements (gather "person" results ∅))).

Definition run_graph (self : t) (w : World) (query query_type : string)
           (options : Options) (used : list string)
  : M (list GraphRetrievalResult.t * (list string * list string)
       * list string) :=
  let include_graph := default true (opt_include_graph options) in
  match graph_retriever self with
  | Some retriever =>
      if include_graph && Neo4jClient.is_available w then
        try_except
          (graph_results ← GraphRetriever.retrieve retriever w query
                             query_type (Config.MAX_RETRIEVE_RESULTS (cfg w));
           mret (if is_empty graph_results
                 then (graph_results, ([], []), used)
                 else (graph_results, _build_graph_context graph_results,
                       (used ++ ["graph"])%list)))
          (fun _ => mret ([], ([], []), used))
      else mret ([], ([], []), used)
  | None => mret ([], ([], []), used)
  end.

(** Step 2: run the retrievers. *)
Definition run_retrievers (self : t) (w : World) (query query_type : string)
           (options : Options) : M Retrieved :=
  '(dense_results, used) ← run_dense w query [];
  '(sparse_results, used) ← run_sparse w query used;
  '(graph_results, graph_context_data, used) ←
     run_graph self w query query_type options used;
  mret {| dense_results := dense_results;
          sparse_results := sparse_results;
          graph_results := graph_results;
          graph_context_data := graph_context_data;
          used_retrievers := used |}.

(** Step 3: the lists handed to the fusion. *)
Definition result_lists (r : Retrieved) : list (string * list AnyResult) :=
  ((if is_empty (dense_results r) then []
    else [("dense", List.map Plain (dense_results r))]) ++
   (if is_empty (sparse_results r) then []
    else [("sparse", List.map Plain (sparse_results r))]) ++
   (if is_empty (graph_results r) then []
    else [("graph", List.map FromGraph (graph_results r))]))%list.

(** Step 3 and the limit to [max_results], the scores added exactly. *)
Definition fuse_and_limit (self : t) (r : Retrieved) (max_results : Z)
  : outcome (list (FusedResult.t Q)) :=
  fused_results ←
    (if is_empty (result_lists r) then Ok []
     else RRFFusion.fuse (fusion self) (result_lists r));
  Ok (Py.slice_to fused_results max_results).

(** Step 5: generate the answer. *)
Definition answer_for (w : World) (query context query_type : string)
           (fused_results : list (FusedResult.t Q)) : M string :=
  if is_empty fused_results then mret apology
  else OllamaLLMClient.generate_answer w query context query_type.

(** [int(x)] for a float [x]: truncation toward zero. *)
Definition int_of (x : Q) : Z := Z.quot (Qnum x) (Zpos (Qden x)).

(** Step 6: one [PericopeSegment(...)] of the response. *)
Definition segment_of (result : FusedResult.t Q) : outcome PericopeSegment.t :=
  PericopeSegment.validate
    {| PericopeSegment.id := FusedResult.id result;
       PericopeSegment.type := "pericope";
       PericopeSegment.book := FusedResult.book_name result;
       PericopeSegment.chapter_start := FusedResult.chapter_start result;
       PericopeSegment.verse_start := FusedResult.verse_start result;
       PericopeSegment.chapter_end := FusedResult.chapter_end result;
       PericopeSegment.verse_end := FusedResult.verse_end result;
       PericopeSegment.title := FusedResult.title result;
       PericopeSegment.text_excerpt :=
         if Str.len (FusedResult.text result) >? 200
         then Str.take 200 (FusedResult.text result) +:+ "..."
         else FusedResult.text result;
       PericopeSegment.relevance_score :=
         Qmin 1 (FusedResult.score result * 10) |}.

Definition graph_context_of (data : list string * list string)
  : option GraphContext.t :=
  if is_empty (fst data) && is_empty (snd data) then None
  else Some {| GraphContext.related_topics := fst data;
               GraphContext.related_persons := snd data |}.

(** [options.get("max_results", settings.TOP_K_PERICOPES)] *)
Definition max_results_of (w : World) (options : Options) : Z :=
  default (Config.TOP_K_PERICOPES (cfg w)) (opt_max_results options).

(** Steps 2 to 6, for the [query_type] of step 1. *)
Definition respond (self : t) (w : World) (query : string) (options : Options)
           (query_type : string) : M QueryResponse.t :=
  let start_time := time_time w 0 in
  let max_results := max_results_of w options in
  r ← run_retrievers self w query query_type options;
  fused_results ← lift (fuse_and_limit self r max_results);
  let '(context, metadata) :=
    ContextBuilder.build_with_metadata (context_builder self) fused_results in
  answer ← answer_for w query context query_type fused_results;
  let processing_time := int_of ((time_time w 1 - start_time) * 1000) in
  segments ← lift (Py.mapM segment_of fused_results);
  meta ← lift (QueryMeta.validate
                 {| QueryMeta.query_type := query_type;
                    QueryMeta.used_retrievers := used_retrievers r;
                    QueryMeta.total_processing_time_ms := processing_time;
                    QueryMeta.llm_model := Config.LLM_MODEL_NAME (cfg w) |});
  mret {| QueryResponse.answer := answer;
          QueryResponse.segments := segments;
          QueryResponse.meta := meta;
          QueryResponse.graph_context :=
            graph_context_of (graph_context_data r) |}.

(** [execute]: [options = options or {}], step 1, then the rest. *)
Definition execute (self : t) (w : World) (query mode : string)
           (options : option Options) : M QueryResponse.t :=
  let options := default no_options options in
  query_type ← classify w query mode;
  respond self w query options query_type.

End RAGPipeline.

(** ** app/api/v1/endpoints/query.py *)

Module QueryEndpoint.

(** [execute_query], for a request that passed validation; a failure of the
    services or of the pipeline becomes [HTTPException(status_code=500)]. *)
Definition execute_query (w : World) (request : QueryRequest.t)
  : M QueryResponse.t :=
  try_except
    (embed_service ← RAGPipeline.lift (get_embedding_service w);
     llm_client ← RAGPipeline.lift (get_llm_client w);
     let pipeline := RAGPipeline.init w true in
     RAGPipeline.execute pipeline w (QueryRequest.query request)
       (QueryMode.value (QueryRequest.mode request))
       (Some {| RAGPipeline.opt_max_results :=
                  Some (QueryOptions.max_results (QueryRequest.options request));
                RAGPipeline.opt_include_graph :=
                  Some (QueryOptions.include_graph (QueryRequest.options request)) |}))
    (fun e => RAGPipeline.lift (Raise (HTTPException 500 e))).

(** The route: validation of the body, then [execute_query]. *)
Definition post (w : World) (b : QueryRequest.body) : M QueryResponse.t :=
  request ← RAGPipeline.lift (QueryRequest.validate b);
  execute_query w request.

End QueryEndpoint.

(** ** Vocabulary of the properties *)

(** *** Fusion *)

(** The iteration of the two nested loops of [fuse], flattened: every
    [(source_name, (rank, result))] in the order the loops visit them. *)
Definition encounters {A : Type} (result_lists : list (string * list A))
  : list (string * (Z * A)) :=
  flat_map (fun sr => List.map (fun e => (fst sr, e)) (Py.enumerate 1 (snd sr)))
           result_lists.

Definition enc_rank {A : Type} (e : string * (Z * A)) : Z := fst (snd e).
Definition enc_id {A : Type} `{PericopeAttrs A} (e : string * (Z * A)) : Z :=
  attr_id (snd (snd e)).

(** The ids in the order they are met, with repetitions. *)
Definition ids_met {A : Type} `{PericopeAttrs A}
           (result_lists : list (string * list A)) : list Z :=
  List.map enc_id (encounters result_lists).

(** The 1-indexed ranks at which a document sits, one per occurrence, in
    source order. *)
Definition ranks_of {A : Type} `{PericopeAttrs A} (doc_id : Z)
           (result_lists : list (string * list A)) : list Z :=
  List.map enc_rank
    (List.filter (fun e => enc_id e =? doc_id) (encounters result_lists)).

(** The ids of every input list, payloads dropped. *)
Definition id_lists {A : Type} `{PericopeAttrs A}
           (result_lists : list (string * list A)) : list (list Z) :=
  List.map (fun sr => List.map attr_id (snd sr)) result_lists.

(** The [(id, rank)] of every encounter. *)
Definition id_ranks {A : Type} `{PericopeAttrs A}
           (es : list (string * (Z * A))) : list (Z * Z) :=
  List.map (fun e => (enc_id e, enc_rank e)) es.

(** [float() + 1.0/(k + r1) + 1.0/(k + r2) + ...], summed left to right. *)
Definition rrf_sum {F : Type} `{PyFloat F} (k : Z) (ranks : list Z) : F :=
  fold_left (fun s r => fadd s (frecip (k + r))) ranks fzero.

(** The same sum over the rationals, written with the field operations. *)
Fixpoint Qsum (l : list Q) : Q :=
  match l with
  | [] => 0%Q
  | x :: l' => (x + Qsum l')%Q
  end.

(** [doc_scores] after the first loop of [fuse] has met [es], from [d]. *)
Definition scores_after {F : Type} `{PyFloat F} {A : Type} `{PericopeAttrs A}
           (k : Z) (es : list (string * (Z * A))) (d : list (Z * F))
  : list (Z * F) :=
  fold_left (fun sc e => RRFFusion.add_score (enc_id e)
                           (frecip (k + enc_rank e)) sc) es d.

(** [y in keys] *)
Definition has_key (keys : list Z) (y : Z) : bool :=
  existsb (fun j => j =? y) keys.

(** [doc_scores.get(doc_id)] *)
Definition score_at {F : Type} (doc_id : Z) (d : list (Z * F)) : option F :=
  option_map snd (List.find (fun p => fst p =? doc_id) d).

(** The [(id, score)] item a fused result was built from. *)
Definition item_of {F : Type} (x : FusedResult.t F) : Z * F :=
  (FusedResult.id x, FusedResult.score x).

(** The ids of a returned fusion. *)
Definition fused_ids {F : Type} (o : outcome (list (FusedResult.t F)))
  : list Z :=
  match o with
  | Ok out => List.map FusedResult.id out
  | Raise _ => []
  end.

(** The keys of an insertion-ordered dict once the keys [l] were inserted in
    turn: each at its first occurrence. *)
Fixpoint first_seen (l : list Z) : list Z :=
  match l with
  | [] => []
  | x :: l' => x :: List.filter (fun y => negb (y =? x)) (first_seen l')
  end.

(** The position of the first occurrence of [x] in [l]. *)
Fixpoint first_index (x : Z) (l : list Z) : option nat :=
  match l with
  | [] => None
  | y :: l' => if y =? x then Some O else option_map S (first_index x l')
  end.

(** [a] is first met before [b] is first met. *)
Definition met_before (ids : list Z) (a b : Z) : Prop :=
  exists i j, first_index a ids = Some i /\ first_index b ids = Some j
              /\ (i < j)%nat.

(** [a] occurs in [l] at some position and [b] at a later one. *)
Fixpoint precedes {A : Type} (l : list A) (a b : A) : Prop :=
  match l with
  | [] => False
  | x :: l' => (x = a /\ In b l') \/ precedes l' a b
  end.

(** The names of [l], each at its first occurrence. *)
Fixpoint first_names (l : list string) : list string :=
  match l with
  | [] => []
  | x :: l' => x :: List.filter (fun y => negb (String.eqb y x)) (first_names l')
  end.

(** The encounters of one document, in loop order. *)
Definition encounters_of {A : Type} `{PericopeAttrs A} (doc_id : Z)
           (result_lists : list (string * list A)) : list (string * (Z * A)) :=
  List.filter (fun e => enc_id e =? doc_id) (encounters result_lists).

(** [if source_name not in seen: seen.append(source_name)] *)
Definition append_new (seen : list string) (source_name : string)
  : list string :=
  if Py.str_in source_name seen then seen else (seen ++ [source_name])%list.

(** Two keys that [<] does not separate. *)
Definition tieb {K : Type} (lt : K -> K -> bool) (x y : K) : bool :=
  negb (lt x y) && negb (lt y x).

(** In a descending list no later element has a strictly larger key. *)
Definition desc {A K : Type} (lt : K -> K -> bool) (key : A -> K) (a b : A)
  : Prop :=
  lt (key a) (key b) = false.

(** The [int]s that [float] holds: for an [n] beyond them [1.0 / n] raises
    [OverflowError], a failure that [RRFFusion.rrf_score] leaves out. *)
Definition float_range (n : Z) : Prop := Z.abs n < 2 ^ 1024 - 2 ^ 970.

(** [sys.maxsize]: no list is longer. *)
Definition maxsize : Z := 2 ^ 63 - 1.

(** [fuse] in IEEE binary64. *)
Definition fuse_binary64 (self : RRFFusion.t)
           (result_lists : list (string * list RetrievalResult.t))
  : outcome (list (FusedResult.t float)) :=
  @RRFFusion.fuse float PyFloat_binary64 RetrievalResult.t _ self result_lists.

(** The score of a document with the given ranks, in binary64. *)
Definition binary64_sum (k : Z) (ranks : list Z) : float :=
  @rrf_sum float PyFloat_binary64 k ranks.

(** All the lists of length [n] over an alphabet. *)
Fixpoint lists_of (n : nat) (alphabet : list Z) : list (list Z) :=
  match n with
  | O => [[]]
  | S n' =>
      flat_map (fun x => List.map (cons x) (lists_of n' alphabet)) alphabet
  end.

(** Every element of [ra] occurs in [rb] at least as often. *)
Definition sub_multiset (ra rb : list Z) : bool :=
  forallb (fun x => (count_occ Z.eq_dec ra x <=? count_occ Z.eq_dec rb x)%nat)
          ra.

(** The ranks a retriever of the pipeline can give: 1 to
    [MAX_RETRIEVE_RESULTS = 20]. *)
Definition pipeline_ranks : list Z := List.map Z.of_nat (seq 1 20).

(** For every list [rb] of two or three pipeline ranks and every shorter,
    non-empty list [ra] made of ranks of [rb], no more often than in [rb]:
    is the binary64 score of [ra] strictly below that of [rb]? *)
Definition binary64_monotone_check (k : Z) : bool :=
  forallb
    (fun nb =>
       forallb
         (fun rb =>
            forallb
              (fun na =>
                 forallb
                   (fun ra =>
                      implb (sub_multiset ra rb)
                            (PrimFloat.ltb (binary64_sum k ra)
                                           (binary64_sum k rb)))
                   (lists_of na rb))
              (seq 1 (nb - 1)))
         (lists_of nb pipeline_ranks))
    [2%nat; 3%nat].

(** An input as the pipeline fuses it: at most three lists, each of at most
    [MAX_RETRIEVE_RESULTS = 20] results and with no id twice. *)
Definition pipeline_input {A : Type} `{PericopeAttrs A}
           (result_lists : list (string * list A)) : Prop :=
  (length result_lists <= 3)%nat
  /\ forall sr, In sr result_lists ->
                (length (snd sr) <= 20)%nat
                /\ List.NoDup (List.map attr_id (snd sr)).

(** The score of a document ranked first by [n] lists, in binary64. *)
Definition binary64_first (k : Z) (n : nat) : float :=
  binary64_sum k (repeat 1 n).

(** Step 6's [min(1.0, result.score * 10)] in binary64. *)
Definition relevance_binary64 (score : float) : float :=
  let x := PrimFloat.mul score 10%float in
  if PrimFloat.ltb x 1%float then x else 1%float.

(** For every list of one to three pipeline ranks: is the binary64 score
    positive, at most the score of as many first ranks and at most the score
    of three first ranks, and is ten times the score positive, below one
    and below one half? *)
Definition binary64_score_check (k : Z) : bool :=
  forallb
    (fun n =>
       forallb
         (fun ranks =>
            let s := binary64_sum k ranks in
            PrimFloat.ltb 0%float s
            && PrimFloat.leb s (binary64_first k n)
            && PrimFloat.leb s (binary64_first k 3)
            && PrimFloat.ltb 0%float (PrimFloat.mul s 10%float)
            && PrimFloat.ltb (PrimFloat.mul s 10%float) 1%float
            && PrimFloat.ltb (PrimFloat.mul s 10%float) 0.5%float)
         (lists_of n pipeline_ranks))
    [1%nat; 2%nat; 3%nat].


(** *** Context *)

(** The characters of a list of segments, separators not counted. *)
Fixpoint total_length (parts : list string) : Z :=
  match parts with
  | [] => 0
  | p :: rest => Str.len p + total_length rest
  end.

(** The segments of a prefix of the fused list. *)
Definition segments_of {F : Type} (results : list (FusedResult.t F))
  : list string :=
  List.map ContextBuilder._format_pericope results.

(** *** Graph retrieval and the pipeline *)

(** The rows [Neo4jClient.execute_read] hands back. *)
Definition rows_read (w : World) (query : Cypher) (parameters : CypherParams)
  : list Row :=
  if Neo4jClient.is_available w then
    match neo4j_run w query parameters with
    | Ok rows => rows
    | Raise _ => []
    end
  else [].

(** The events of one [Neo4jClient.execute_read]. *)
Definition read_events (w : World) (query : Cypher) (parameters : CypherParams)
  : list event :=
  if Neo4jClient.is_available w then [Neo4jRun query parameters] else [].

(** The limits of the Cypher runs of a trace. *)
Definition cypher_limits (t : list event) : list Z :=
  flat_map (fun e => match e with
                     | Neo4jRun _ parameters => [cp_limit parameters]
                     | _ => []
                     end) t.

(** Kinds of events. *)
Definition is_classification (e : event) : bool :=
  match e with
  | LLMChat ClassifierPrompt _ _ _ => true
  | _ => false
  end.

Definition is_generation (e : event) : bool :=
  match e with
  | LLMChat AnswerPrompt _ _ _ => true
  | _ => false
  end.

(** What the graph retriever does: entity extraction and traversal. *)
Definition is_graph_event (e : event) : bool :=
  match e with
  | LLMChat EntityPrompt _ _ _ => true
  | Neo4jRun _ _ => true
  | _ => false
  end.

(** Step 2 with the dense and sparse retrievers only. *)
Definition retrieve_dense_sparse (w : World) (query : string)
  : M RAGPipeline.Retrieved :=
  '(dense_results, used) ← RAGPipeline.run_dense w query [];
  '(sparse_results, used) ← RAGPipeline.run_sparse w query used;
  mret {| RAGPipeline.dense_results := dense_results;
          RAGPipeline.sparse_results := sparse_results;
          RAGPipeline.graph_results := [];
          RAGPipeline.graph_context_data := ([], []);
          RAGPipeline.used_retrievers := used |}.

(** The options of [execute] with [include_graph] set to [False]. *)
Definition without_graph (options : option RAGPipeline.Options)
  : option RAGPipeline.Options :=
  Some {| RAGPipeline.opt_max_results :=
            RAGPipeline.opt_max_results (default RAGPipeline.no_options options);
          RAGPipeline.opt_include_graph := Some false |}.

(** The options dict the endpoint builds from a request. *)
Definition options_of (request : QueryRequest.t) : RAGPipeline.Options :=
  {| RAGPipeline.opt_max_results :=
       Some (QueryOptions.max_results (QueryRequest.options request));
     RAGPipeline.opt_include_graph :=
       Some (QueryOptions.include_graph (QueryRequest.options request)) |}.

(** The truncated fused list of the run of a request: the services, steps
    1 to 3 and the limit to [max_results]. *)
Definition truncated_fused (w : World) (request : QueryRequest.t)
  : M (list (FusedResult.t Q)) :=
  embed_service ← RAGPipeline.lift (get_embedding_service w);
  llm_client ← RAGPipeline.lift (get_llm_client w);
  let pipeline := RAGPipeline.init w true in
  query_type ← RAGPipeline.classify w (QueryRequest.query request)
                 (QueryMode.value (QueryRequest.mode request));
  r ← RAGPipeline.run_retrievers pipeline w (QueryRequest.query request)
        query_type (options_of request);
  RAGPipeline.lift
    (RAGPipeline.fuse_and_limit pipeline r
       (QueryOptions.max_results (QueryRequest.options request))).

(** A request body that does not specify [include_graph]. *)
Definition omits_include_graph (b : QueryRequest.body) : Prop :=
  match QueryRequest.body_options b with
  | None => True
  | Some o => QueryOptions.body_include_graph o = None
  end.

(** The same body with [include_graph] given. *)
Definition with_include_graph (b : QueryRequest.body) (v : bool)
  : QueryRequest.body :=
  {| QueryRequest.body_query := QueryRequest.body_query b;
     QueryRequest.body_mode := QueryRequest.body_mode b;
     QueryRequest.body_options :=
       Some {| QueryOptions.body_max_results :=
                 match QueryRequest.body_options b with
                 | None => None
                 | Some o => QueryOptions.body_max_results o
                 end;
               QueryOptions.body_include_graph := Some v |} |}.

(** Two worlds that differ at most in the graph backend. *)
Definition same_but_graph (w1 w2 : World) : Prop :=
  cfg w1 = cfg w2
  /\ ollama_chat w1 = ollama_chat w2
  /\ dense_retrieve w1 = dense_retrieve w2
  /\ sparse_retrieve w1 = sparse_retrieve w2
  /\ time_time w1 = time_time w2.

(** The world with another language model. *)
Definition with_chat (w : World)
           (chat : SystemPrompt -> string -> Q -> Z -> outcome string) : World :=
  {| cfg := cfg w;
     get_embedding_service := get_embedding_service w;
     get_llm_client := get_llm_client w;
     ollama_chat := chat;
     dense_retrieve := dense_retrieve w;
     sparse_retrieve := sparse_retrieve w;
     neo4j_initialized := neo4j_initialized w;
     neo4j_driver := neo4j_driver w;
     neo4j_run := neo4j_run w;
     time_time := time_time w |}.

(** The world with another state of the graph backend. *)
Definition with_neo4j (w : World) (initialized driver : bool)
           (run : Cypher -> CypherParams -> outcome (list Row)) : World :=
  {| cfg := cfg w;
     get_embedding_service := get_embedding_service w;
     get_llm_client := get_llm_client w;
     ollama_chat := ollama_chat w;
     dense_retrieve := dense_retrieve w;
     sparse_retrieve := sparse_retrieve w;
     neo4j_initialized := initialized;
     neo4j_driver := driver;
     neo4j_run := run;
     time_time := time_time w |}.

(** The characters of a string. *)
Definition chars (s : string) : list ascii := list_ascii_of_string s.

(** [s] starts with a white space character. *)
Definition starts_with_space (s : string) : bool :=
  match s with
  | EmptyString => false
  | String c1 s1 =>
      Str.is_space c1
      || match s1 with
         | EmptyString => false
         | String c2 s2 =>
             Str.is_space2 c1 c2
             || match s2 with
                | EmptyString => false
                | String c3 _ => Str.is_space3 c1 c2 c3
                end
         end
  end.

(** The results the three scoped strategies hand to the general one. *)
Definition merged_results (w : World) (keywords : list string) (limit : Z)
  : list GraphRetrievalResult.t :=
  let parameters := {| cp_names := keywords; cp_limit := limit |} in
  (List.map (GraphRetriever.result_of_row "person")
            (rows_read w PersonCypher parameters)
   ++ List.map (GraphRetriever.result_of_row "topic")
               (rows_read w TopicCypher parameters)
   ++ List.map (GraphRetriever.result_of_row "event")
               (rows_read w EventCypher parameters))%list.

(** The Cypher runs of a trace, each with its parameters. *)
Definition cypher_runs (t : list event) : list (Cypher * CypherParams) :=
  flat_map (fun e => match e with
                     | Neo4jRun query parameters => [(query, parameters)]
                     | _ => []
                     end) t.

(** The entity names of the results of one kind. *)
Definition names_of_kind (kind : string)
           (results : list GraphRetrievalResult.t) (name : string) : Prop :=
  exists r, In r results
            /\ GraphCtx.type (GraphRetrievalResult.graph_context r) = kind
            /\ In name (GraphCtx.entities (GraphRetrievalResult.graph_context r)).

(** A name for each of the three Cypher texts. *)
Definition cypher_name (query : Cypher) : string :=
  match query with
  | PersonCypher => "person"
  | TopicCypher => "topic"
  | EventCypher => "event"
  end.

(** The kind of backend call an event records. *)
Definition event_kind (e : event) : string :=
  match e with
  | LLMChat ClassifierPrompt _ _ _ => "classify"
  | LLMChat EntityPrompt _ _ _ => "extract"
  | LLMChat AnswerPrompt _ _ _ => "answer"
  | DenseRetrieve _ _ => "dense"
  | SparseRetrieve _ _ => "sparse"
  | Neo4jRun query _ => cypher_name query
  end.

(** The kinds of the calls of a computation, in order. *)
Definition calls {A : Type} (m : M A) : list string :=
  List.map event_kind (trace m).

(** The most a request can call, in the order of the calls. *)
Definition call_order : list string :=
  ["classify"; "dense"; "sparse"; "extract"; "person"; "topic"; "event";
   "answer"].

(** *** The class state of the graph client *)

(** A call of [initialize] or of [close]. *)
Inductive lifecycle_call : Type :=
| Initialize (connect : Neo4jClientState.res Neo4jClientState.Driver)
| Close.

Definition lifecycle_step (cls : Neo4jClientState.t) (c : lifecycle_call)
  : Neo4jClientState.t :=
  match c with
  | Initialize connect => fst (Neo4jClientState.initialize connect cls)
  | Close => fst (Neo4jClientState.close cls)
  end.

(** The class state after a sequence of calls from the declared one. *)
Definition state_after (calls : list lifecycle_call) : Neo4jClientState.t :=
  fold_left lifecycle_step calls Neo4jClientState.initial.

(** The client is marked initialized only while it holds a driver whose
    connectivity was verified. *)
Definition verified (cls : Neo4jClientState.t) : Prop :=
  Neo4jClientState._initialized cls = true ->
  exists driver,
    Neo4jClientState._driver cls = Some driver
    /\ Neo4jClientState.verify_connectivity driver
       = Neo4jClientState.Returns tt.

(** *** Concrete inputs and worlds *)

(** The input of scenario B: dense ranks A, B, C and sparse ranks B, A
    (ids 1, 2, 3). *)
Definition passage (i : Z) : RetrievalResult.t :=
  RetrievalResult.mk i 40 "Matthew" 18 21 18 35 "Forgiveness" "Then Peter came"
                     (1 # 2).

Definition scenario_B : list (string * list RetrievalResult.t) :=
  [ ("dense", [passage 1; passage 2; passage 3]);
    ("sparse", [passage 2; passage 1]) ].

(** Document 1 is first in one source; document 2 is first in another and
    also ranked, second, in the first. *)
Definition one_more_source : list (string * list RetrievalResult.t) :=
  [ ("dense", [passage 1; passage 2]); ("sparse", [passage 2]) ].

(** Three sources: document 1 sits at ranks 1, 7, 2 and document 2 at
    ranks 7, 2, 1; the other places are taken by documents 11 to 25. *)
Definition rotated_ranks : list (string * list RetrievalResult.t) :=
  [ ("dense", List.map passage [1; 11; 12; 13; 14; 15; 2]);
    ("sparse", List.map passage [16; 2; 17; 18; 19; 20; 1]);
    ("graph", List.map passage [2; 1]) ].

(** The same document under two payloads: the dense list has it as
    [passage 1], the sparse list under another title and text. *)
Definition other_passage (i : Z) : RetrievalResult.t :=
  RetrievalResult.mk i 40 "Matthew" 6 14 6 15 "On forgiving"
                     "For if ye forgive" (1 # 4).

Definition two_payloads : list (string * list RetrievalResult.t) :=
  [ ("dense", [passage 1]); ("sparse", [other_passage 1]) ].

(** What step 2 leaves behind on the input of scenario B. *)
Definition retrieved_B : RAGPipeline.Retrieved :=
  {| RAGPipeline.dense_results := [passage 1; passage 2; passage 3];
     RAGPipeline.sparse_results := [passage 2; passage 1];
     RAGPipeline.graph_results := [];
     RAGPipeline.graph_context_data := ([], []);
     RAGPipeline.used_retrievers := ["dense"; "sparse"] |}.

(** Two fused results whose segments have 53 characters each. *)
Definition fused_passage (i : Z) (score : Q) : FusedResult.t Q :=
  FusedResult.mk i 40 "Matthew" 18 21 18 35 "Forgiveness" "Then Peter came"
                 score ["dense"].

Definition two_fused : list (FusedResult.t Q) :=
  [fused_passage 1 (1 # 61); fused_passage 2 (1 # 62)].

(** A builder with a budget of 71 tokens, that is 106 characters. *)
Definition builder_71 : ContextBuilder.t := {| ContextBuilder.max_tokens := 71 |}.

(** A small graph store: five passages mention the person, two the topic
    (passage 2 under both), none the event. *)
Definition row (i : Z) (amount : Q) (name : string) : Row :=
  {| row_id := i; row_book_id := 1; row_book_name := "Genesis";
     row_chapter_start := 12; row_verse_start := 1;
     row_chapter_end := 12; row_verse_end := 9;
     row_title := "The call"; row_verse_texts := ["Now the LORD said"];
     row_amount := amount; row_names := [name] |}.

Definition graph_rows (query : Cypher) : list Row :=
  match query with
  | PersonCypher =>
      [row 1 9 "Abraham"; row 2 7 "Abraham"; row 3 5 "Abraham";
       row 4 3 "Abraham"; row 5 1 "Abraham"]
  | TopicCypher => [row 2 8 "faith"; row 6 1 "faith"]
  | EventCypher => []
  end.

(** A world in which every backend answers; the graph store honours
    [LIMIT $limit]; the clock reads one second per call. *)
Definition world_ok : World :=
  {| cfg := Config.settings;
     get_embedding_service := Ok tt;
     get_llm_client := Ok tt;
     ollama_chat := fun system_prompt _ _ _ =>
       Ok (match system_prompt with
           | ClassifierPrompt => "person_question"
           | EntityPrompt => "Abraham, faith"
           | AnswerPrompt => "An answer."
           end);
     dense_retrieve := fun _ _ => Ok [passage 1; passage 2; passage 3];
     sparse_retrieve := fun _ _ => Ok [passage 2; passage 1];
     neo4j_initialized := true;
     neo4j_driver := true;
     neo4j_run := fun query parameters =>
       Ok (Py.slice_to (graph_rows query) (cp_limit parameters));
     time_time := fun n => inject_Z (Z.of_nat n) |}.

(** The same world with the graph store never connected. *)
Definition world_graph_down : World :=
  with_neo4j world_ok false false (fun _ _ => Raise (BackendError "down")).

(** A world in which no retriever finds anything. *)
Definition world_nothing : World :=
  {| cfg := Config.settings;
     get_embedding_service := Ok tt;
     get_llm_client := Ok tt;
     ollama_chat := ollama_chat world_ok;
     dense_retrieve := fun _ _ => Ok [];
     sparse_retrieve := fun _ _ => Raise (BackendError "full-text index");
     neo4j_initialized := true;
     neo4j_driver := true;
     neo4j_run := fun _ _ => Ok [];
     time_time := time_time world_ok |}.

(** A passage of one verse, as a fused result and as a graph result. *)
Definition single_verse_fused : FusedResult.t Q :=
  FusedResult.mk 7 43 "John" 3 16 3 16 "God so loved" "For God so loved"
                 (1 # 61) ["graph"].

Definition single_verse_graph : GraphRetrievalResult.t :=
  GraphRetrievalResult.mk 7 43 "John" 3 16 3 16 "God so loved"
                          "For God so loved" (1 # 2)
                          (GraphCtx.mk "topic" ["love"] 5).

(** A small database for the sparse retriever: the verse statement ranks
    the pericopes 7, 3 and 9, in this order; the pericope table holds them
    in the order 3, 7, 9. *)
Definition pericope_row (i : Z) : SparseRetriever.Pericope :=
  {| SparseRetriever.id := i;
     SparseRetriever.book_id := 40;
     SparseRetriever.book_name_zh := Some "Matthew";
     SparseRetriever.chapter_start := 18;
     SparseRetriever.verse_start := 21;
     SparseRetriever.chapter_end := 18;
     SparseRetriever.verse_end := 35;
     SparseRetriever.title := "Forgiveness" |}.

Definition sparse_db : SparseRetriever.Db :=
  {| SparseRetriever.verse_ranks := fun _ limit =>
       Ok (Py.slice_to [(7, 3 # 10); (3, 6 # 10); (9, 1 # 10)] limit);
     SparseRetriever.pericopes_in := fun pericope_ids =>
       Ok (List.map pericope_row
             (List.filter (has_key pericope_ids) [3; 7; 9]));
     SparseRetriever.verse_texts := fun _ => Ok ["Then Peter came"] |}.

(** A small database for the dense retriever: two rows in ascending
    distance. *)
Definition dense_row (i : Z) (distance : Q) : DenseRetriever.Row :=
  {| DenseRetriever.id := i;
     DenseRetriever.book_id := 40;
     DenseRetriever.chapter_start := 18;
     DenseRetriever.verse_start := 21;
     DenseRetriever.chapter_end := 18;
     DenseRetriever.verse_end := 35;
     DenseRetriever.title := "Forgiveness";
     DenseRetriever.distance := distance |}.

Definition dense_db : DenseRetriever.Db :=
  {| DenseRetriever.nearest := fun _ limit =>
       Ok (Py.slice_to [dense_row 3 (1 # 5); dense_row 7 (2 # 5)] limit);
     DenseRetriever.book_name_zh := fun _ => Ok None;
     DenseRetriever.verse_texts := fun _ => Ok ["Then Peter came"] |}.

(** A driver that is created but whose connectivity check fails with an
    exception [initialize] does not catch. *)
Definition unverified_driver : Neo4jClientState.Driver :=
  {| Neo4jClientState.verify_connectivity :=
       Neo4jClientState.Raises (Neo4jClientState.OtherError "timeout");
     Neo4jClientState.driver_close := Neo4jClientState.Returns tt;
     Neo4jClientState.session_run := fun _ => Neo4jClientState.Returns [] |}.

(** A world whose language model fails. *)
Definition world_llm_down : World :=
  with_chat world_ok (fun _ _ _ _ => Raise (BackendError "ollama")).

(** A request body with only the query. *)
Definition plain_body : QueryRequest.body :=
  {| QueryRequest.body_query := "Who was Abraham?";
     QueryRequest.body_mode := None;
     QueryRequest.body_options := None |}.

(** * Properties *)

(** ** The stable descending sort *)

Section SortedDesc.
Context {A K : Type} (lt : K -> K -> bool) (key : A -> K).

Lemma insert_desc_perm (x : A) (l : list A) :
  Permutation (x :: l) (Py.insert_desc lt key x l).
Proof.
  induction l as [|y l IH]; simpl; [reflexivity|].
  destruct (lt (key x) (key y)); [|reflexivity].
  rewrite perm_swap. now apply perm_skip.
Qed.

Lemma sorted_desc_perm (l : list A) :
  Permutation l (Py.sorted_desc lt key l).
Proof.
  induction l as [|x l IH]; simpl; [reflexivity|].
  rewrite <- insert_desc_perm. now apply perm_skip.
Qed.

Lemma sorted_desc_In (l : list A) (x : A) :
  In x (Py.sorted_desc lt key l) <-> In x l.
Proof.
  split; apply Permutation_in;
    [symmetry|]; apply sorted_desc_perm.
Qed.

Hypothesis lt_asym : forall x y, lt x y = true -> lt y x = false.
Hypothesis lt_negtrans :
  forall x y z, lt x z = true -> lt x y = true \/ lt y z = true.

Lemma lt_irrefl (x : K) : lt x x = false.
Proof.
  destruct (lt x x) eqn:E; [|reflexivity].
  now rewrite (lt_asym _ _ E) in E.
Qed.

Lemma desc_trans_lt (x y z : A) :
  lt (key x) (key y) = false -> desc lt key y z -> desc lt key x z.
Proof.
  unfold desc. intros Hxy Hyz.
  destruct (lt (key x) (key z)) eqn:E; [|reflexivity].
  destruct (lt_negtrans _ (key y) _ E); congruence.
Qed.

Lemma insert_desc_sorted (x : A) (l : list A) :
  StronglySorted (desc lt key) l ->
  StronglySorted (desc lt key) (Py.insert_desc lt key x l).
Proof.
  induction 1 as [|y l Hs IH Hy]; simpl.
  - constructor; constructor.
  - destruct (lt (key x) (key y)) eqn:E.
    + constructor; [exact IH|].
      rewrite List.Forall_forall. intros z Hz.
      apply (Permutation_in _ (Permutation_sym (insert_desc_perm x l))) in Hz.
      destruct Hz as [<-|Hz].
      * unfold desc. now apply lt_asym.
      * rewrite List.Forall_forall in Hy. now apply Hy.
    + constructor; [now constructor|].
      constructor; [exact E|].
      rewrite List.Forall_forall in Hy |- *. intros z Hz.
      apply desc_trans_lt with y; auto.
Qed.

Lemma sorted_desc_sorted (l : list A) :
  StronglySorted (desc lt key) (Py.sorted_desc lt key l).
Proof.
  induction l; simpl; [constructor|now apply insert_desc_sorted].
Qed.

(** Stability: the elements tied with a given key keep their order. *)
Lemma insert_desc_ties (v : K) (x : A) (l : list A) :
  List.filter (fun a => tieb lt v (key a)) (Py.insert_desc lt key x l) =
  List.filter (fun a => tieb lt v (key a)) (x :: l).
Proof.
  induction l as [|y l IH]; [reflexivity|].
  cbn [Py.insert_desc].
  destruct (lt (key x) (key y)) eqn:E; [|reflexivity].
  cbn [List.filter] in *. rewrite IH.
  destruct (tieb lt v (key x)) eqn:Tx, (tieb lt v (key y)) eqn:Ty;
    try reflexivity.
  exfalso. unfold tieb in Tx, Ty.
  apply andb_prop in Tx as [_ Tx]. apply andb_prop in Ty as [Ty _].
  apply negb_true_iff in Tx, Ty.
  destruct (lt_negtrans _ v _ E); congruence.
Qed.

Lemma sorted_desc_ties (v : K) (l : list A) :
  List.filter (fun a => tieb lt v (key a)) (Py.sorted_desc lt key l) =
  List.filter (fun a => tieb lt v (key a)) l.
Proof.
  induction l as [|x l IH]; [reflexivity|].
  cbn [Py.sorted_desc]. rewrite insert_desc_ties.
  cbn [List.filter]. now rewrite IH.
Qed.

End SortedDesc.

(** ** Order of occurrence in a list *)

Section Precedes.
Context {A : Type}.

Lemma precedes_In (l : list A) (a b : A) :
  precedes l a b -> In a l /\ In b l.
Proof.
  induction l as [|x l IH]; simpl; [tauto|].
  intros [[-> Hb]|H]; [tauto|]. apply IH in H. tauto.
Qed.

Lemma precedes_filter (f : A -> bool) (l : list A) (a b : A) :
  precedes (List.filter f l) a b <->
  f a = true /\ f b = true /\ precedes l a b.
Proof.
  induction l as [|x l IH]; simpl; [tauto|].
  destruct (f x) eqn:E; simpl; rewrite IH, ?filter_In.
  - split.
    + intros [[-> [Hb Hfb]]|(Ha & Hb & H)]; tauto.
    + intros (Ha & Hb & [[-> Hin]|H]); tauto.
  - split.
    + intros (Ha & Hb & H); tauto.
    + intros (Ha & Hb & [[-> Hin]|H]); [congruence|tauto].
Qed.

Lemma precedes_map {B : Type} (f : A -> B) (l : list A) (a b : B) :
  precedes (List.map f l) a b <->
  exists x y, f x = a /\ f y = b /\ precedes l x y.
Proof.
  induction l as [|z l IH]; simpl.
  - split; [tauto|]. now intros (x & y & _ & _ & H).
  - rewrite IH, in_map_iff. split.
    + intros [[Hz (y & Hy & Hin)]|(x & y & Hx & Hy & H)].
      * exists z, y. tauto.
      * exists x, y. tauto.
    + intros (x & y & Hx & Hy & [[-> Hin]|H]).
      * left. split; [exact Hx|]. now exists y.
      * right. now exists x, y.
Qed.

Lemma NoDup_map_inj {B : Type} (f : A -> B) (l : list A) (x y : A) :
  List.NoDup (List.map f l) -> In x l -> In y l -> f x = f y -> x = y.
Proof.
  induction l as [|z l IH]; simpl; [tauto|].
  intros Hnd Hx Hy E. apply List.NoDup_cons_iff in Hnd as [Hz Hnd].
  destruct Hx as [->|Hx], Hy as [->|Hy]; auto.
  - exfalso. apply Hz. rewrite E. now apply in_map.
  - exfalso. apply Hz. rewrite <- E. now apply in_map.
Qed.

Lemma precedes_map_NoDup {B : Type} (f : A -> B) (l : list A) (x y : A) :
  List.NoDup (List.map f l) -> In x l -> In y l ->
  (precedes (List.map f l) (f x) (f y) <-> precedes l x y).
Proof.
  intros Hnd Hx Hy. rewrite precedes_map. split.
  - intros (x' & y' & Ex & Ey & H).
    destruct (precedes_In _ _ _ H) as [Hx' Hy'].
    now rewrite <- (NoDup_map_inj f l x' x Hnd Hx' Hx Ex),
                <- (NoDup_map_inj f l y' y Hnd Hy' Hy Ey).
  - intros H. now exists x, y.
Qed.

End Precedes.

Lemma first_index_Some (x : Z) (l : list Z) :
  In x l <-> exists i, first_index x l = Some i.
Proof.
  induction l as [|y l IH]; simpl.
  - split; [tauto|]. now intros [i Hi].
  - destruct (Z.eqb_spec y x) as [->|Hne].
    + split; [now exists O|tauto].
    + rewrite IH. split.
      * intros [E|[i Hi]]; [congruence|]. exists (S i). now rewrite Hi.
      * intros [i Hi]. right.
        destruct (first_index x l) as [j|]; [now exists j|discriminate].
Qed.

Lemma first_seen_In (x : Z) (l : list Z) : In x (first_seen l) <-> In x l.
Proof.
  induction l as [|y l IH]; simpl; [tauto|].
  rewrite filter_In, IH, negb_true_iff, Z.eqb_neq.
  destruct (Z.eq_dec y x); intuition congruence.
Qed.

Lemma first_seen_NoDup (l : list Z) : List.NoDup (first_seen l).
Proof.
  induction l as [|y l IH]; simpl; constructor.
  - rewrite filter_In, Z.eqb_refl. simpl. intros [_ H]. discriminate.
  - now apply List.NoDup_filter.
Qed.

(** The keys of the dict are ordered by the first time each was met. *)
Lemma first_seen_precedes (l : list Z) (a b : Z) :
  precedes (first_seen l) a b <-> met_before l a b.
Proof.
  unfold met_before. induction l as [|x l IH]; simpl.
  - split; [tauto|]. now intros (i & j & H & _).
  - rewrite precedes_filter, filter_In, first_seen_In, IH.
    rewrite !negb_true_iff, !Z.eqb_neq. split.
    + intros [[-> [Hb Hne]]|(Ha & Hb & i & j & Hi & Hj & Hlt)].
      * apply first_index_Some in Hb as [j Hj].
        exists O, (S j). rewrite Z.eqb_refl.
        destruct (Z.eqb_spec a b); [congruence|]. rewrite Hj.
        repeat split; lia.
      * exists (S i), (S j).
        destruct (Z.eqb_spec x a); [congruence|].
        destruct (Z.eqb_spec x b); [congruence|].
        rewrite Hi, Hj. repeat split; lia.
    + intros (i & j & Hi & Hj & Hlt).
      destruct (Z.eqb_spec x a) as [->|Ha].
      * left. split; [reflexivity|].
        destruct (Z.eqb_spec a b) as [->|Hb].
        { inversion Hi; inversion Hj; lia. }
        split; [|congruence]. apply first_index_Some.
        destruct (first_index b l) as [j'|]; [now exists j'|discriminate].
      * right. destruct (Z.eqb_spec x b) as [->|Hb].
        { inversion Hj; subst. lia. }
        repeat split; try congruence.
        destruct (first_index a l) as [i'|]; [|discriminate].
        destruct (first_index b l) as [j'|]; [|discriminate].
        exists i', j'. simpl in Hi, Hj. inversion Hi; inversion Hj; subst.
        repeat split; lia.
Qed.

(** ** Loops that may raise *)

Lemma foldM_app {S E : Type} (body : S -> E -> outcome S) (l1 l2 : list E)
      (s : S) :
  Py.foldM body (l1 ++ l2) s =
  match Py.foldM body l1 s with
  | Ok s' => Py.foldM body l2 s'
  | Raise ex => Raise ex
  end.
Proof.
  revert s. induction l1 as [|e l1 IH]; intros s; simpl; [reflexivity|].
  destruct (body s e); [apply IH|reflexivity].
Qed.

Lemma foldM_map {S E E' : Type} (body : S -> E -> outcome S) (g : E' -> E)
      (l : list E') (s : S) :
  Py.foldM body (List.map g l) s = Py.foldM (fun s e => body s (g e)) l s.
Proof.
  revert s. induction l as [|e l IH]; intros s; simpl; [reflexivity|].
  destruct (body s (g e)); [apply IH|reflexivity].
Qed.

Lemma enumerate_ge {A : Type} (l : list A) (start r : Z) (x : A) :
  In (r, x) (Py.enumerate start l) -> start <= r.
Proof.
  revert start. induction l as [|y l IH]; intros start; simpl; [tauto|].
  intros [E|Hin]; [inversion E; lia|]. apply IH in Hin. lia.
Qed.

Lemma enumerate_snd {A : Type} (l : list A) (start : Z) :
  List.map snd (Py.enumerate start l) = l.
Proof.
  revert start. induction l as [|y l IH]; intros start; simpl;
    [reflexivity|now rewrite IH].
Qed.

Lemma encounters_rank_pos {A : Type} (L : list (string * list A))
      (e : string * (Z * A)) :
  In e (encounters L) -> 1 <= enc_rank e.
Proof.
  unfold encounters. rewrite in_flat_map. intros (sr & _ & Hin).
  apply in_map_iff in Hin as ([r x] & <- & Hin). simpl.
  now apply enumerate_ge in Hin.
Qed.

(** ** The first loop of [fuse] *)

Section FuseLoop.
Context {F : Type} `{PyFloat F} {A : Type} `{PericopeAttrs A}.

(** The nested loops visit the flattened list. *)
Lemma fuse_loops_flat (self : RRFFusion.t) (L : list (string * list A))
      (d : RRFFusion.dicts F A) :
  Py.foldM (RRFFusion.visit_source self) L d =
  Py.foldM (fun d e => RRFFusion.visit self (fst e) d (snd e))
           (encounters L) d.
Proof.
  revert d. induction L as [|sr L IH]; intros d; [reflexivity|].
  cbn [Py.foldM encounters flat_map]. rewrite foldM_app, foldM_map.
  unfold RRFFusion.visit_source at 1. cbn [fst snd].
  destruct (Py.foldM _ (Py.enumerate 1 (snd sr)) d); [apply IH|reflexivity].
Qed.

(** With every [k + rank] non-zero the loop does not raise; it leaves the
    scores of [scores_after] and data for exactly the ids it met. *)
Lemma fuse_loop_ok (self : RRFFusion.t) (es : list (string * (Z * A)))
      (d : RRFFusion.dicts F A) :
  (forall e, In e es -> RRFFusion.k self + enc_rank e <> 0) ->
  exists d',
    Py.foldM (fun d e => RRFFusion.visit self (fst e) d (snd e)) es d = Ok d'
    /\ RRFFusion.doc_scores d' =
       scores_after (RRFFusion.k self) es (RRFFusion.doc_scores d)
    /\ (forall i, is_Some (RRFFusion.doc_data d' !! i) <->
                  is_Some (RRFFusion.doc_data d !! i)
                  \/ In i (List.map enc_id es)).
Proof.
  revert d. induction es as [|[s [r x]] es IH]; intros d Hk.
  - exists d. simpl. split; [reflexivity|]. split; [reflexivity|].
    intros i. split; [now left|]. now intros [Hi|[]].
  - cbn [Py.foldM fst snd]. unfold RRFFusion.visit, RRFFusion.rrf_score.
    assert (Hr : RRFFusion.k self + r <> 0)
      by (apply (Hk (s, (r, x))); now left).
    apply Z.eqb_neq in Hr. rewrite Hr. cbn [mbind outcome_bind].
    match goal with |- context [Py.foldM _ es ?d1] =>
      destruct (IH d1) as (d' & Hrun & Hsc & Hdom) end.
    { intros e He. apply Hk. now right. }
    exists d'. split; [exact Hrun|]. split; [exact Hsc|].
    intros i. rewrite Hdom. cbn [RRFFusion.doc_data List.map].
    unfold enc_id at 2. cbn [snd].
    destruct (RRFFusion.doc_data d !! attr_id x) as [y|] eqn:E; cbn [In].
    + split; [tauto|]. intros [Hi|[<-|Hi]]; auto.
    + destruct (decide (attr_id x = i)) as [<-|Hne].
      * rewrite lookup_insert_eq. split; [tauto|]. intros _. left. now eexists.
      * rewrite lookup_insert_ne by exact Hne. tauto.
Qed.

End FuseLoop.

(** ** The scores dictionary *)

Lemma filter_filter_absorb {A : Type} (f g : A -> bool) (l : list A) :
  (forall y, f y = true -> g y = true) ->
  List.filter f (List.filter g l) = List.filter f l.
Proof.
  intros Hfg. induction l as [|x l IH]; simpl; [reflexivity|].
  destruct (g x) eqn:G; simpl; rewrite IH; [reflexivity|].
  destruct (f x) eqn:Fx; [|reflexivity].
  apply Hfg in Fx. congruence.
Qed.

Lemma filter_filter_and {A : Type} (f g : A -> bool) (l : list A) :
  List.filter f (List.filter g l) = List.filter (fun y => g y && f y) l.
Proof.
  induction l as [|x l IH]; simpl; [reflexivity|].
  destruct (g x); simpl; [destruct (f x)|]; now rewrite IH.
Qed.

Lemma filter_all {A : Type} (f : A -> bool) (l : list A) :
  (forall y, f y = true) -> List.filter f l = l.
Proof.
  intros Hf. induction l as [|x l IH]; simpl; [reflexivity|].
  now rewrite Hf, IH.
Qed.

Section Scores.
Context {F : Type} `{PyFloat F}.

Lemma add_score_keys (i : Z) (x : F) (d : list (Z * F)) :
  List.map fst (RRFFusion.add_score i x d) =
  (List.map fst d ++
     if has_key (List.map fst d) i then [] else [i])%list.
Proof.
  unfold has_key.
  induction d as [|[j s] d IH]; simpl; [reflexivity|].
  destruct (j =? i) eqn:E; simpl.
  - now rewrite app_nil_r.
  - now rewrite IH.
Qed.

Lemma score_at_add (i j : Z) (x : F) (d : list (Z * F)) :
  score_at i (RRFFusion.add_score j x d) =
  if j =? i then Some (fadd (default fzero (score_at i d)) x)
  else score_at i d.
Proof.
  unfold score_at.
  induction d as [|[a s] d IH]; simpl.
  - destruct (j =? i); reflexivity.
  - destruct (Z.eqb_spec a j) as [->|Haj]; simpl.
    + destruct (j =? i); reflexivity.
    + destruct (Z.eqb_spec a i) as [->|Hai].
      * destruct (Z.eqb_spec j i); [congruence|reflexivity].
      * exact IH.
Qed.

Lemma score_at_In (i : Z) (s : F) (d : list (Z * F)) :
  List.NoDup (List.map fst d) -> In (i, s) d -> score_at i d = Some s.
Proof.
  unfold score_at.
  induction d as [|[a t] d IH]; simpl; [tauto|].
  intros Hnd Hin. apply List.NoDup_cons_iff in Hnd as [Ha Hnd].
  destruct Hin as [E|Hin].
  - inversion E; subst. now rewrite Z.eqb_refl.
  - destruct (Z.eqb_spec a i) as [->|Hne]; [|now apply IH].
    exfalso. apply Ha. now apply (in_map fst) in Hin.
Qed.

Context {A : Type} `{PericopeAttrs A}.

Lemma scores_after_keys (k : Z) (es : list (string * (Z * A)))
      (d : list (Z * F)) :
  List.map fst (scores_after k es d) =
  (List.map fst d ++
     List.filter (fun y => negb (has_key (List.map fst d) y))
                 (first_seen (List.map enc_id es)))%list.
Proof.
  revert d. induction es as [|e es IH]; intros d.
  - simpl. now rewrite app_nil_r.
  - cbn [scores_after fold_left List.map first_seen List.filter].
    change (fold_left _ es ?d1) with (scores_after k es d1).
    rewrite IH, add_score_keys.
    destruct (has_key (List.map fst d) (enc_id e)) eqn:E; cbn [negb].
    + rewrite app_nil_r. f_equal. symmetry.
      apply filter_filter_absorb. intros y Hy.
      apply negb_true_iff. apply negb_true_iff in Hy.
      destruct (Z.eqb_spec y (enc_id e)); congruence.
    + rewrite <- app_assoc. cbn [app]. do 2 f_equal.
      rewrite filter_filter_and. apply filter_ext. intros y.
      unfold has_key. rewrite existsb_app. cbn [existsb].
      rewrite orb_false_r, negb_orb, andb_comm. f_equal.
      now rewrite Z.eqb_sym.
Qed.

Lemma scores_after_keys_nil (k : Z) (es : list (string * (Z * A))) :
  List.map fst (scores_after k es []) = first_seen (List.map enc_id es).
Proof.
  rewrite scores_after_keys. cbn [List.map app].
  now apply filter_all.
Qed.

Lemma scores_after_value (k i : Z) (es : list (string * (Z * A)))
      (d : list (Z * F)) :
  default fzero (score_at i (scores_after k es d)) =
  fold_left (fun s r => fadd s (frecip (k + r)))
            (List.map enc_rank (List.filter (fun e => enc_id e =? i) es))
            (default fzero (score_at i d)).
Proof.
  revert d. induction es as [|e es IH]; intros d; [reflexivity|].
  cbn [scores_after fold_left List.filter].
  change (fold_left _ es ?d1) with (scores_after k es d1).
  rewrite IH, score_at_add.
  destruct (enc_id e =? i); reflexivity.
Qed.

End Scores.

(** ** The rationals as scores *)

Lemma Qltb_lt (x y : Q) : Qltb x y = true <-> (x < y)%Q.
Proof.
  unfold Qltb. rewrite Qlt_alt.
  destruct (x ?= y)%Q; split; congruence.
Qed.

Lemma Qltb_ge (x y : Q) : Qltb x y = false <-> (y <= x)%Q.
Proof.
  rewrite <- not_true_iff_false, Qltb_lt. split.
  - apply Qnot_lt_le.
  - apply Qle_not_lt.
Qed.

#[global] Instance PyFloatOrder_Q : PyFloatOrder Q.
Proof.
  split; cbn [fltb PyFloat_Q].
  - intros x y Hxy. apply Qltb_ge. apply Qltb_lt in Hxy.
    now apply Qlt_le_weak.
  - intros x y z Hxz. apply Qltb_lt in Hxz.
    destruct (Qlt_le_dec x y) as [Hxy|Hyx].
    + left. now apply Qltb_lt.
    + right. apply Qltb_lt. now apply Qle_lt_trans with x.
Qed.

(** ** [RRFFusion.fuse] *)

Section Fuse.
Context {F : Type} `{PyFloat F} {A : Type} `{PericopeAttrs A}.

Lemma build_all (d : RRFFusion.dicts F A) (l : list (Z * F)) :
  (forall item, In item l -> is_Some (RRFFusion.doc_data d !! fst item)) ->
  exists out, Py.mapM (RRFFusion.build d) l = Ok out
              /\ List.map item_of out = l.
Proof.
  induction l as [|[i s] l IH]; intros Hd.
  - now exists [].
  - destruct IH as (out & Hout & Hitems).
    { intros item Hin. apply Hd. now right. }
    destruct (Hd (i, s)) as [data Hdata]; [now left|].
    cbn [Py.mapM RRFFusion.build fst] in *. rewrite Hdata, Hout.
    eexists. split; [reflexivity|].
    cbn [List.map]. now rewrite Hitems.
Qed.

Lemma ids_met_In (L : list (string * list A)) (i : Z) :
  In i (ids_met L) <->
  exists sr x, In sr L /\ In x (snd sr) /\ attr_id x = i.
Proof.
  unfold ids_met, encounters. rewrite in_map_iff. split.
  - intros ([s [r x]] & <- & Hin). apply in_flat_map in Hin as (sr & Hsr & Hin).
    apply in_map_iff in Hin as ([r' x'] & E & Hin). inversion E; subst.
    exists sr, x. repeat split; auto.
    rewrite <- (enumerate_snd (snd sr) 1).
    now apply (in_map snd) in Hin.
  - intros (sr & x & Hsr & Hx & <-).
    rewrite <- (enumerate_snd (snd sr) 1) in Hx.
    apply in_map_iff in Hx as ([r x'] & E & Hin). simpl in E. subst x'.
    exists (fst sr, (r, x)). split; [reflexivity|].
    apply in_flat_map. exists sr. split; [exact Hsr|].
    now apply (in_map (fun e => (fst sr, e))) in Hin.
Qed.

(** For [k >= 0], [fuse] returns, and its result lists the scores
    dictionary in stable descending order of score. *)
Lemma fuse_run (self : RRFFusion.t) (L : list (string * list A)) :
  0 <= RRFFusion.k self ->
  exists out,
    RRFFusion.fuse self L = Ok out
    /\ List.map item_of out =
       Py.sorted_desc fltb snd
                      (scores_after (RRFFusion.k self) (encounters L) []).
Proof.
  intros Hk. unfold RRFFusion.fuse. rewrite fuse_loops_flat.
  destruct (fuse_loop_ok self (encounters L) RRFFusion.empty_dicts)
    as (d & Hrun & Hsc & Hdom).
  { intros e He. apply encounters_rank_pos in He. lia. }
  rewrite Hrun. cbn [mbind outcome_bind]. rewrite Hsc.
  cbn [RRFFusion.doc_scores RRFFusion.empty_dicts].
  apply build_all. intros item Hin. apply Hdom. right.
  apply sorted_desc_In in Hin. apply (in_map fst) in Hin.
  rewrite scores_after_keys_nil, first_seen_In in Hin. exact Hin.
Qed.

Lemma scores_after_NoDup (k : Z) (L : list (string * list A)) :
  List.NoDup (List.map fst (scores_after (F:=F) k (encounters L) [])).
Proof. rewrite scores_after_keys_nil. apply first_seen_NoDup. Qed.

Lemma scores_after_rrf_sum (k i : Z) (s : F) (L : list (string * list A)) :
  In (i, s) (scores_after k (encounters L) []) ->
  s = rrf_sum k (ranks_of i L).
Proof.
  intros Hin. apply score_at_In in Hin; [|apply scores_after_NoDup].
  pose proof (scores_after_value k i (encounters L) []) as Hv.
  rewrite Hin in Hv. exact Hv.
Qed.

End Fuse.

Lemma StronglySorted_of_map {A B : Type} (R : B -> B -> Prop) (f : A -> B)
      (l : list A) :
  StronglySorted R (List.map f l) ->
  StronglySorted (fun a b => R (f a) (f b)) l.
Proof.
  induction l as [|x l IH]; simpl; intros Hs; [constructor|].
  apply StronglySorted_inv in Hs as [Hs Hx]. constructor; [now apply IH|].
  rewrite List.Forall_forall in Hx |- *. intros y Hy.
  apply Hx. now apply in_map.
Qed.

Lemma map_id_items {F : Type} (out : list (FusedResult.t F)) :
  List.map FusedResult.id out = List.map fst (List.map item_of out).
Proof. now rewrite List.map_map. Qed.

Section FusedItems.
Context {F : Type} `{PyFloat F} {A : Type} `{PericopeAttrs A}.
Variables (k : Z) (L : list (string * list A)) (out : list (FusedResult.t F)).
Hypothesis Hitems :
  List.map item_of out =
  Py.sorted_desc fltb snd (scores_after k (encounters L) []).

Lemma fused_item_In (x : FusedResult.t F) :
  In x out -> In (item_of x) (scores_after k (encounters L) []).
Proof.
  intros Hx. apply (sorted_desc_In fltb snd). rewrite <- Hitems.
  now apply (in_map item_of) in Hx.
Qed.

Lemma fused_score_sum (x : FusedResult.t F) :
  In x out -> FusedResult.score x = rrf_sum k (ranks_of (FusedResult.id x) L).
Proof.
  intros Hx. apply (scores_after_rrf_sum k). now apply fused_item_In.
Qed.

Lemma fused_ids_perm :
  Permutation (first_seen (ids_met L)) (List.map FusedResult.id out).
Proof.
  rewrite map_id_items, Hitems. unfold ids_met.
  rewrite <- (scores_after_keys_nil (F:=F) k).
  apply Permutation_map, sorted_desc_perm.
Qed.

Lemma fused_ids_NoDup : List.NoDup (List.map FusedResult.id out).
Proof.
  apply (Permutation_NoDup fused_ids_perm), first_seen_NoDup.
Qed.

Lemma fused_ids_met (i : Z) :
  In i (List.map FusedResult.id out) <-> In i (ids_met L).
Proof.
  rewrite <- (first_seen_In i (ids_met L)). split; apply Permutation_in;
    [symmetry|]; apply fused_ids_perm.
Qed.

End FusedItems.

(** C1.  For every fusion input and [k >= 0], [fuse] returns a list [out]
    such that: the contribution of rank [r] is [1.0 / (k + r)] (the rational
    [1/(k+r)] in exact arithmetic); the score of every fused result is the
    left-to-right sum of these terms over all the ranks at which its id
    sits; the ids of [out] are, without repetition, exactly the ids that
    occur in some input list (so nothing is filtered out); [out] is in
    descending order of score; and the default constant is 60. *)
Theorem fuse_rrf_scores {F : Type} `{PyFloat F} `{!PyFloatOrder F}
        {A : Type} `{PericopeAttrs A}
        (self : RRFFusion.t) (result_lists : list (string * list A)) :
  0 <= RRFFusion.k self ->
  exists out : list (FusedResult.t F),
    RRFFusion.fuse self result_lists = Ok out
    /\ (forall rank, 1 <= rank ->
          RRFFusion.rrf_score (F:=F) self rank
          = Ok (frecip (RRFFusion.k self + rank)))
    /\ (forall rank, 1 <= rank ->
          exists t : Q,
            RRFFusion.rrf_score self rank = Ok t
            /\ (t == 1 / inject_Z (RRFFusion.k self + rank))%Q)
    /\ (forall x, In x out ->
          FusedResult.score x
          = rrf_sum (RRFFusion.k self) (ranks_of (FusedResult.id x) result_lists))
    /\ List.NoDup (List.map FusedResult.id out)
    /\ (forall i, In i (List.map FusedResult.id out) <->
          exists sr x, In sr result_lists /\ In x (snd sr) /\ attr_id x = i)
    /\ StronglySorted (desc fltb FusedResult.score) out
    /\ RRFFusion.k (RRFFusion.init Config.settings None) = 60.
Proof.
  intros Hk. destruct (fuse_run (F:=F) self result_lists Hk) as (out & Hrun & Hitems).
  assert (Hnz : forall rank, 1 <= rank ->
                  (RRFFusion.k self + rank =? 0) = false)
    by (intros rank Hr; apply Z.eqb_neq; lia).
  exists out. split; [exact Hrun|]. repeat split.
  - intros rank Hr. unfold RRFFusion.rrf_score. now rewrite Hnz.
  - intros rank Hr. unfold RRFFusion.rrf_score. rewrite Hnz by exact Hr.
    eexists. split; [reflexivity|]. cbn [frecip PyFloat_Q].
    unfold Qdiv. now rewrite Qmult_1_l.
  - intros x. now apply fused_score_sum.
  - exact (fused_ids_NoDup _ _ _ Hitems).
  - intros Hi. apply ids_met_In. now apply (fused_ids_met _ _ _ Hitems).
  - intros Hi. apply (fused_ids_met _ _ _ Hitems). now apply ids_met_In.
  - apply (StronglySorted_of_map (desc fltb snd) item_of). rewrite Hitems.
    apply sorted_desc_sorted; [apply fltb_asym|apply fltb_negtrans].
Qed.

(** The theorem at scenario B, in exact arithmetic with the default [k]. *)
Lemma fuse_rrf_scores_witness :
  0 <= RRFFusion.k (RRFFusion.init Config.settings None)
  /\ exists out : list (FusedResult.t Q),
       RRFFusion.fuse (RRFFusion.init Config.settings None) scenario_B = Ok out
       /\ List.map FusedResult.id out = [1; 2; 3]
       /\ StronglySorted (desc fltb FusedResult.score) out.
Proof.
  assert (Hk : 0 <= RRFFusion.k (RRFFusion.init Config.settings None))
    by (vm_compute; discriminate).
  split; [exact Hk|].
  destruct (fuse_rrf_scores (F:=Q) (RRFFusion.init Config.settings None)
                            scenario_B Hk)
    as (out & Hrun & _ & _ & _ & _ & _ & Hsorted & _).
  exists out. split; [exact Hrun|]. split; [|exact Hsorted].
  vm_compute in Hrun. injection Hrun as <-. reflexivity.
Defined.

(** ** The ordering is a function of ids and ranks only *)

Lemma enumerate_map {A B : Type} (f : A -> B) (l : list A) (start : Z) :
  Py.enumerate start (List.map f l) =
  List.map (fun p => (fst p, f (snd p))) (Py.enumerate start l).
Proof.
  revert start. induction l as [|x l IH]; intros start; simpl;
    [reflexivity|now rewrite IH].
Qed.

Lemma id_ranks_encounters {A : Type} `{PericopeAttrs A}
      (L : list (string * list A)) :
  id_ranks (encounters L) =
  flat_map (fun ids => List.map (fun p => (snd p, fst p)) (Py.enumerate 1 ids))
           (id_lists L).
Proof.
  unfold id_ranks, encounters, id_lists.
  induction L as [|sr L IH]; [reflexivity|].
  cbn [flat_map List.map]. rewrite List.map_app, IH. f_equal.
  rewrite enumerate_map, !List.map_map. reflexivity.
Qed.

Lemma scores_after_id_ranks {F : Type} `{PyFloat F} {A : Type}
      `{PericopeAttrs A} (k : Z) (es : list (string * (Z * A)))
      (d : list (Z * F)) :
  scores_after k es d =
  fold_left (fun sc p => RRFFusion.add_score (fst p) (frecip (k + snd p)) sc)
            (id_ranks es) d.
Proof.
  revert d. induction es as [|e es IH]; intros d; [reflexivity|].
  cbn [scores_after fold_left id_ranks List.map fst snd].
  apply IH.
Qed.

Lemma scores_after_same_ids {F : Type} `{PyFloat F} {A : Type}
      `{PericopeAttrs A} (k : Z) (L L2 : list (string * list A)) :
  id_lists L2 = id_lists L ->
  scores_after (F:=F) k (encounters L2) [] = scores_after k (encounters L) [].
Proof.
  intros E. now rewrite !scores_after_id_ranks, !id_ranks_encounters, E.
Qed.

(** C6.  Fusion is a function of its input, and more: a second input with
    the same ids in the same lists (whatever the payloads and raw scores)
    gives the same ids and scores in the same order.  Two fused results
    whose scores [<] does not separate stand in the order in which their
    ids were first met while iterating the sources and, within a source, the
    ranks. *)
Theorem fuse_deterministic_tie_order {F : Type} `{PyFloat F}
        `{!PyFloatOrder F} {A : Type} `{PericopeAttrs A}
        (self : RRFFusion.t) (result_lists : list (string * list A)) :
  0 <= RRFFusion.k self ->
  exists out : list (FusedResult.t F),
    RRFFusion.fuse self result_lists = Ok out
    /\ (forall again : list (string * list A),
          again = result_lists -> RRFFusion.fuse self again = Ok out)
    /\ (forall other : list (string * list A),
          id_lists other = id_lists result_lists ->
          exists out' : list (FusedResult.t F),
            RRFFusion.fuse self other = Ok out'
            /\ List.map item_of out' = List.map item_of out)
    /\ (forall x y,
          In x out -> In y out ->
          tieb fltb (FusedResult.score x) (FusedResult.score y) = true ->
          (precedes out x y <->
           met_before (ids_met result_lists)
                      (FusedResult.id x) (FusedResult.id y))).
Proof.
  intros Hk.
  destruct (fuse_run (F:=F) self result_lists Hk) as (out & Hrun & Hitems).
  exists out. split; [exact Hrun|]. split; [now intros again ->|]. split.
  - intros other E.
    destruct (fuse_run (F:=F) self other Hk) as (out' & Hrun' & Hitems').
    exists out'. split; [exact Hrun'|].
    now rewrite Hitems, Hitems', (scores_after_same_ids _ _ _ E).
  - intros x y Hx Hy Htie.
    set (S := scores_after (RRFFusion.k self) (encounters result_lists) [])
      in *.
    assert (HndS : List.NoDup (List.map fst S)) by apply scores_after_NoDup.
    assert (Hnd : List.NoDup (List.map item_of out)).
    { apply (NoDup_map_inv fst). rewrite <- map_id_items.
      exact (fused_ids_NoDup _ _ _ Hitems). }
    pose proof (fused_item_In _ _ _ Hitems x Hx) as HxS.
    pose proof (fused_item_In _ _ _ Hitems y Hy) as HyS.
    rewrite <- (precedes_map_NoDup item_of out x y Hnd Hx Hy), Hitems.
    rewrite <- first_seen_precedes. unfold ids_met.
    rewrite <- (scores_after_keys_nil (F:=F) (RRFFusion.k self)).
    fold S.
    change (FusedResult.id x) with (fst (item_of x)).
    change (FusedResult.id y) with (fst (item_of y)).
    rewrite (precedes_map_NoDup fst S _ _ HndS HxS HyS).
    pose proof (precedes_filter
                  (fun a : Z * F => tieb fltb (FusedResult.score x) (snd a)))
      as Hf.
    pose proof (sorted_desc_ties fltb snd fltb_negtrans
                  (FusedResult.score x) S) as Hst.
    assert (Tx : tieb fltb (FusedResult.score x) (snd (item_of x)) = true).
    { unfold tieb. cbn [item_of snd].
      now rewrite (lt_irrefl fltb fltb_asym). }
    split; intros Hp.
    + apply (Hf S). rewrite <- Hst. apply Hf. auto.
    + apply (Hf (Py.sorted_desc fltb snd S)). rewrite Hst. apply Hf. auto.
Qed.

(** The theorem at scenario B: ids 1 and 2 tie at [1/61 + 1/62] and id 1,
    met first, comes first. *)
Lemma fuse_deterministic_tie_order_witness :
  0 <= RRFFusion.k (RRFFusion.init Config.settings None)
  /\ exists out : list (FusedResult.t Q),
       RRFFusion.fuse (RRFFusion.init Config.settings None) scenario_B = Ok out
       /\ List.map FusedResult.id out = [1; 2; 3]
       /\ (forall x y,
             In x out -> In y out ->
             tieb fltb (FusedResult.score x) (FusedResult.score y) = true ->
             (precedes out x y <->
              met_before (ids_met scenario_B)
                         (FusedResult.id x) (FusedResult.id y))).
Proof.
  assert (Hk : 0 <= RRFFusion.k (RRFFusion.init Config.settings None))
    by (vm_compute; discriminate).
  split; [exact Hk|].
  destruct (fuse_deterministic_tie_order
              (F:=Q) (RRFFusion.init Config.settings None) scenario_B Hk)
    as (out & Hrun & _ & _ & Hties).
  exists out. split; [exact Hrun|]. split; [|exact Hties].
  vm_compute in Hrun. injection Hrun as <-. reflexivity.
Defined.

(** ** Monotonicity in exact arithmetic *)

Lemma Qsum_app (l l' : list Q) : (Qsum (l ++ l') == Qsum l + Qsum l')%Q.
Proof.
  induction l as [|x l IH]; simpl; [now rewrite Qplus_0_l|].
  now rewrite IH, Qplus_assoc.
Qed.

Lemma Qsum_perm (l l' : list Q) : Permutation l l' -> (Qsum l == Qsum l')%Q.
Proof.
  induction 1 as [|x l l' _ IH|x y l|l l' l'' _ IH1 _ IH2]; simpl.
  - reflexivity.
  - now rewrite IH.
  - rewrite !Qplus_assoc. now rewrite (Qplus_comm y x).
  - now rewrite IH1.
Qed.

Lemma Qsum_pos (l : list Q) :
  l <> [] -> (forall x, In x l -> (0 < x)%Q) -> (0 < Qsum l)%Q.
Proof.
  destruct l as [|x l]; [congruence|]. intros _ Hpos. simpl.
  assert (H0 : (0 <= Qsum l)%Q).
  { assert (Hl : forall y, In y l -> (0 < y)%Q) by (intros y Hy; apply Hpos; now right).
    clear Hpos. induction l as [|y l IH]; simpl; [apply Qle_refl|].
    apply Qle_trans with (0 + 0)%Q; [now rewrite Qplus_0_l; apply Qle_refl|].
    apply Qplus_le_compat.
    - apply Qlt_le_weak, Hl. now left.
    - apply IH. intros z Hz. apply Hl. now right. }
  apply Qlt_le_trans with (x + 0)%Q.
  - rewrite Qplus_0_r. apply Hpos. now left.
  - apply Qplus_le_compat; [apply Qle_refl|exact H0].
Qed.

(** The contribution of a rank is strictly positive. *)
Lemma rrf_term_pos (k r : Z) :
  0 <= k -> 1 <= r -> (0 < 1 / inject_Z (k + r))%Q.
Proof.
  intros Hk Hr. unfold Qdiv. rewrite Qmult_1_l.
  apply Qinv_lt_0_compat. unfold Qlt, inject_Z. simpl. lia.
Qed.

(** Over the rationals the left-to-right sum is the sum. *)
Lemma rrf_sum_Qsum (k : Z) (ranks : list Z) :
  (rrf_sum k ranks
   == Qsum (List.map (fun r => 1 / inject_Z (k + r)) ranks))%Q.
Proof.
  unfold rrf_sum. cbn [fadd fzero frecip PyFloat_Q].
  rewrite <- (Qplus_0_l (Qsum _)). generalize 0%Q as acc.
  induction ranks as [|r ranks IH]; intros acc; simpl.
  - now rewrite Qplus_0_r.
  - rewrite IH. unfold Qdiv. rewrite Qmult_1_l. now rewrite Qplus_assoc.
Qed.

Lemma ranks_of_pos {A : Type} `{PericopeAttrs A} (i r : Z)
      (L : list (string * list A)) :
  In r (ranks_of i L) -> 1 <= r.
Proof.
  unfold ranks_of. rewrite in_map_iff. intros (e & <- & He).
  apply filter_In in He as [He _]. now apply encounters_rank_pos in He.
Qed.

Lemma ranks_of_met {A : Type} `{PericopeAttrs A} (i : Z)
      (L : list (string * list A)) :
  ranks_of i L <> [] -> In i (ids_met L).
Proof.
  unfold ranks_of, ids_met. intros Hne.
  destruct (List.filter _ (encounters L)) as [|e es] eqn:E; [now destruct Hne|].
  assert (He : In e (List.filter (fun e => enc_id e =? i) (encounters L)))
    by (rewrite E; now left).
  apply filter_In in He as [He Hi]. apply Z.eqb_eq in Hi. subst i.
  now apply in_map.
Qed.

(** Over the rationals, for every [k >= 0] and without a bound on the
    input: when [b] sits at every rank at which [a] sits and at one rank
    more at least, both are in the fused output and [b]'s score is strictly
    higher; every rank adds a strictly positive term. *)
Lemma fuse_exact_more_sources_higher {A : Type} `{PericopeAttrs A}
        (self : RRFFusion.t) (lists_a lists_b : list (string * list A))
        (a b : Z) (extra : list Z) :
  0 <= RRFFusion.k self ->
  ranks_of a lists_a <> [] ->
  extra <> [] ->
  Permutation (ranks_of b lists_b) (ranks_of a lists_a ++ extra) ->
  exists out_a out_b : list (FusedResult.t Q),
    RRFFusion.fuse self lists_a = Ok out_a
    /\ RRFFusion.fuse self lists_b = Ok out_b
    /\ (exists xa, In xa out_a /\ FusedResult.id xa = a)
    /\ (exists xb, In xb out_b /\ FusedResult.id xb = b)
    /\ (forall xa xb,
          In xa out_a -> FusedResult.id xa = a ->
          In xb out_b -> FusedResult.id xb = b ->
          (FusedResult.score xa < FusedResult.score xb)%Q)
    /\ (forall r, 1 <= r -> (0 < 1 / inject_Z (RRFFusion.k self + r))%Q).
Proof.
  intros Hk Ha Hextra Hperm.
  destruct (fuse_run (F:=Q) self lists_a Hk) as (out_a & Hrun_a & Hitems_a).
  destruct (fuse_run (F:=Q) self lists_b Hk) as (out_b & Hrun_b & Hitems_b).
  exists out_a, out_b. split; [exact Hrun_a|]. split; [exact Hrun_b|].
  assert (Hb : ranks_of b lists_b <> []).
  { intros E. rewrite E in Hperm. apply Permutation_nil in Hperm.
    apply app_eq_nil in Hperm as [_ ->]. now apply Hextra. }
  split; [|split; [|split]].
  - apply ranks_of_met, (fused_ids_met _ _ _ Hitems_a) in Ha.
    apply in_map_iff in Ha as (xa & E & Hin). now exists xa.
  - apply ranks_of_met, (fused_ids_met _ _ _ Hitems_b) in Hb.
    apply in_map_iff in Hb as (xb & E & Hin). now exists xb.
  - intros xa xb Hxa Ea Hxb Eb.
    rewrite (fused_score_sum _ _ _ Hitems_a xa Hxa), Ea.
    rewrite (fused_score_sum _ _ _ Hitems_b xb Hxb), Eb.
    rewrite !rrf_sum_Qsum.
    rewrite (Qsum_perm _ _ (Permutation_map _ Hperm)).
    rewrite List.map_app, Qsum_app.
    rewrite <- (Qplus_0_r (Qsum (List.map _ (ranks_of a lists_a)))) at 1.
    apply Qplus_lt_r. apply Qsum_pos.
    + destruct extra; [congruence|discriminate].
    + intros t Ht. apply in_map_iff in Ht as (r & <- & Hr).
      apply rrf_term_pos; [exact Hk|].
      apply (ranks_of_pos b r lists_b).
      apply (Permutation_in r (Permutation_sym Hperm)).
      apply in_or_app. now right.
  - intros r Hr. now apply rrf_term_pos.
Qed.

(** ** [ContextBuilder.build_with_metadata] *)

Lemma len_append (s1 s2 : string) :
  Str.len (s1 +:+ s2) = Str.len s1 + Str.len s2.
Proof.
  unfold Str.len. induction s1 as [|c s1 IH]; simpl String.length.
  - reflexivity.
  - change (String.length (s1 +:+ s2)) with (String.length (s1 +:+ s2)) in *.
    lia.
Qed.

Lemma len_nonneg (s : string) : 0 <= Str.len s.
Proof. unfold Str.len. lia. Qed.

Lemma total_length_nonneg (parts : list string) : 0 <= total_length parts.
Proof.
  induction parts as [|p parts IH]; simpl; [lia|].
  pose proof (len_nonneg p). lia.
Qed.

Lemma total_length_app (l l' : list string) :
  total_length (l ++ l') = total_length l + total_length l'.
Proof. induction l as [|p l IH]; simpl; lia. Qed.

(** The joined string has the characters of its parts and one separator
    between any two. *)
Lemma len_join (sep : string) (parts : list string) :
  parts <> [] ->
  Str.len (Py.join sep parts) =
  total_length parts + Str.len sep * (Z.of_nat (length parts) - 1).
Proof.
  induction parts as [|p parts IH]; [congruence|]. intros _.
  destruct parts as [|q parts].
  - simpl. lia.
  - change (Py.join sep (p :: q :: parts))
      with (p +:+ (sep +:+ Py.join sep (q :: parts))).
    rewrite !len_append, IH by discriminate.
    cbn [total_length length]. lia.
Qed.

Section Collect.
Context {F : Type}.

(** The loop once something is in [context_parts]: it appends the segments
    of a prefix of [results] that keeps the running total within
    [max_chars], and stops at the first result that would not. *)
Lemma collect_nonempty (max_chars : Z) (results : list (FusedResult.t F))
      (context_parts : list string)
      (metadata : list (ContextBuilder.Metadata F)) (total_chars : Z) :
  context_parts <> [] ->
  exists m : nat,
    (m <= length results)%nat
    /\ ContextBuilder.collect max_chars results context_parts metadata
                              total_chars
       = ((context_parts ++ segments_of (firstn m results))%list,
          (metadata ++ List.map ContextBuilder.metadata_of
                                (firstn m results))%list)
    /\ (m = O
        \/ total_chars + total_length (segments_of (firstn m results))
           <= max_chars)
    /\ (m = length results
        \/ exists r, nth_error results m = Some r
                     /\ max_chars
                        < total_chars
                          + total_length (segments_of (firstn m results))
                          + Str.len (ContextBuilder._format_pericope r)).
Proof.
  revert context_parts metadata total_chars.
  induction results as [|r rest IH]; intros parts md total Hne.
  - exists O. cbn. rewrite !app_nil_r. repeat split; auto.
  - cbn [ContextBuilder.collect].
    assert (Hlen : Nat.eqb (length parts) 0 = false)
      by (destruct parts; [congruence|reflexivity]).
    rewrite Hlen. cbn [negb]. rewrite andb_true_r.
    destruct (Z.gtb_spec (total + Str.len (ContextBuilder._format_pericope r))
                         max_chars) as [Hgt|Hle].
    + exists O. cbn [firstn segments_of List.map total_length nth_error].
      rewrite !app_nil_r. split; [cbn [length]; lia|].
      split; [reflexivity|]. split; [now left|].
      right. exists r. split; [reflexivity|lia].
    + destruct (IH (parts ++ [ContextBuilder._format_pericope r])%list
                   (md ++ [ContextBuilder.metadata_of r])%list
                   (total + Str.len (ContextBuilder._format_pericope r)))
        as (m & Hm & Hrun & Hfit & Hstop).
      { now destruct parts. }
      exists (S m). cbn [length firstn segments_of List.map total_length].
      split; [lia|]. split.
      { rewrite Hrun. unfold segments_of. now rewrite <- !app_assoc. }
      split.
      * right. fold (segments_of (firstn m rest)).
        pose proof (total_length_nonneg (segments_of (firstn m rest))).
        destruct Hfit as [->|Hfit]; [|lia].
        change (segments_of (firstn 0 rest)) with (@nil string).
        cbn [total_length]. lia.
      * fold (segments_of (firstn m rest)).
        destruct Hstop as [->|(r' & Hnth & Hover)]; [now left|].
        right. exists r'. split; [exact Hnth|lia].
Qed.

End Collect.

(** C2, as the code has it.  For every non-empty fused list the context is
    the join, with the separator, of the whole segments of a non-empty
    prefix of the list, and the metadata describe that same prefix.  The
    characters of the included segments, separators not counted, are at
    most [max_tokens * 1.5], unless only the first segment is included and
    it alone is longer; the context is longer than that count by the 7
    characters of every separator.  The prefix is the longest one that
    fits. *)
Theorem build_with_metadata_budget {F : Type} (self : ContextBuilder.t)
        (results : list (FusedResult.t F)) :
  results <> [] ->
  exists n : nat,
    (1 <= n <= length results)%nat
    /\ ContextBuilder.build_with_metadata self results
       = (Py.join ContextBuilder.separator (segments_of (firstn n results)),
          List.map ContextBuilder.metadata_of (firstn n results))
    /\ (2 * total_length (segments_of (firstn n results))
        <= 3 * ContextBuilder.max_tokens self
        \/ (n = 1%nat
            /\ 3 * ContextBuilder.max_tokens self
               < 2 * total_length (segments_of (firstn 1 results))))
    /\ Str.len (fst (ContextBuilder.build_with_metadata self results))
       = total_length (segments_of (firstn n results))
         + 7 * (Z.of_nat n - 1)
    /\ (n = length results
        \/ exists r, nth_error results n = Some r
                     /\ ContextBuilder.max_chars self
                        < total_length (segments_of (firstn n results))
                          + Str.len (ContextBuilder._format_pericope r)).
Proof.
  destruct results as [|r rest]; [congruence|]. intros _.
  unfold ContextBuilder.build_with_metadata.
  cbn [ContextBuilder.collect length Nat.eqb negb]. rewrite andb_false_r.
  cbn [app]. rewrite Z.add_0_l.
  destruct (collect_nonempty (ContextBuilder.max_chars self) rest
              [ContextBuilder._format_pericope r]
              [ContextBuilder.metadata_of r]
              (Str.len (ContextBuilder._format_pericope r)))
    as (m & Hm & Hrun & Hfit & Hstop); [discriminate|].
  rewrite Hrun. exists (S m).
  cbn [firstn segments_of List.map total_length app length fst].
  fold (segments_of (firstn m rest)).
  set (first := ContextBuilder._format_pericope r) in *.
  set (more := segments_of (firstn m rest)) in *.
  pose proof (total_length_nonneg more) as Hmore.
  pose proof (len_nonneg first) as Hfirst.
  assert (Hq : forall t : Z,
             0 <= t -> t <= ContextBuilder.max_chars self ->
             2 * t <= 3 * ContextBuilder.max_tokens self).
  { unfold ContextBuilder.max_chars. intros t Ht0 Ht.
    pose proof (Z.quot_rem' (3 * ContextBuilder.max_tokens self) 2) as Hqr.
    destruct (Z_lt_le_dec (3 * ContextBuilder.max_tokens self) 0) as [Hneg|Hpos].
    - pose proof (Z.rem_bound_pos_neg (3 * ContextBuilder.max_tokens self) 2
                    ltac:(lia) ltac:(lia)). lia.
    - pose proof (Z.rem_bound_pos (3 * ContextBuilder.max_tokens self) 2
                    Hpos ltac:(lia)). lia. }
  assert (Hx : forall t : Z,
             0 <= t -> ContextBuilder.max_chars self < t ->
             3 * ContextBuilder.max_tokens self < 2 * t).
  { unfold ContextBuilder.max_chars. intros t Ht0 Ht.
    pose proof (Z.quot_rem' (3 * ContextBuilder.max_tokens self) 2) as Hqr.
    destruct (Z_lt_le_dec (3 * ContextBuilder.max_tokens self) 0) as [Hneg|Hpos].
    - lia.
    - pose proof (Z.rem_bound_pos (3 * ContextBuilder.max_tokens self) 2
                    Hpos ltac:(lia)). lia. }
  split; [lia|]. split; [reflexivity|]. split; [|split].
  - destruct Hfit as [->|Hfit].
    + subst more. change (firstn 0 rest) with (@nil (FusedResult.t F)).
      cbn [segments_of List.map total_length].
      destruct (Z_lt_le_dec (ContextBuilder.max_chars self) (Str.len first))
        as [Hlt|Hle].
      * right. split; [reflexivity|]. apply Hx; lia.
      * left. apply Hq; lia.
    + left. apply Hq; lia.
  - rewrite len_join by discriminate.
    cbn [total_length length]. fold more.
    unfold segments_of in more. subst more.
    rewrite length_map, List.length_firstn.
    change (Str.len ContextBuilder.separator) with 7. lia.
  - destruct Hstop as [->|(r' & Hnth & Hover)]; [now left|].
    right. exists r'. split; [exact Hnth|lia].
Qed.

(** The theorem at two 53-character segments and a budget of 106: both are
    included. *)
Lemma build_with_metadata_budget_witness :
  two_fused <> []
  /\ exists n : nat,
       (1 <= n <= 2)%nat
       /\ ContextBuilder.build_with_metadata builder_71 two_fused
          = (Py.join ContextBuilder.separator
                     (segments_of (firstn n two_fused)),
             List.map ContextBuilder.metadata_of (firstn n two_fused))
       /\ total_length (segments_of (firstn n two_fused)) = 106.
Proof.
  assert (Hne : two_fused <> []) by discriminate.
  split; [exact Hne|].
  destruct (build_with_metadata_budget builder_71 two_fused Hne)
    as (n & Hn & Hrun & _ & _ & Hstop).
  exists n. split; [exact Hn|]. split; [exact Hrun|].
  destruct Hstop as [->|(r & Hnth & Hover)]; [reflexivity|].
  destruct n as [|[|[|n]]]; cbn in Hn; try lia.
  - exfalso. injection Hnth as <-. vm_compute in Hover. discriminate.
  - reflexivity.
Defined.

(** C2, as the claim has it, fails: with a budget of 71 tokens (106
    characters) and two results whose segments have 53 characters each, both
    are included and the context has 53 + 7 + 53 = 113 characters, although
    the first segment alone is within the budget. *)
Lemma context_exceeds_budget :
  two_fused <> []
  /\ Str.len (fst (ContextBuilder.build_with_metadata builder_71 two_fused))
     = 113
  /\ Str.len (ContextBuilder._format_pericope (fused_passage 1 (1 # 61))) = 53
  /\ ~ (2 * Str.len (fst (ContextBuilder.build_with_metadata builder_71
                                                             two_fused))
        <= 3 * ContextBuilder.max_tokens builder_71
        \/ 3 * ContextBuilder.max_tokens builder_71
           < 2 * Str.len (ContextBuilder._format_pericope
                            (fused_passage 1 (1 # 61)))).
Proof.
  split; [discriminate|]. split; [reflexivity|]. split; [reflexivity|].
  vm_compute. intros [H|H]; [now apply H|discriminate].
Qed.

(** ** [GraphRetriever._retrieve_general] *)

Lemma StronglySorted_precedes {A : Type} (R : A -> A -> Prop) (l : list A)
      (a b : A) :
  StronglySorted R l -> precedes l a b -> R a b.
Proof.
  induction 1 as [|x l Hs IH Hx]; simpl; [tauto|].
  intros [[-> Hb]|Hp]; [|now apply IH].
  rewrite List.Forall_forall in Hx. now apply Hx.
Qed.

(** The deduplication loop keeps, for every id, the first result with that
    id, and nothing else. *)
Lemma dedup_spec (l : list GraphRetrievalResult.t) (seen_ids : gset Z)
      (unique_results : list GraphRetrievalResult.t) :
  (forall i, i ∈ seen_ids <->
             In i (List.map GraphRetrievalResult.id unique_results)) ->
  List.NoDup (List.map GraphRetrievalResult.id unique_results) ->
  let res := GraphRetriever.dedup l seen_ids unique_results in
  List.NoDup (List.map GraphRetrievalResult.id res)
  /\ (forall u, In u unique_results -> In u res)
  /\ (forall u, In u res -> In u unique_results \/ In u l)
  /\ (forall r, In r l ->
        exists u, In u res
                  /\ GraphRetrievalResult.id u = GraphRetrievalResult.id r
                  /\ (In u unique_results \/ u = r \/ precedes l u r)).
Proof.
  revert seen_ids unique_results.
  induction l as [|r l IH]; intros seen unique Hseen Hnd; cbn zeta.
  - cbn [GraphRetriever.dedup]. repeat split; auto. intros r [].
  - cbn [GraphRetriever.dedup].
    destruct (decide (GraphRetrievalResult.id r ∈ seen)) as [Hin|Hnin].
    + destruct (IH seen unique Hseen Hnd) as (H1 & H2 & H3 & H4).
      split; [exact H1|]. split; [exact H2|]. split.
      * intros u Hu. destruct (H3 u Hu); [now left|right; now right].
      * intros r' [<-|Hr'].
        -- apply Hseen, in_map_iff in Hin as (u & E & Hu).
           exists u. auto.
        -- destruct (H4 r' Hr') as (u & Hu & E & Hwhere).
           exists u. split; [exact Hu|]. split; [exact E|].
           destruct Hwhere as [?|[?|?]]; auto.
           right; right. cbn [precedes]. now right.
    + destruct (IH ({[GraphRetrievalResult.id r]} ∪ seen)
                   (unique ++ [r])%list) as (H1 & H2 & H3 & H4).
      { intros i. rewrite List.map_app, in_app_iff, elem_of_union,
          elem_of_singleton, Hseen. cbn. intuition. }
      { rewrite List.map_app. apply List.NoDup_app; [exact Hnd| |].
        - cbn. constructor; [intros []|constructor].
        - intros i Hi [E|[]]. apply Hnin, Hseen. now rewrite E. }
      split; [exact H1|]. split.
      { intros u Hu. apply H2, in_or_app. now left. }
      split.
      * intros u Hu. destruct (H3 u Hu) as [Hu'|Hu'].
        -- apply in_app_or in Hu' as [?|[<-|[]]]; [now left|right; now left].
        -- right. now right.
      * intros r' [<-|Hr'].
        -- exists r. split; [apply H2, in_or_app; right; now left|]. auto.
        -- destruct (H4 r' Hr') as (u & Hu & E & Hwhere).
           exists u. split; [exact Hu|]. split; [exact E|].
           destruct Hwhere as [Hu'|[?|?]].
           ++ apply in_app_or in Hu' as [?|[<-|[]]]; [now left|].
              right; right. cbn [precedes]. now left.
           ++ auto.
           ++ right; right. cbn [precedes]. now right.
Qed.

(** A scoped strategy never raises: it runs its Cypher text once when the
    graph is available and turns the rows into results. *)
Lemma scoped_run (w : World) (query : Cypher) (kind : string)
      (names : list string) (top_k : Z) :
  GraphRetriever.scoped w query kind names top_k =
  (read_events w query {| cp_names := names; cp_limit := top_k |},
   Ok (List.map (GraphRetriever.result_of_row kind)
                (rows_read w query {| cp_names := names; cp_limit := top_k |}))).
Proof.
  unfold GraphRetriever.scoped, Neo4jClient.execute_read, rows_read,
    read_events.
  destruct (Neo4jClient.is_available w); cbn; [|reflexivity].
  destruct (neo4j_run w query _); reflexivity.
Qed.

Lemma slice_to_nonneg {A : Type} (l : list A) (n : Z) :
  0 <= n ->
  Py.slice_to l n = firstn (Z.to_nat n) l
  /\ Z.of_nat (length (Py.slice_to l n)) <= n.
Proof.
  intros Hn. unfold Py.slice_to.
  destruct (Z.ltb_spec n 0) as [?|_]; [lia|]. split; [reflexivity|].
  rewrite List.length_firstn. lia.
Qed.

(** C4, as the code has it.  The general strategy runs the person, topic
    and event strategies, each with the limit [max(top_k // 3, 5)] (not
    [top_k / 3]); none of them raises.  It merges their results in that
    order and keeps one result per passage id: every kept result is one of
    the merged ones, and every merged result is represented by a kept
    result of the same id whose score is at least as high.  It returns
    [unique_results[:top_k]], that is the first [top_k] of them for
    [top_k >= 0]. *)
Theorem retrieve_general_merges (w : World) (keywords : list string)
        (top_k : Z) :
  let limit := Z.max (top_k / 3) 5 in
  exists person topic event unique,
    GraphRetriever._retrieve_by_person w keywords limit
    = (read_events w PersonCypher {| cp_names := keywords; cp_limit := limit |},
       Ok person)
    /\ GraphRetriever._retrieve_by_topic w keywords limit
       = (read_events w TopicCypher {| cp_names := keywords; cp_limit := limit |},
          Ok topic)
    /\ GraphRetriever._retrieve_by_event w keywords limit
       = (read_events w EventCypher {| cp_names := keywords; cp_limit := limit |},
          Ok event)
    /\ GraphRetriever._retrieve_general w keywords top_k
       = ((read_events w PersonCypher
                       {| cp_names := keywords; cp_limit := limit |}
           ++ read_events w TopicCypher
                          {| cp_names := keywords; cp_limit := limit |}
           ++ read_events w EventCypher
                          {| cp_names := keywords; cp_limit := limit |})%list,
          Ok (Py.slice_to unique top_k))
    /\ cypher_limits (trace (GraphRetriever._retrieve_general w keywords top_k))
       = (if Neo4jClient.is_available w then [limit; limit; limit] else [])
    /\ List.NoDup (List.map GraphRetrievalResult.id unique)
    /\ (forall u, In u unique -> In u (person ++ topic ++ event)%list)
    /\ (forall r, In r (person ++ topic ++ event)%list ->
          exists u, In u unique
                    /\ GraphRetrievalResult.id u = GraphRetrievalResult.id r
                    /\ (GraphRetrievalResult.score r
                        <= GraphRetrievalResult.score u)%Q)
    /\ (0 <= top_k ->
        Py.slice_to unique top_k = firstn (Z.to_nat top_k) unique
        /\ Z.of_nat (length (Py.slice_to unique top_k)) <= top_k).
Proof.
  intros limit.
  set (pp := {| cp_names := keywords; cp_limit := limit |}).
  set (person := List.map (GraphRetriever.result_of_row "person")
                          (rows_read w PersonCypher pp)).
  set (topic := List.map (GraphRetriever.result_of_row "topic")
                         (rows_read w TopicCypher pp)).
  set (event := List.map (GraphRetriever.result_of_row "event")
                         (rows_read w EventCypher pp)).
  set (sorted := Py.sorted_desc Qltb GraphRetrievalResult.score
                                (person ++ topic ++ event)%list).
  exists person, topic, event, (GraphRetriever.dedup sorted ∅ []).
  assert (Hgen : GraphRetriever._retrieve_general w keywords top_k
                 = ((read_events w PersonCypher pp
                     ++ read_events w TopicCypher pp
                     ++ read_events w EventCypher pp)%list,
                    Ok (Py.slice_to (GraphRetriever.dedup sorted ∅ []) top_k))).
  { unfold GraphRetriever._retrieve_general, GraphRetriever._retrieve_by_person,
      GraphRetriever._retrieve_by_topic, GraphRetriever._retrieve_by_event.
    fold limit. rewrite !scoped_run. fold pp. cbn.
    now rewrite app_nil_r. }
  destruct (dedup_spec sorted ∅ []) as (Hnd & _ & Hfrom & Hkept).
  { intros i. cbn. set_solver. }
  { constructor. }
  assert (Hsorted : StronglySorted (desc Qltb GraphRetrievalResult.score) sorted).
  { apply sorted_desc_sorted.
    - exact (fltb_asym (F:=Q)).
    - exact (fltb_negtrans (F:=Q)). }
  repeat split.
  - apply scoped_run.
  - apply scoped_run.
  - apply scoped_run.
  - exact Hgen.
  - rewrite Hgen. unfold trace, read_events. cbn [fst].
    destruct (Neo4jClient.is_available w); reflexivity.
  - exact Hnd.
  - intros u Hu. destruct (Hfrom u Hu) as [[]|Hin]. unfold sorted in Hin.
    now apply sorted_desc_In in Hin.
  - intros r Hr.
    apply (sorted_desc_In Qltb GraphRetrievalResult.score) in Hr.
    destruct (Hkept r Hr) as (u & Hu & E & [[]|[->|Hp]]).
    + exists r. split; [exact Hu|]. split; [reflexivity|apply Qle_refl].
    + exists u. split; [exact Hu|]. split; [exact E|].
      apply Qltb_ge. exact (StronglySorted_precedes _ _ _ _ Hsorted Hp).
  - now apply slice_to_nonneg.
  - now apply slice_to_nonneg.
Qed.

(** C4, as the claim has it, fails: asked for 6 results, the general
    strategy runs each scoped strategy with limit 5, not 6 / 3 = 2, and so
    returns all five passages of the person. *)
Lemma general_split_not_even :
  cypher_limits
    (trace (GraphRetriever._retrieve_general world_ok ["Abraham"] 6))
  = [5; 5; 5]
  /\ 6 / 3 = 2
  /\ ~ (cypher_limits
          (trace (GraphRetriever._retrieve_general world_ok ["Abraham"] 6))
        = [6 / 3; 6 / 3; 6 / 3])
  /\ result (GraphRetriever._retrieve_general world_ok ["Abraham"] 6)
     = Ok (List.map (GraphRetriever.result_of_row "person")
                    (firstn 1 (graph_rows PersonCypher))
           ++ List.map (GraphRetriever.result_of_row "topic")
                       (firstn 1 (graph_rows TopicCypher))
           ++ List.map (GraphRetriever.result_of_row "person")
                       (skipn 2 (graph_rows PersonCypher))
           ++ List.map (GraphRetriever.result_of_row "topic")
                       (skipn 1 (graph_rows TopicCypher)))%list.
Proof.
  split; [reflexivity|]. split; [reflexivity|]. split; [|reflexivity].
  vm_compute. discriminate.
Qed.

(** ** Traces and outcomes of computations *)

Lemma bind_run {A B : Type} (m : M A) (f : A -> M B) :
  m ≫= f =
  match result m with
  | Ok a => ((trace m ++ trace (f a))%list, result (f a))
  | Raise e => (trace m, Raise e)
  end.
Proof.
  destruct m as [t [a|e]]; cbn; [|reflexivity]. now destruct (f a).
Qed.

Lemma try_except_run {A : Type} (body : M A) (handler : exn -> M A) :
  try_except body handler =
  match result body with
  | Ok a => (trace body, Ok a)
  | Raise e => ((trace body ++ trace (handler e))%list, result (handler e))
  end.
Proof.
  destruct body as [t [a|e]]; cbn; [reflexivity|]. now destruct (handler e).
Qed.

Lemma bind_Ok_inv {A B : Type} (m : M A) (f : A -> M B) (b : B) :
  result (m ≫= f) = Ok b ->
  exists a, result m = Ok a /\ result (f a) = Ok b.
Proof.
  rewrite bind_run. destruct (result m) as [a|e]; cbn; [|discriminate].
  intros Hb. now exists a.
Qed.

Section TraceAll.
Variable P : event -> Prop.

Lemma all_bind {A B : Type} (m : M A) (f : A -> M B) :
  Forall P (trace m) -> (forall a, Forall P (trace (f a))) ->
  Forall P (trace (m ≫= f)).
Proof.
  intros Hm Hf. rewrite bind_run. destruct (result m); cbn; [|exact Hm].
  apply Forall_app. split; [exact Hm|apply Hf].
Qed.

Lemma all_try {A : Type} (body : M A) (handler : exn -> M A) :
  Forall P (trace body) -> (forall e, Forall P (trace (handler e))) ->
  Forall P (trace (try_except body handler)).
Proof.
  intros Hm Hf. rewrite try_except_run. destruct (result body); cbn;
    [exact Hm|].
  apply Forall_app. split; [exact Hm|apply Hf].
Qed.

Lemma all_ret {A : Type} (a : A) : Forall P (trace (mret a : M A)).
Proof. constructor. Qed.

Lemma all_lift {A : Type} (o : outcome A) :
  Forall P (trace (RAGPipeline.lift o)).
Proof. constructor. Qed.

Lemma all_await {A : Type} (e : event) (answer : outcome A) :
  P e -> Forall P (trace (await e answer)).
Proof. intros He. constructor; [exact He|constructor]. Qed.

End TraceAll.

(** Splits a statement about all events of a computation along its binds,
    handlers and branches. *)
Ltac trace_all :=
  repeat first
    [ apply all_ret
    | apply all_lift
    | apply all_await
    | apply all_bind
    | apply all_try
    | intro
    | match goal with
      | |- Forall _ (trace (if ?b then _ else _)) => destruct b
      | |- Forall _ (trace (match ?x with _ => _ end)) => destruct x
      | |- Forall _ (trace (let '(_, _) := ?x in _)) => destruct x
      end ].

Lemma scoped_only_cypher (P : event -> Prop) (w : World) (query : Cypher)
      (kind : string) (names : list string) (top_k : Z) :
  (forall q p, P (Neo4jRun q p)) ->
  Forall P (trace (GraphRetriever.scoped w query kind names top_k)).
Proof.
  intros HP. rewrite scoped_run. unfold trace, read_events. cbn [fst].
  destruct (Neo4jClient.is_available w); repeat constructor. apply HP.
Qed.

(** The graph retriever only extracts entities and runs Cypher. *)
Lemma graph_retrieve_events (P : event -> Prop) (self : GraphRetriever.t)
      (w : World) (query query_type : string) (top_k : Z) :
  (forall prompt t n, P (LLMChat EntityPrompt prompt t n)) ->
  (forall q p, P (Neo4jRun q p)) ->
  Forall P (trace (GraphRetriever.retrieve self w query query_type top_k)).
Proof.
  intros Hllm Hrun.
  unfold GraphRetriever.retrieve, GraphRetriever._extract_entities_from_query,
    GraphRetriever._retrieve_general, GraphRetriever._retrieve_by_person,
    GraphRetriever._retrieve_by_topic, GraphRetriever._retrieve_by_event,
    GraphRetriever.scoped, Neo4jClient.execute_read, OllamaLLMClient.generate.
  trace_all; auto.
Qed.

(** Dense and sparse retrieval cause one event each, of their own kind. *)
Lemma run_dense_events (P : event -> Prop) (w : World) (query : string)
      (used : list string) :
  (forall q k, P (DenseRetrieve q k)) ->
  Forall P (trace (RAGPipeline.run_dense w query used)).
Proof. intros HP. unfold RAGPipeline.run_dense. trace_all; auto. Qed.

Lemma run_sparse_events (P : event -> Prop) (w : World) (query : string)
      (used : list string) :
  (forall q k, P (SparseRetrieve q k)) ->
  Forall P (trace (RAGPipeline.run_sparse w query used)).
Proof. intros HP. unfold RAGPipeline.run_sparse. trace_all; auto. Qed.

(** ** The pipeline, step by step *)

Lemma classify_explicit (w : World) (query mode : string) :
  mode <> "auto" -> RAGPipeline.classify w query mode = mret (Str.upper mode).
Proof.
  intros Hmode. unfold RAGPipeline.classify.
  destruct (String.eqb_spec mode "auto"); [contradiction|reflexivity].
Qed.

Lemma classify_events (P : event -> Prop) (w : World) (query mode : string) :
  (forall prompt t n, P (LLMChat ClassifierPrompt prompt t n)) ->
  Forall P (trace (RAGPipeline.classify w query mode)).
Proof.
  intros HP. unfold RAGPipeline.classify, OllamaLLMClient.classify_query,
    OllamaLLMClient.generate.
  trace_all; auto.
Qed.

Lemma answer_for_events (P : event -> Prop) (w : World)
      (query context query_type : string)
      (fused_results : list (FusedResult.t Q)) :
  (forall prompt t n, P (LLMChat AnswerPrompt prompt t n)) ->
  Forall P (trace (RAGPipeline.answer_for w query context query_type
                                          fused_results)).
Proof.
  intros HP. unfold RAGPipeline.answer_for, OllamaLLMClient.generate_answer,
    OllamaLLMClient.generate.
  trace_all; auto.
Qed.

Lemma run_graph_events (P : event -> Prop) (self : RAGPipeline.t) (w : World)
      (query query_type : string) (options : RAGPipeline.Options)
      (used : list string) :
  (forall prompt t n, P (LLMChat EntityPrompt prompt t n)) ->
  (forall q p, P (Neo4jRun q p)) ->
  Forall P (trace (RAGPipeline.run_graph self w query query_type options used)).
Proof.
  intros Hllm Hrun. unfold RAGPipeline.run_graph.
  trace_all; auto using graph_retrieve_events.
Qed.

(** The graph branch is skipped when the caller excludes it, when the
    pipeline has no graph retriever, and when the graph is unavailable. *)
Lemma run_graph_skipped (self : RAGPipeline.t) (w : World)
      (query query_type : string) (options : RAGPipeline.Options)
      (used : list string) :
  RAGPipeline.opt_include_graph options = Some false
  \/ RAGPipeline.graph_retriever self = None
  \/ Neo4jClient.is_available w = false ->
  RAGPipeline.run_graph self w query query_type options used
  = mret ([], ([], []), used).
Proof.
  unfold RAGPipeline.run_graph.
  intros [ -> | [ -> | -> ] ]; cbn; [| |rewrite andb_false_r];
    now destruct (RAGPipeline.graph_retriever self).
Qed.

Lemma run_retrievers_skipped (self : RAGPipeline.t) (w : World)
      (query query_type : string) (options : RAGPipeline.Options) :
  RAGPipeline.opt_include_graph options = Some false
  \/ RAGPipeline.graph_retriever self = None
  \/ Neo4jClient.is_available w = false ->
  RAGPipeline.run_retrievers self w query query_type options
  = retrieve_dense_sparse w query.
Proof.
  intros Hskip. unfold RAGPipeline.run_retrievers, retrieve_dense_sparse.
  destruct (RAGPipeline.run_dense w query []) as [t1 [[d u1]|e1]];
    cbn [mbind M_bind]; [|reflexivity].
  destruct (RAGPipeline.run_sparse w query u1) as [t2 [[s u2]|e2]];
    cbn [mbind M_bind]; [|reflexivity].
  now rewrite run_graph_skipped by exact Hskip.
Qed.

Lemma respond_events (P : event -> Prop) (self : RAGPipeline.t) (w : World)
      (query : string) (options : RAGPipeline.Options) (query_type : string) :
  Forall P (trace (RAGPipeline.run_retrievers self w query query_type options)) ->
  (forall prompt t n, P (LLMChat AnswerPrompt prompt t n)) ->
  Forall P (trace (RAGPipeline.respond self w query options query_type)).
Proof.
  intros Hret Hans. unfold RAGPipeline.respond.
  apply all_bind; [exact Hret|]. intros r.
  apply all_bind; [apply all_lift|]. intros fused.
  destruct (ContextBuilder.build_with_metadata _ fused) as [context metadata].
  apply all_bind; [now apply answer_for_events|].
  trace_all.
Qed.

Lemma run_retrievers_events (P : event -> Prop) (self : RAGPipeline.t)
      (w : World) (query query_type : string) (options : RAGPipeline.Options) :
  (forall q k, P (DenseRetrieve q k)) ->
  (forall q k, P (SparseRetrieve q k)) ->
  (forall prompt t n, P (LLMChat EntityPrompt prompt t n)) ->
  (forall q p, P (Neo4jRun q p)) ->
  Forall P (trace (RAGPipeline.run_retrievers self w query query_type options)).
Proof.
  intros Hd Hs Hllm Hrun. unfold RAGPipeline.run_retrievers.
  apply all_bind; [now apply run_dense_events|]. intros [d u1].
  apply all_bind; [now apply run_sparse_events|]. intros [s u2].
  apply all_bind; [now apply run_graph_events|]. intros [[g c] u3].
  apply all_ret.
Qed.

Lemma retrieve_dense_sparse_events (P : event -> Prop) (w : World)
      (query : string) :
  (forall q k, P (DenseRetrieve q k)) ->
  (forall q k, P (SparseRetrieve q k)) ->
  Forall P (trace (retrieve_dense_sparse w query)).
Proof.
  intros Hd Hs. unfold retrieve_dense_sparse.
  apply all_bind; [now apply run_dense_events|]. intros [d u1].
  apply all_bind; [now apply run_sparse_events|]. intros [s u2].
  apply all_ret.
Qed.

(** The response reports the [query_type] and the retrievers of step 2. *)
Lemma respond_meta (self : RAGPipeline.t) (w : World) (query : string)
      (options : RAGPipeline.Options) (query_type : string)
      (response : QueryResponse.t) :
  result (RAGPipeline.respond self w query options query_type) = Ok response ->
  exists r,
    result (RAGPipeline.run_retrievers self w query query_type options) = Ok r
    /\ QueryMeta.used_retrievers (QueryResponse.meta response)
       = RAGPipeline.used_retrievers r
    /\ QueryMeta.query_type (QueryResponse.meta response) = query_type.
Proof.
  unfold RAGPipeline.respond. intros Hrun.
  apply bind_Ok_inv in Hrun as (r & Hr & Hrun). exists r. split; [exact Hr|].
  apply bind_Ok_inv in Hrun as (fused & _ & Hrun).
  destruct (ContextBuilder.build_with_metadata _ fused) as [context metadata].
  apply bind_Ok_inv in Hrun as (answer & _ & Hrun).
  apply bind_Ok_inv in Hrun as (segments & _ & Hrun).
  apply bind_Ok_inv in Hrun as (meta & Hmeta & Hrun).
  cbn in Hrun. injection Hrun as <-. cbn [QueryResponse.meta].
  unfold RAGPipeline.lift, result, QueryMeta.validate in Hmeta.
  cbn [snd QueryMeta.total_processing_time_ms] in Hmeta.
  destruct (0 <=? _); [|discriminate]. injection Hmeta as <-. now split.
Qed.

(** ** When the pipeline returns *)

Lemma int_of_nonneg (x : Q) : (0 <= x)%Q -> 0 <= RAGPipeline.int_of x.
Proof.
  unfold RAGPipeline.int_of, Qle. cbn [Qnum Qden]. intros Hx.
  apply Z.quot_pos; lia.
Qed.

Lemma elapsed_nonneg (w : World) :
  (time_time w 0 <= time_time w 1)%Q ->
  0 <= RAGPipeline.int_of ((time_time w 1 - time_time w 0) * 1000).
Proof.
  intros Hclock. apply int_of_nonneg.
  apply Qmult_le_0_compat; [|discriminate].
  unfold Qminus. rewrite <- (Qplus_opp_r (time_time w 0)).
  apply Qplus_le_compat; [exact Hclock|apply Qle_refl].
Qed.

Lemma try_except_total {A : Type} (body : M A) (handler : exn -> M A) :
  (forall e, exists a, result (handler e) = Ok a) ->
  exists a, result (try_except body handler) = Ok a.
Proof.
  intros Hh. rewrite try_except_run.
  destruct (result body) as [a|e]; [now exists a|apply Hh].
Qed.

Lemma bind_total {A B : Type} (m : M A) (f : A -> M B) (a : A) :
  result m = Ok a -> (exists b, result (f a) = Ok b) ->
  exists b, result (m ≫= f) = Ok b.
Proof. intros Ha [b Hb]. rewrite bind_run, Ha. now exists b. Qed.

Lemma run_dense_total (w : World) (query : string) (used : list string) :
  exists du, result (RAGPipeline.run_dense w query used) = Ok du.
Proof. apply try_except_total. intros; now eexists. Qed.

Lemma run_sparse_total (w : World) (query : string) (used : list string) :
  exists su, result (RAGPipeline.run_sparse w query used) = Ok su.
Proof. apply try_except_total. intros; now eexists. Qed.

Lemma run_graph_total (self : RAGPipeline.t) (w : World)
      (query query_type : string) (options : RAGPipeline.Options)
      (used : list string) :
  exists gcu,
    result (RAGPipeline.run_graph self w query query_type options used)
    = Ok gcu.
Proof.
  unfold RAGPipeline.run_graph.
  destruct (RAGPipeline.graph_retriever self);
    [destruct (default true _ && Neo4jClient.is_available w)|];
    try (now eexists).
  apply try_except_total. intros; now eexists.
Qed.

(** Step 2 never raises: every retriever is fault-isolated. *)
Lemma run_retrievers_total (self : RAGPipeline.t) (w : World)
      (query query_type : string) (options : RAGPipeline.Options) :
  exists r,
    result (RAGPipeline.run_retrievers self w query query_type options) = Ok r.
Proof.
  unfold RAGPipeline.run_retrievers.
  destruct (run_dense_total w query []) as ([d u1] & Hd).
  apply (bind_total _ _ _ Hd).
  destruct (run_sparse_total w query u1) as ([s u2] & Hs).
  apply (bind_total _ _ _ Hs).
  destruct (run_graph_total self w query query_type options u2)
    as ([[g c] u3] & Hg).
  apply (bind_total _ _ _ Hg). now eexists.
Qed.

Lemma mapM_total {A B : Type} (f : A -> outcome B) (l : list A) :
  (forall a, In a l -> exists b, f a = Ok b) ->
  exists bs, Py.mapM f l = Ok bs.
Proof.
  induction l as [|a l IH]; intros Hf; cbn [Py.mapM]; [now eexists|].
  destruct (Hf a) as [b ->]; [now left|].
  destruct IH as [bs ->]; [intros; apply Hf; now right|]. now eexists.
Qed.

Lemma Qsum_nonneg (l : list Q) :
  (forall x, In x l -> (0 < x)%Q) -> (0 <= Qsum l)%Q.
Proof.
  destruct l as [|x l]; [intros; apply Qle_refl|].
  intros Hpos. apply Qlt_le_weak, Qsum_pos; [discriminate|exact Hpos].
Qed.

Lemma slice_to_In {A : Type} (l : list A) (n : Z) (x : A) :
  In x (Py.slice_to l n) -> In x l.
Proof.
  unfold Py.slice_to. destruct (n <? 0); intros Hx;
    match type of Hx with
    | In _ (firstn ?m _) => rewrite <- (firstn_skipn m l)
    end; apply in_or_app; now left.
Qed.

(** With [k >= 0] step 3 returns, and every fused score is positive or
    zero. *)
Lemma fuse_and_limit_total (self : RAGPipeline.t) (r : RAGPipeline.Retrieved)
      (max_results : Z) :
  0 <= RRFFusion.k (RAGPipeline.fusion self) ->
  exists fused,
    RAGPipeline.fuse_and_limit self r max_results = Ok fused
    /\ forall x, In x fused -> (0 <= FusedResult.score x)%Q.
Proof.
  intros Hk. unfold RAGPipeline.fuse_and_limit.
  destruct (RAGPipeline.is_empty (RAGPipeline.result_lists r)).
  - exists (Py.slice_to [] max_results). split; [reflexivity|].
    intros x Hx. apply slice_to_In in Hx. destruct Hx.
  - destruct (fuse_run (F:=Q) (RAGPipeline.fusion self)
                (RAGPipeline.result_lists r) Hk) as (out & -> & Hitems).
    exists (Py.slice_to out max_results). split; [reflexivity|].
    intros x Hx. apply slice_to_In in Hx.
    rewrite (fused_score_sum _ _ _ Hitems x Hx), rrf_sum_Qsum.
    apply Qsum_nonneg. intros t Ht. apply in_map_iff in Ht as (rk & <- & Hrk).
    apply rrf_term_pos; [exact Hk|]. now apply ranks_of_pos in Hrk.
Qed.

Lemma segment_of_total (x : FusedResult.t Q) :
  (0 <= FusedResult.score x)%Q ->
  exists segment, RAGPipeline.segment_of x = Ok segment.
Proof.
  intros Hx. unfold RAGPipeline.segment_of, PericopeSegment.validate.
  cbn [PericopeSegment.relevance_score].
  assert (H0 : Qle_bool 0 (Qmin 1 (FusedResult.score x * 10)) = true).
  { apply Qle_bool_iff. apply Q.min_glb; [discriminate|].
    apply Qmult_le_0_compat; [exact Hx|discriminate]. }
  assert (H1 : Qle_bool (Qmin 1 (FusedResult.score x * 10)) 1 = true).
  { apply Qle_bool_iff. apply Q.le_min_l. }
  rewrite H0, H1. now eexists.
Qed.

(** Steps 2 to 6 return a response when the fusion constant is not
    negative, the answer generation does not fail, and the clock did not
    step back. *)
Lemma respond_total (self : RAGPipeline.t) (w : World) (query : string)
      (options : RAGPipeline.Options) (query_type : string) :
  0 <= RRFFusion.k (RAGPipeline.fusion self) ->
  (forall prompt t n, exists answer,
       ollama_chat w AnswerPrompt prompt t n = Ok answer) ->
  (time_time w 0 <= time_time w 1)%Q ->
  exists response,
    result (RAGPipeline.respond self w query options query_type) = Ok response.
Proof.
  intros Hk Hllm Hclock. unfold RAGPipeline.respond.
  destruct (run_retrievers_total self w query query_type options) as [r Hr].
  apply (bind_total _ _ _ Hr).
  destruct (fuse_and_limit_total self r (RAGPipeline.max_results_of w options)
              Hk) as (fused & Hfused & Hscores).
  apply (bind_total _ _ fused); [exact Hfused|].
  destruct (ContextBuilder.build_with_metadata _ fused) as [context metadata].
  assert (Hans : exists answer,
             result (RAGPipeline.answer_for w query context query_type fused)
             = Ok answer).
  { unfold RAGPipeline.answer_for.
    destruct (RAGPipeline.is_empty fused); [now eexists|].
    unfold OllamaLLMClient.generate_answer, OllamaLLMClient.generate, await,
      result. cbn [snd]. apply Hllm. }
  destruct Hans as [answer Hans]. apply (bind_total _ _ _ Hans).
  destruct (mapM_total RAGPipeline.segment_of fused) as [segments Hseg].
  { intros x Hx. apply segment_of_total. now apply Hscores. }
  apply (bind_total _ _ segments); [exact Hseg|].
  eapply bind_total; [|now eexists].
  unfold RAGPipeline.lift, result, QueryMeta.validate.
  cbn [snd QueryMeta.total_processing_time_ms].
  apply elapsed_nonneg in Hclock. apply Z.leb_le in Hclock.
  now rewrite Hclock.
Qed.

(** C8.  For every query with a mode other than "auto": step 1 calls no
    backend and yields the uppercased mode; that tag is the one the rest of
    the pipeline runs with; no event of the whole run is a call of the
    classification prompt; every response reports that tag as its
    [query_type]; and there is a response whenever the fusion constant is
    not negative, the answer generation does not fail and the clock did not
    step back. *)
Theorem explicit_mode_is_the_classification
        (self : RAGPipeline.t) (w : World) (query mode : string)
        (options : option RAGPipeline.Options) :
  mode <> "auto" ->
  RAGPipeline.classify w query mode = ([], Ok (Str.upper mode))
  /\ RAGPipeline.execute self w query mode options
     = RAGPipeline.respond self w query (default RAGPipeline.no_options options)
                           (Str.upper mode)
  /\ Forall (fun e => is_classification e = false)
            (trace (RAGPipeline.execute self w query mode options))
  /\ (forall response,
        result (RAGPipeline.execute self w query mode options) = Ok response ->
        QueryMeta.query_type (QueryResponse.meta response) = Str.upper mode)
  /\ (0 <= RRFFusion.k (RAGPipeline.fusion self) ->
      (forall prompt t n, exists answer,
           ollama_chat w AnswerPrompt prompt t n = Ok answer) ->
      (time_time w 0 <= time_time w 1)%Q ->
      exists response,
        result (RAGPipeline.execute self w query mode options) = Ok response).
Proof.
  intros Hmode.
  assert (Hexec : RAGPipeline.execute self w query mode options
                  = RAGPipeline.respond self w query
                      (default RAGPipeline.no_options options) (Str.upper mode)).
  { unfold RAGPipeline.execute. rewrite classify_explicit by exact Hmode.
    cbn [mbind M_bind mret M_ret].
    now destruct (RAGPipeline.respond _ _ _ _ _). }
  split; [now apply classify_explicit|]. split; [exact Hexec|].
  split; [|split].
  - rewrite Hexec. apply respond_events; [|reflexivity].
    apply run_retrievers_events; reflexivity.
  - intros response Hrun. rewrite Hexec in Hrun.
    now apply respond_meta in Hrun as (r & _ & _ & Hqt).
  - intros Hk Hllm Hclock. rewrite Hexec. now apply respond_total.
Qed.

Lemma bind_trace_Ok {A B : Type} (m : M A) (f : A -> M B) (a : A) :
  result m = Ok a -> trace (m ≫= f) = (trace m ++ trace (f a))%list.
Proof. intros Ha. now rewrite bind_run, Ha. Qed.

Lemma extract_entities_run (self : GraphRetriever.t) (w : World)
      (query query_type : string) :
  GraphRetriever._extract_entities_from_query self w query query_type
  = if GraphRetriever.llm_client self then
      let prompt := GraphRetriever.entity_prompt query query_type in
      ([LLMChat EntityPrompt prompt (1 # 10) 100],
       match ollama_chat w EntityPrompt prompt (1 # 10) 100 with
       | Ok response =>
           Ok (List.filter GraphRetriever.nonempty
                 (List.map Str.strip (Str.split "," (Str.strip response))))
       | Raise _ => Ok [query]
       end)
    else ([], Ok [query]).
Proof.
  unfold GraphRetriever._extract_entities_from_query.
  destruct (GraphRetriever.llm_client self); [|reflexivity]. cbn [negb].
  unfold OllamaLLMClient.generate, await.
  change (OllamaLLMClient.float_or (Some (1 # 10)%Q) _) with (1 # 10)%Q.
  change (Py.int_or (Some 100) _) with 100.
  rewrite try_except_run, bind_run. unfold result, trace. cbn [fst snd].
  destruct (ollama_chat w EntityPrompt _ _ _); reflexivity.
Qed.

Lemma retrieve_general_run (w : World) (keywords : list string) (top_k : Z) :
  let limit := Z.max (top_k / 3) 5 in
  let parameters := {| cp_names := keywords; cp_limit := limit |} in
  GraphRetriever._retrieve_general w keywords top_k
  = ((read_events w PersonCypher parameters
      ++ read_events w TopicCypher parameters
      ++ read_events w EventCypher parameters)%list,
     Ok (Py.slice_to
           (GraphRetriever.dedup
              (Py.sorted_desc Qltb GraphRetrievalResult.score
                              (merged_results w keywords limit)) ∅ [])
           top_k)).
Proof.
  intros limit parameters.
  unfold GraphRetriever._retrieve_general, GraphRetriever._retrieve_by_person,
    GraphRetriever._retrieve_by_topic, GraphRetriever._retrieve_by_event.
  fold limit. rewrite !scoped_run. fold parameters. cbn.
  now rewrite app_nil_r.
Qed.

Lemma filter_none {A : Type} (f : A -> bool) (l : list A) :
  Forall (fun y => f y = false) l -> List.filter f l = [].
Proof.
  induction 1 as [|y l Hy _ IH]; [reflexivity|].
  cbn [List.filter]. now rewrite Hy.
Qed.

Lemma filter_every {A : Type} (f : A -> bool) (l : list A) :
  Forall (fun y => f y = true) l -> List.filter f l = l.
Proof.
  induction 1 as [|y l Hy _ IH]; [reflexivity|].
  cbn [List.filter]. now rewrite Hy, IH.
Qed.

(** The Cypher runs of a trace are those of its graph events. *)
Lemma cypher_runs_graph_events (t : list event) :
  cypher_runs (List.filter is_graph_event t) = cypher_runs t.
Proof.
  unfold cypher_runs. induction t as [|e t IH]; [reflexivity|].
  cbn [List.filter flat_map]. destruct e as [[| |] ? ? ?| | |];
    cbn [is_graph_event flat_map app]; now rewrite IH.
Qed.

(** When the graph step runs, its events are those of the one call of
    [GraphRetriever.retrieve], made with the tag of step 1 and
    [MAX_RETRIEVE_RESULTS]. *)
Lemma run_graph_trace (self : RAGPipeline.t) (retriever : GraphRetriever.t)
      (w : World) (query query_type : string) (options : RAGPipeline.Options)
      (used : list string) :
  RAGPipeline.graph_retriever self = Some retriever ->
  RAGPipeline.opt_include_graph options <> Some false ->
  Neo4jClient.is_available w = true ->
  trace (RAGPipeline.run_graph self w query query_type options used)
  = trace (GraphRetriever.retrieve retriever w query query_type
             (Config.MAX_RETRIEVE_RESULTS (cfg w))).
Proof.
  intros Hret Hinc Hup. unfold RAGPipeline.run_graph. rewrite Hret, Hup.
  assert (Hdef : default true (RAGPipeline.opt_include_graph options) = true).
  { destruct (RAGPipeline.opt_include_graph options) as [[|]|];
      [reflexivity|congruence|reflexivity]. }
  rewrite Hdef. cbn [andb]. rewrite try_except_run, bind_run.
  destruct (result (GraphRetriever.retrieve _ _ _ _ _)) as [g|ex];
    unfold result, trace; cbn [fst snd]; now rewrite ?app_nil_r.
Qed.

(** The graph events of steps 2 to 6 are the events of the graph step. *)
Lemma respond_graph_events (self : RAGPipeline.t) (retriever : GraphRetriever.t)
      (w : World) (query : string) (options : RAGPipeline.Options)
      (query_type : string) :
  RAGPipeline.graph_retriever self = Some retriever ->
  RAGPipeline.opt_include_graph options <> Some false ->
  Neo4jClient.is_available w = true ->
  List.filter is_graph_event
              (trace (RAGPipeline.respond self w query options query_type))
  = trace (GraphRetriever.retrieve retriever w query query_type
             (Config.MAX_RETRIEVE_RESULTS (cfg w))).
Proof.
  intros Hret Hinc Hup. unfold RAGPipeline.respond.
  destruct (run_retrievers_total self w query query_type options) as [r Hr].
  rewrite bind_run, Hr. unfold trace at 1. cbn [fst].
  rewrite List.filter_app.
  match goal with
  | |- (_ ++ List.filter _ ?t)%list = _ =>
      assert (Hrest : List.filter is_graph_event t = [])
  end.
  { apply filter_none. trace_all; try reflexivity.
    now apply answer_for_events. }
  rewrite Hrest, app_nil_r. clear Hrest Hr r.
  unfold RAGPipeline.run_retrievers.
  destruct (run_dense_total w query []) as [[d u1] Hd].
  rewrite bind_run, Hd. unfold trace at 1. cbn [fst].
  destruct (run_sparse_total w query u1) as [[s u2] Hs].
  rewrite bind_run, Hs. unfold trace at 2. cbn [fst].
  destruct (run_graph_total self w query query_type options u2)
    as [[[g c] u3] Hg].
  rewrite bind_run, Hg. unfold trace at 3. cbn [fst mret M_ret].
  rewrite app_nil_r, !List.filter_app.
  rewrite (filter_none _ (trace (RAGPipeline.run_dense w query [])))
    by (apply run_dense_events; reflexivity).
  rewrite (filter_none _ (trace (RAGPipeline.run_sparse w query u1)))
    by (apply run_sparse_events; reflexivity).
  cbn [app]. rewrite (run_graph_trace self retriever) by assumption.
  apply filter_every. apply graph_retrieve_events; reflexivity.
Qed.

(** C10.  For the explicit modes "person", "topic" and "event" the tag the
    pipeline runs with is "PERSON", "TOPIC" or "EVENT"; it is none of the
    tags of the scoped strategies, so the graph retriever, when it gets as
    far as choosing a strategy, always takes the general one.  This tag is
    the one the pipeline hands to its graph retriever: when the graph step
    runs, the entity extraction and the Cypher runs of the whole run are
    those of [retrieve] called with the uppercased mode, and the Cypher runs
    are the three of the general strategy, each with the limit
    [max(MAX_RETRIEVE_RESULTS // 3, 5)], never the one scoped run. *)
Theorem explicit_mode_dispatches_general
        (self : RAGPipeline.t) (retriever : GraphRetriever.t) (w : World)
        (query : string) (options : option RAGPipeline.Options)
        (m : QueryMode.t) (top_k : Z) :
  m = QueryMode.PERSON \/ m = QueryMode.TOPIC \/ m = QueryMode.EVENT ->
  In (Str.upper (QueryMode.value m)) ["PERSON"; "TOPIC"; "EVENT"]
  /\ ~ In (Str.upper (QueryMode.value m))
          ["PERSON_QUESTION"; "TOPIC_QUESTION"; "EVENT_QUESTION"]
  /\ RAGPipeline.execute self w query (QueryMode.value m) options
     = RAGPipeline.respond self w query (default RAGPipeline.no_options options)
                           (Str.upper (QueryMode.value m))
  /\ GraphRetriever.retrieve retriever w query (Str.upper (QueryMode.value m))
                             top_k
     = (if negb (Neo4jClient.is_available w) then mret []
        else
          entities ← GraphRetriever._extract_entities_from_query
                       retriever w query (Str.upper (QueryMode.value m));
          match entities with
          | [] => mret []
          | _ => GraphRetriever._retrieve_general w entities top_k
          end)
  /\ (RAGPipeline.graph_retriever self = Some retriever ->
      RAGPipeline.opt_include_graph (default RAGPipeline.no_options options)
      <> Some false ->
      Neo4jClient.is_available w = true ->
      List.filter is_graph_event
                  (trace (RAGPipeline.execute self w query (QueryMode.value m)
                                              options))
      = trace (GraphRetriever.retrieve retriever w query
                 (Str.upper (QueryMode.value m))
                 (Config.MAX_RETRIEVE_RESULTS (cfg w)))
      /\ forall entities,
           result (GraphRetriever._extract_entities_from_query
                     retriever w query (Str.upper (QueryMode.value m)))
           = Ok entities ->
           entities <> [] ->
           let general :=
             {| cp_names := entities;
                cp_limit :=
                  Z.max (Config.MAX_RETRIEVE_RESULTS (cfg w) / 3) 5 |} in
           cypher_runs (trace (RAGPipeline.execute self w query
                                 (QueryMode.value m) options))
           = [(PersonCypher, general); (TopicCypher, general);
              (EventCypher, general)]).
Proof.
  intros Hm.
  assert (Hexec : RAGPipeline.execute self w query (QueryMode.value m) options
                  = RAGPipeline.respond self w query
                      (default RAGPipeline.no_options options)
                      (Str.upper (QueryMode.value m))).
  { unfold RAGPipeline.execute. rewrite classify_explicit.
    - cbn [mbind M_bind mret M_ret]. now destruct (RAGPipeline.respond _ _ _ _ _).
    - destruct Hm as [ -> | [ -> | -> ] ]; discriminate. }
  assert (Hgeneral : forall top_k,
             GraphRetriever.retrieve retriever w query
                                     (Str.upper (QueryMode.value m)) top_k
             = (if negb (Neo4jClient.is_available w) then mret []
                else
                  entities ← GraphRetriever._extract_entities_from_query
                               retriever w query
                               (Str.upper (QueryMode.value m));
                  match entities with
                  | [] => mret []
                  | _ => GraphRetriever._retrieve_general w entities top_k
                  end)).
  { intros k. unfold GraphRetriever.retrieve.
    destruct Hm as [ -> | [ -> | -> ] ]; reflexivity. }
  split; [|split; [|split; [exact Hexec|split; [apply Hgeneral|]]]].
  - destruct Hm as [ -> | [ -> | -> ] ]; cbn; auto.
  - destruct Hm as [ -> | [ -> | -> ] ]; cbn; intuition discriminate.
  - intros Hret Hinc Hup.
    assert (Hgraph : List.filter is_graph_event
                       (trace (RAGPipeline.execute self w query
                                 (QueryMode.value m) options))
                     = trace (GraphRetriever.retrieve retriever w query
                                (Str.upper (QueryMode.value m))
                                (Config.MAX_RETRIEVE_RESULTS (cfg w)))).
    { rewrite Hexec. now apply respond_graph_events. }
    split; [exact Hgraph|].
    intros entities He Hne general.
    rewrite <- cypher_runs_graph_events, Hgraph, Hgeneral, Hup. cbn [negb].
    rewrite (bind_trace_Ok _ _ entities He).
    destruct entities as [|e es]; [congruence|].
    rewrite retrieve_general_run. cbv zeta. unfold trace at 2. cbn [fst].
    unfold read_events. rewrite Hup. fold general.
    unfold cypher_runs. rewrite flat_map_app.
    rewrite extract_entities_run.
    now destruct (GraphRetriever.llm_client retriever).
Qed.

(** The theorem at mode "person" in a world with a reachable graph: the
    run of the pipeline makes the three Cypher runs of the general strategy,
    with the limit 6, for the two entities the model names. *)
Lemma explicit_mode_dispatches_general_witness :
  Str.upper (QueryMode.value QueryMode.PERSON) = "PERSON"
  /\ cypher_runs (trace (RAGPipeline.execute (RAGPipeline.init world_ok true)
                           world_ok "Who was Abraham?" "person" None))
     = [(PersonCypher, {| cp_names := ["Abraham"; "faith"]; cp_limit := 6 |});
        (TopicCypher, {| cp_names := ["Abraham"; "faith"]; cp_limit := 6 |});
        (EventCypher, {| cp_names := ["Abraham"; "faith"]; cp_limit := 6 |})].
Proof.
  destruct (explicit_mode_dispatches_general
              (RAGPipeline.init world_ok true)
              {| GraphRetriever.llm_client := true |} world_ok
              "Who was Abraham?" None QueryMode.PERSON 20)
    as (_ & _ & _ & _ & Hrun); [now left|].
  split; [reflexivity|].
  destruct Hrun as [_ Hcypher]; [reflexivity|discriminate|reflexivity|].
  exact (Hcypher ["Abraham"; "faith"] eq_refl ltac:(discriminate)).
Defined.

Lemma classify_same (w1 w2 : World) (query mode : string) :
  same_but_graph w1 w2 ->
  RAGPipeline.classify w1 query mode = RAGPipeline.classify w2 query mode.
Proof.
  destruct w1, w2. intros (E1 & E2 & E3 & E4 & E5).
  cbn in E1, E2, E3, E4, E5. subst. reflexivity.
Qed.

(** With the graph branch skipped in both, steps 2 to 6 agree in two worlds
    that differ at most in the graph backend. *)
Lemma respond_same (self : RAGPipeline.t) (w1 w2 : World) (query : string)
      (o1 o2 : RAGPipeline.Options) (query_type : string) :
  same_but_graph w1 w2 ->
  RAGPipeline.opt_max_results o1 = RAGPipeline.opt_max_results o2 ->
  RAGPipeline.run_retrievers self w1 query query_type o1
  = retrieve_dense_sparse w1 query ->
  RAGPipeline.run_retrievers self w2 query query_type o2
  = retrieve_dense_sparse w2 query ->
  RAGPipeline.respond self w1 query o1 query_type
  = RAGPipeline.respond self w2 query o2 query_type.
Proof.
  intros Hsame Hmax H1 H2. unfold RAGPipeline.respond.
  rewrite H1, H2. unfold RAGPipeline.max_results_of. rewrite Hmax.
  destruct w1, w2. destruct Hsame as (E1 & E2 & E3 & E4 & E5).
  cbn in E1, E2, E3, E4, E5. subst. reflexivity.
Qed.

(** Each retriever is listed as used exactly when it found something. *)
Lemma run_dense_used (w : World) (query : string) (used : list string)
      (d : list RetrievalResult.t) (u : list string) :
  result (RAGPipeline.run_dense w query used) = Ok (d, u) ->
  u = (used ++ if RAGPipeline.is_empty d then [] else ["dense"])%list.
Proof.
  unfold RAGPipeline.run_dense. rewrite try_except_run, bind_run.
  unfold await, result, trace. cbn [fst snd].
  destruct (dense_retrieve w query _) as [d'|e]; cbn [fst snd mret M_ret];
    intros Hr; injection Hr as <- <-.
  - destruct d'; cbn [RAGPipeline.is_empty]; [now rewrite app_nil_r|reflexivity].
  - cbn [RAGPipeline.is_empty]. now rewrite app_nil_r.
Qed.

Lemma run_sparse_used (w : World) (query : string) (used : list string)
      (s : list RetrievalResult.t) (u : list string) :
  result (RAGPipeline.run_sparse w query used) = Ok (s, u) ->
  u = (used ++ if RAGPipeline.is_empty s then [] else ["sparse"])%list.
Proof.
  unfold RAGPipeline.run_sparse. rewrite try_except_run, bind_run.
  unfold await, result, trace. cbn [fst snd].
  destruct (sparse_retrieve w query _) as [s'|e]; cbn [fst snd mret M_ret];
    intros Hr; injection Hr as <- <-.
  - destruct s'; cbn [RAGPipeline.is_empty]; [now rewrite app_nil_r|reflexivity].
  - cbn [RAGPipeline.is_empty]. now rewrite app_nil_r.
Qed.

Lemma run_graph_used (self : RAGPipeline.t) (w : World)
      (query query_type : string) (options : RAGPipeline.Options)
      (used : list string) (g : list GraphRetrievalResult.t)
      (c : list string * list string) (u : list string) :
  result (RAGPipeline.run_graph self w query query_type options used)
  = Ok (g, c, u) ->
  u = (used ++ if RAGPipeline.is_empty g then [] else ["graph"])%list.
Proof.
  unfold RAGPipeline.run_graph.
  destruct (RAGPipeline.graph_retriever self) as [retriever|];
    [destruct (default true _ && Neo4jClient.is_available w)|].
  - rewrite try_except_run, bind_run.
    destruct (result (GraphRetriever.retrieve _ _ _ _ _)) as [g'|e];
      unfold result; cbn [fst snd mret M_ret].
    + destruct g'; cbn [RAGPipeline.is_empty]; intros Hr;
        injection Hr as <- <- <-; cbn [RAGPipeline.is_empty];
        [now rewrite app_nil_r|reflexivity].
    + intros Hr. injection Hr as <- <- <-. cbn [RAGPipeline.is_empty].
      now rewrite app_nil_r.
  - cbn. intros Hr. injection Hr as <- <- <-. cbn [RAGPipeline.is_empty].
    now rewrite app_nil_r.
  - cbn. intros Hr. injection Hr as <- <- <-. cbn [RAGPipeline.is_empty].
    now rewrite app_nil_r.
Qed.

Lemma run_retrievers_used (self : RAGPipeline.t) (w : World)
      (query query_type : string) (options : RAGPipeline.Options)
      (r : RAGPipeline.Retrieved) :
  result (RAGPipeline.run_retrievers self w query query_type options) = Ok r ->
  RAGPipeline.used_retrievers r
  = ((if RAGPipeline.is_empty (RAGPipeline.dense_results r) then []
      else ["dense"])
     ++ (if RAGPipeline.is_empty (RAGPipeline.sparse_results r) then []
         else ["sparse"])
     ++ (if RAGPipeline.is_empty (RAGPipeline.graph_results r) then []
         else ["graph"]))%list.
Proof.
  unfold RAGPipeline.run_retrievers. intros Hr.
  apply bind_Ok_inv in Hr as ([d u1] & Hd & Hr).
  apply bind_Ok_inv in Hr as ([s u2] & Hs & Hr).
  apply bind_Ok_inv in Hr as ([[g c] u3] & Hg & Hr).
  unfold result in Hr. cbn [snd mret M_ret] in Hr. injection Hr as <-.
  cbn [RAGPipeline.used_retrievers RAGPipeline.dense_results
         RAGPipeline.sparse_results RAGPipeline.graph_results].
  apply run_dense_used in Hd. apply run_sparse_used in Hs.
  apply run_graph_used in Hg. subst. cbn [app]. now rewrite <- app_assoc.
Qed.

Lemma retrieve_dense_sparse_used (w : World) (query : string)
      (r : RAGPipeline.Retrieved) :
  result (retrieve_dense_sparse w query) = Ok r ->
  RAGPipeline.graph_results r = []
  /\ ~ In "graph" (RAGPipeline.used_retrievers r).
Proof.
  unfold retrieve_dense_sparse. intros Hr.
  apply bind_Ok_inv in Hr as ([d u1] & Hd & Hr).
  apply bind_Ok_inv in Hr as ([s u2] & Hs & Hr).
  unfold result in Hr. cbn [snd mret M_ret] in Hr. injection Hr as <-.
  cbn [RAGPipeline.used_retrievers RAGPipeline.graph_results].
  apply run_dense_used in Hd. apply run_sparse_used in Hs. subst.
  split; [reflexivity|]. cbn [app]. intros Hin.
  apply in_app_or in Hin as [Hin|Hin];
    [destruct (RAGPipeline.is_empty d)|destruct (RAGPipeline.is_empty s)];
    cbn [In] in Hin; intuition discriminate.
Qed.

(** C9.  Take two worlds that differ at most in the graph backend, the
    first with the graph unavailable.  A run in the first is, events and
    outcome, the run of the same query in the second with
    [include_graph = False]; its step 2 is the dense and sparse retrieval
    alone; a response never lists "graph" among the used retrievers; and the
    graph retriever itself returns the empty list without any backend call.
 *)
Theorem graph_down_is_graph_off
        (self : RAGPipeline.t) (down other : World) (query mode : string)
        (options : option RAGPipeline.Options) :
  Neo4jClient.is_available down = false ->
  same_but_graph down other ->
  RAGPipeline.execute self down query mode options
  = RAGPipeline.execute self other query mode (without_graph options)
  /\ (forall query_type opts,
        RAGPipeline.run_retrievers self down query query_type opts
        = retrieve_dense_sparse down query)
  /\ (forall response,
        result (RAGPipeline.execute self down query mode options) = Ok response ->
        ~ In "graph" (QueryMeta.used_retrievers (QueryResponse.meta response)))
  /\ (forall retriever query_type top_k,
        GraphRetriever.retrieve retriever down query query_type top_k
        = ([], Ok [])).
Proof.
  intros Hdown Hsame.
  assert (Hret : forall query_type opts,
             RAGPipeline.run_retrievers self down query query_type opts
             = retrieve_dense_sparse down query).
  { intros. apply run_retrievers_skipped. auto. }
  split; [|split; [exact Hret|split]].
  - unfold RAGPipeline.execute. rewrite (classify_same down other) by exact Hsame.
    rewrite !bind_run. destruct (result (RAGPipeline.classify other query mode));
      [|reflexivity].
    rewrite (respond_same self down other query
               (default RAGPipeline.no_options options)
               (default RAGPipeline.no_options (without_graph options)));
      auto.
    apply run_retrievers_skipped. now left.
  - intros response Hrun. unfold RAGPipeline.execute in Hrun.
    apply bind_Ok_inv in Hrun as (qt & _ & Hrun).
    apply respond_meta in Hrun as (r & Hr & -> & _).
    rewrite Hret in Hr. now apply retrieve_dense_sparse_used in Hr.
  - intros. unfold GraphRetriever.retrieve. now rewrite Hdown.
Qed.

(** The theorem at the graph-down world against the world in which every
    backend answers. *)
Lemma graph_down_is_graph_off_witness :
  Neo4jClient.is_available world_graph_down = false
  /\ same_but_graph world_graph_down world_ok
  /\ RAGPipeline.execute (RAGPipeline.init world_ok true) world_graph_down
                         "Who was Abraham?" "auto" None
     = RAGPipeline.execute (RAGPipeline.init world_ok true) world_ok
                           "Who was Abraham?" "auto" (without_graph None).
Proof.
  assert (Hdown : Neo4jClient.is_available world_graph_down = false)
    by reflexivity.
  assert (Hsame : same_but_graph world_graph_down world_ok)
    by (repeat split; reflexivity).
  split; [exact Hdown|]. split; [exact Hsame|].
  exact (proj1 (graph_down_is_graph_off (RAGPipeline.init world_ok true)
                  world_graph_down world_ok "Who was Abraham?" "auto" None
                  Hdown Hsame)).
Defined.

(** The theorem at mode "person" in the world in which every backend
    answers: the run returns a response tagged "PERSON". *)
Lemma explicit_mode_is_the_classification_witness :
  "person" <> "auto"
  /\ (exists response,
        result (RAGPipeline.execute (RAGPipeline.init world_ok true) world_ok
                                    "Who was Abraham?" "person" None)
        = Ok response
        /\ QueryMeta.query_type (QueryResponse.meta response) = "PERSON")
  /\ Forall (fun e => is_classification e = false)
            (trace (RAGPipeline.execute (RAGPipeline.init world_ok true)
                                        world_ok "Who was Abraham?" "person"
                                        None)).
Proof.
  assert (Hmode : "person" <> "auto") by discriminate.
  split; [exact Hmode|].
  destruct (explicit_mode_is_the_classification
              (RAGPipeline.init world_ok true) world_ok "Who was Abraham?"
              "person" None Hmode) as (_ & _ & Hall & Hmeta & _).
  split; [|exact Hall].
  destruct (result (RAGPipeline.execute (RAGPipeline.init world_ok true)
                      world_ok "Who was Abraham?" "person" None))
    as [response|e] eqn:Hrun.
  - exists response. split; [reflexivity|]. now apply Hmeta.
  - exfalso. vm_compute in Hrun. discriminate.
Defined.

(** ** The endpoint *)

Lemma validate_omitted (b : QueryRequest.body) :
  omits_include_graph b ->
  QueryRequest.validate b = QueryRequest.validate (with_include_graph b false).
Proof.
  unfold omits_include_graph, QueryRequest.validate, with_include_graph,
    QueryOptions.validate.
  cbn [QueryRequest.body_query QueryRequest.body_mode
         QueryRequest.body_options default].
  destruct (QueryRequest.body_options b) as [[mr ig]|]; cbn; [|reflexivity].
  now intros ->.
Qed.

Lemma validate_options (b : QueryRequest.body) (request : QueryRequest.t) :
  QueryRequest.validate b = Ok request ->
  1 <= QueryOptions.max_results (QueryRequest.options request) <= 20
  /\ (omits_include_graph b ->
      QueryOptions.include_graph (QueryRequest.options request) = false).
Proof.
  unfold QueryRequest.validate, QueryOptions.validate, omits_include_graph.
  destruct (negb _); [discriminate|].
  destruct (match QueryRequest.body_mode b with
            | Some s => QueryMode.of_value s
            | None => Ok QueryMode.AUTO
            end) as [m|e]; cbn [mbind outcome_bind]; [|discriminate].
  destruct (QueryRequest.body_options b) as [[[m'|] ig]|]; cbn;
    repeat match goal with
           | |- context [Z.leb ?x ?y] => destruct (Z.leb_spec x y)
           end; cbn; try discriminate;
    intros Hr; injection Hr as <-; cbn; (split; [lia|]);
    try reflexivity; now intros ->.
Qed.

Lemma lift_Ok_bind {A B : Type} (a : A) (f : A -> M B) :
  RAGPipeline.lift (Ok a) ≫= f = f a.
Proof.
  unfold RAGPipeline.lift. cbn [mbind M_bind]. now destruct (f a).
Qed.

(** What [execute_query] runs for a request. *)
Lemma execute_query_run (w : World) (request : QueryRequest.t) :
  QueryEndpoint.execute_query w request
  = try_except
      (embed_service ← RAGPipeline.lift (get_embedding_service w);
       llm_client ← RAGPipeline.lift (get_llm_client w);
       query_type ← RAGPipeline.classify w (QueryRequest.query request)
                      (QueryMode.value (QueryRequest.mode request));
       RAGPipeline.respond (RAGPipeline.init w true) w
                           (QueryRequest.query request) (options_of request)
                           query_type)
      (fun e => RAGPipeline.lift (Raise (HTTPException 500 e))).
Proof. reflexivity. Qed.

(** C3.  For a request body that does not specify [include_graph]: the run
    is the run of the same body with [include_graph = false]; no event of it
    is an entity extraction or a graph traversal; the validated request has
    [include_graph = False]; step 2 of the pipeline is the dense and sparse
    retrieval alone, and what it hands to the fusion carries no other source
    name than "dense" and "sparse". *)
Theorem omitted_include_graph_is_false (w : World) (b : QueryRequest.body) :
  omits_include_graph b ->
  QueryEndpoint.post w b = QueryEndpoint.post w (with_include_graph b false)
  /\ Forall (fun e => is_graph_event e = false) (trace (QueryEndpoint.post w b))
  /\ (forall request,
        QueryRequest.validate b = Ok request ->
        QueryOptions.include_graph (QueryRequest.options request) = false
        /\ (forall query_type,
              RAGPipeline.run_retrievers (RAGPipeline.init w true) w
                (QueryRequest.query request) query_type (options_of request)
              = retrieve_dense_sparse w (QueryRequest.query request))
        /\ (forall r,
              result (retrieve_dense_sparse w (QueryRequest.query request))
              = Ok r ->
              RAGPipeline.graph_results r = []
              /\ forall sr, In sr (RAGPipeline.result_lists r) ->
                            fst sr = "dense" \/ fst sr = "sparse")).
Proof.
  intros Homit.
  assert (Hret : forall request,
             QueryRequest.validate b = Ok request ->
             forall query_type,
               RAGPipeline.run_retrievers (RAGPipeline.init w true) w
                 (QueryRequest.query request) query_type (options_of request)
               = retrieve_dense_sparse w (QueryRequest.query request)).
  { intros request Hval query_type. apply run_retrievers_skipped. left.
    unfold options_of. cbn.
    now rewrite (proj2 (validate_options b request Hval) Homit). }
  split; [|split].
  - unfold QueryEndpoint.post. now rewrite <- validate_omitted.
  - unfold QueryEndpoint.post. rewrite bind_run.
    unfold RAGPipeline.lift at 1 2. unfold result at 1, trace at 2.
    cbn [fst snd].
    destruct (QueryRequest.validate b) as [request|e] eqn:Hval;
      [|constructor].
    cbn [app]. rewrite execute_query_run.
    apply all_try; [|intros; apply all_lift].
    apply all_bind; [apply all_lift|]. intros embed_service.
    apply all_bind; [apply all_lift|]. intros llm_client.
    apply all_bind; [now apply classify_events|]. intros query_type.
    apply respond_events; [|reflexivity].
    rewrite (Hret request eq_refl).
    now apply retrieve_dense_sparse_events.
  - intros request Hval.
    split; [exact (proj2 (validate_options b request Hval) Homit)|].
    split; [exact (Hret request Hval)|].
    intros r Hr. apply retrieve_dense_sparse_used in Hr as [Hg _].
    split; [exact Hg|]. unfold RAGPipeline.result_lists. rewrite Hg.
    cbn [RAGPipeline.is_empty]. rewrite app_nil_r. intros sr Hin.
    apply in_app_or in Hin as [Hin|Hin];
      [destruct (RAGPipeline.is_empty (RAGPipeline.dense_results r))
      |destruct (RAGPipeline.is_empty (RAGPipeline.sparse_results r))];
      cbn [In] in Hin; try contradiction; destruct Hin as [<-|[]]; auto.
Qed.

(** The theorem at a body with only the query, in a world whose graph is
    reachable: the graph is left alone all the same. *)
Lemma omitted_include_graph_is_false_witness :
  omits_include_graph plain_body
  /\ Forall (fun e => is_graph_event e = false)
            (trace (QueryEndpoint.post world_ok plain_body))
  /\ List.length (trace (QueryEndpoint.post world_ok plain_body)) = 4%nat.
Proof.
  assert (Homit : omits_include_graph plain_body) by exact I.
  split; [exact Homit|]. split; [|reflexivity].
  exact (proj1 (proj2 (omitted_include_graph_is_false world_ok plain_body
                         Homit))).
Defined.

(** ** A run that finds nothing *)

Section FuseReturned.
Context {F : Type} `{PyFloat F} {A : Type} `{PericopeAttrs A}.

Lemma fuse_loop_Ok_inv (self : RRFFusion.t) (es : list (string * (Z * A)))
      (d d' : RRFFusion.dicts F A) :
  Py.foldM (fun d e => RRFFusion.visit self (fst e) d (snd e)) es d = Ok d' ->
  forall e, In e es -> RRFFusion.k self + enc_rank e <> 0.
Proof.
  revert d. induction es as [|[s [r x]] es IH]; intros d Hrun e; [intros []|].
  cbn [Py.foldM fst snd] in Hrun.
  unfold RRFFusion.visit at 1, RRFFusion.rrf_score in Hrun.
  destruct (Z.eqb_spec (RRFFusion.k self + r) 0) as [E|Hne];
    cbn [mbind outcome_bind] in Hrun; [discriminate|].
  intros [<-|Hin]; [exact Hne|]. exact (IH _ Hrun e Hin).
Qed.

Lemma build_items (d : RRFFusion.dicts F A) (l : list (Z * F))
      (out : list (FusedResult.t F)) :
  Py.mapM (RRFFusion.build d) l = Ok out -> List.map item_of out = l.
Proof.
  revert out. induction l as [|[i s] l IH]; intros out; cbn [Py.mapM].
  - intros Hr. now injection Hr as <-.
  - unfold RRFFusion.build at 1.
    destruct (RRFFusion.doc_data d !! i); [|discriminate].
    destruct (Py.mapM (RRFFusion.build d) l) as [bs|]; [|discriminate].
    intros Hr. injection Hr as <-. cbn [List.map]. now rewrite (IH bs).
Qed.

(** Whenever [fuse] returns, it returns the scores dictionary in stable
    descending order. *)
Lemma fuse_Ok_items (self : RRFFusion.t) (L : list (string * list A))
      (out : list (FusedResult.t F)) :
  RRFFusion.fuse self L = Ok out ->
  List.map item_of out =
  Py.sorted_desc fltb snd (scores_after (RRFFusion.k self) (encounters L) []).
Proof.
  unfold RRFFusion.fuse. rewrite fuse_loops_flat.
  destruct (Py.foldM _ (encounters L) RRFFusion.empty_dicts) as [d|e] eqn:Hrun;
    cbn [mbind outcome_bind]; [|discriminate].
  intros Hout. apply build_items in Hout. rewrite Hout.
  destruct (fuse_loop_ok self (encounters L) RRFFusion.empty_dicts
              (fuse_loop_Ok_inv _ _ _ _ Hrun)) as (d' & Hrun' & Hsc & _).
  rewrite Hrun in Hrun'. injection Hrun' as <-. now rewrite Hsc.
Qed.

(** A returned fusion of an input with a non-empty list is not empty. *)
Lemma fuse_Ok_nonempty (self : RRFFusion.t) (L : list (string * list A))
      (out : list (FusedResult.t F)) (sr : string * list A) :
  RRFFusion.fuse self L = Ok out -> In sr L -> snd sr <> [] -> out <> [].
Proof.
  intros Hrun Hsr Hne ->. apply fuse_Ok_items in Hrun. cbn in Hrun.
  destruct (snd sr) as [|x xs] eqn:Ex; [congruence|].
  assert (Hx : In (attr_id x) (ids_met L)).
  { apply ids_met_In. exists sr, x. rewrite Ex. repeat split; auto. now left. }
  apply first_seen_In in Hx. unfold ids_met in Hx.
  rewrite <- (scores_after_keys_nil (F:=F) (RRFFusion.k self)) in Hx.
  apply in_map_iff in Hx as (item & _ & Hitem).
  apply (sorted_desc_In fltb snd) in Hitem. rewrite <- Hrun in Hitem.
  exact Hitem.
Qed.

End FuseReturned.

Lemma is_empty_nil {A : Type} (l : list A) :
  RAGPipeline.is_empty l = true <-> l = [].
Proof. destruct l; cbn; split; congruence. Qed.

Lemma slice_to_nil {A : Type} (l : list A) (n : Z) :
  1 <= n -> Py.slice_to l n = [] -> l = [].
Proof.
  intros Hn. unfold Py.slice_to.
  destruct (Z.ltb_spec n 0); [lia|].
  destruct l as [|x l]; [reflexivity|].
  destruct (Z.to_nat n) eqn:E; [lia|discriminate].
Qed.

(** With [max_results >= 1], an empty truncated list means that no
    retriever found anything. *)
Lemma fuse_and_limit_nil (self : RAGPipeline.t) (r : RAGPipeline.Retrieved)
      (max_results : Z) :
  1 <= max_results ->
  RAGPipeline.fuse_and_limit self r max_results = Ok [] ->
  RAGPipeline.dense_results r = []
  /\ RAGPipeline.sparse_results r = []
  /\ RAGPipeline.graph_results r = [].
Proof.
  intros Hmax. unfold RAGPipeline.fuse_and_limit.
  destruct (RAGPipeline.is_empty (RAGPipeline.result_lists r)) eqn:Hempty.
  - intros _. apply is_empty_nil in Hempty.
    unfold RAGPipeline.result_lists in Hempty.
    destruct (RAGPipeline.dense_results r), (RAGPipeline.sparse_results r),
      (RAGPipeline.graph_results r); cbn in Hempty; try discriminate.
    auto.
  - destruct (RRFFusion.fuse _ _) as [out|e] eqn:Hfuse;
      cbn [mbind outcome_bind]; [|discriminate].
    intros Hr. injection Hr as Hr. apply slice_to_nil in Hr; [|exact Hmax].
    exfalso. subst out. unfold RAGPipeline.result_lists in Hfuse.
    destruct (RAGPipeline.dense_results r) as [|x xs] eqn:Ed.
    + destruct (RAGPipeline.sparse_results r) as [|y ys] eqn:Es.
      * destruct (RAGPipeline.graph_results r) as [|z zs] eqn:Eg.
        -- unfold RAGPipeline.result_lists in Hempty.
           rewrite Ed, Es, Eg in Hempty. discriminate.
        -- refine (fuse_Ok_nonempty _ _ _ _ Hfuse _ _ eq_refl);
             [now left|discriminate].
      * refine (fuse_Ok_nonempty _ _ _ _ Hfuse _ _ eq_refl);
          [now left|discriminate].
    + refine (fuse_Ok_nonempty _ _ _ _ Hfuse _ _ eq_refl);
        [now left|discriminate].
Qed.

(** Steps 3 to 6 when the truncated fused list is empty: no further event,
    the apology as the answer, no segment. *)
Lemma respond_nothing (self : RAGPipeline.t) (w : World) (query : string)
      (options : RAGPipeline.Options) (query_type : string)
      (r : RAGPipeline.Retrieved) :
  result (RAGPipeline.run_retrievers self w query query_type options) = Ok r ->
  RAGPipeline.fuse_and_limit self r (RAGPipeline.max_results_of w options)
  = Ok [] ->
  (time_time w 0 <= time_time w 1)%Q ->
  RAGPipeline.respond self w query options query_type
  = (trace (RAGPipeline.run_retrievers self w query query_type options),
     Ok {| QueryResponse.answer := RAGPipeline.apology;
           QueryResponse.segments := [];
           QueryResponse.meta :=
             {| QueryMeta.query_type := query_type;
                QueryMeta.used_retrievers := RAGPipeline.used_retrievers r;
                QueryMeta.total_processing_time_ms :=
                  RAGPipeline.int_of ((time_time w 1 - time_time w 0) * 1000);
                QueryMeta.llm_model := Config.LLM_MODEL_NAME (cfg w) |};
           QueryResponse.graph_context :=
             RAGPipeline.graph_context_of (RAGPipeline.graph_context_data r) |}).
Proof.
  intros Hr Hfuse Hclock. unfold RAGPipeline.respond.
  rewrite bind_run, Hr, Hfuse.
  cbn [RAGPipeline.lift mbind M_bind mret M_ret result trace fst snd
         ContextBuilder.build_with_metadata RAGPipeline.answer_for
         RAGPipeline.is_empty Py.mapM app].
  unfold QueryMeta.validate. cbn [QueryMeta.total_processing_time_ms].
  apply elapsed_nonneg in Hclock. apply Z.leb_le in Hclock. rewrite Hclock.
  cbn [app fst snd]. now rewrite app_nil_r.
Qed.

(** C7.  For every request that passes validation and whose truncated fused
    list is empty, and a clock that did not step back during the run: the
    route returns a response whose answer is the fixed apology, whose
    segments are empty and whose [used_retrievers] is empty; no event of the
    run is a call of the answer-generation prompt. *)
Theorem empty_evidence_yields_apology (w : World) (b : QueryRequest.body)
        (request : QueryRequest.t) :
  QueryRequest.validate b = Ok request ->
  result (truncated_fused w request) = Ok [] ->
  (time_time w 0 <= time_time w 1)%Q ->
  exists response,
    result (QueryEndpoint.post w b) = Ok response
    /\ QueryResponse.answer response = RAGPipeline.apology
    /\ QueryResponse.segments response = []
    /\ QueryMeta.used_retrievers (QueryResponse.meta response) = []
    /\ Forall (fun e => is_generation e = false)
              (trace (QueryEndpoint.post w b)).
Proof.
  intros Hval Hfused Hclock.
  unfold truncated_fused in Hfused.
  apply bind_Ok_inv in Hfused as (embed_service & Hembed & Hfused).
  apply bind_Ok_inv in Hfused as (llm_client & Hllm & Hfused).
  apply bind_Ok_inv in Hfused as (query_type & Hqt & Hfused).
  apply bind_Ok_inv in Hfused as (r & Hr & Hfused).
  unfold RAGPipeline.lift, result in Hfused. cbn [snd] in Hfused.
  destruct (validate_options b request Hval) as [Hmax _].
  destruct (fuse_and_limit_nil _ r _ (proj1 Hmax) Hfused) as (Hd & Hs & Hg).
  pose proof (run_retrievers_used _ _ _ _ _ r Hr) as Hused.
  rewrite Hd, Hs, Hg in Hused. cbn in Hused.
  pose proof (respond_nothing (RAGPipeline.init w true) w
                (QueryRequest.query request) (options_of request) query_type r
                Hr Hfused Hclock) as Hrespond.
  unfold QueryEndpoint.post. rewrite Hval.
  cbn [RAGPipeline.lift mbind M_bind]. rewrite execute_query_run.
  unfold RAGPipeline.lift, result in Hembed, Hllm. cbn [snd] in Hembed, Hllm.
  rewrite Hembed, Hllm, !lift_Ok_bind.
  rewrite try_except_run, bind_run, Hqt, Hrespond.
  cbn [result trace fst snd app].
  eexists. split; [reflexivity|].
  cbn [QueryResponse.answer QueryResponse.segments QueryResponse.meta
         QueryMeta.used_retrievers].
  split; [reflexivity|]. split; [reflexivity|]. split; [exact Hused|].
  apply Forall_app. split.
  - now apply classify_events.
  - apply run_retrievers_events; reflexivity.
Qed.

(** The theorem in a world in which the dense retriever finds nothing and
    the sparse one fails. *)
Lemma empty_evidence_yields_apology_witness :
  exists response,
    result (QueryEndpoint.post world_nothing plain_body) = Ok response
    /\ QueryResponse.answer response = RAGPipeline.apology
    /\ QueryResponse.segments response = []
    /\ QueryMeta.used_retrievers (QueryResponse.meta response) = []
    /\ Forall (fun e => is_generation e = false)
              (trace (QueryEndpoint.post world_nothing plain_body)).
Proof.
  refine (empty_evidence_yields_apology world_nothing plain_body
            {| QueryRequest.query := "Who was Abraham?";
               QueryRequest.mode := QueryMode.AUTO;
               QueryRequest.options :=
                 {| QueryOptions.max_results := 5;
                    QueryOptions.include_graph := false |} |} _ _ _).
  - reflexivity.
  - reflexivity.
  - vm_compute. discriminate.
Defined.

(** ** Replays in binary64, and two remarks on the pipeline's own defaults *)

(** Scenario B bit for bit: documents 1 and 2 tie at [1/61 + 1/62] also in
    binary64 (one addition each way), and document 1, met first, leads. *)
Example scenario_B_binary64 :
  fused_ids (fuse_binary64 (RRFFusion.init Config.settings None) scenario_B)
  = [1; 2; 3]
  /\ match fuse_binary64 (RRFFusion.init Config.settings None) scenario_B with
     | Ok (a :: b :: _) =>
         PrimFloat.eqb (FusedResult.score a) (FusedResult.score b) = true
     | _ => False
     end.
Proof. split; vm_compute; reflexivity. Qed.

(** With three sources the order of the additions shows: ranks 1, 7, 2 and
    ranks 7, 2, 1 add up to the same rational, so document 1, met first,
    leads in exact arithmetic; in binary64 the second sum is one unit in the
    last place larger and document 2 leads. *)
Example binary64_separates_an_exact_tie :
  firstn 2 (fused_ids (RRFFusion.fuse (F:=Q)
                         (RRFFusion.init Config.settings None) rotated_ranks))
  = [1; 2]
  /\ firstn 2 (fused_ids (fuse_binary64 (RRFFusion.init Config.settings None)
                                        rotated_ranks))
     = [2; 1]
  /\ Qeq (rrf_sum 60 [1; 7; 2]) (rrf_sum 60 [7; 2; 1])
  /\ PrimFloat.ltb (@rrf_sum float PyFloat_binary64 60 [1; 7; 2])
                   (@rrf_sum float PyFloat_binary64 60 [7; 2; 1]) = true.
Proof. repeat split; vm_compute; reflexivity. Qed.

(** [RAGPipeline.execute] called without options takes [include_graph] to be
    [True]: it is the schema's default, passed on by the endpoint, that keeps
    the graph out of a request that does not ask for it. *)
Example execute_without_options_asks_the_graph :
  existsb is_graph_event
          (trace (RAGPipeline.execute (RAGPipeline.init world_ok true) world_ok
                                      "Who was Abraham?" "auto" None))
  = true
  /\ existsb is_graph_event (trace (QueryEndpoint.post world_ok plain_body))
     = false.
Proof. split; vm_compute; reflexivity. Qed.

(** [RAGPipeline.execute] called with [max_results = 0], which validation
    keeps away from the endpoint, answers with the apology and still lists
    the retrievers that found something. *)
Example zero_max_results_lists_retrievers :
  match result (RAGPipeline.execute
                  (RAGPipeline.init world_ok true) world_ok "Who was Abraham?"
                  "auto"
                  (Some {| RAGPipeline.opt_max_results := Some 0;
                           RAGPipeline.opt_include_graph := Some false |}))
  with
  | Ok response =>
      QueryResponse.answer response = RAGPipeline.apology
      /\ QueryResponse.segments response = []
      /\ QueryMeta.used_retrievers (QueryResponse.meta response)
         = ["dense"; "sparse"]
  | Raise _ => False
  end.
Proof. vm_compute. repeat split. Qed.

(** ** Monotonicity in binary64, within the pipeline's bounds *)

(** *** The ranks of a document *)

Lemma enumerate_In {A : Type} (l : list A) (start r : Z) :
  (exists x, In (r, x) (Py.enumerate start l))
  <-> start <= r < start + Z.of_nat (length l).
Proof.
  revert start.
  induction l as [|y l IH]; intros start; cbn [Py.enumerate length].
  - split; [intros [x []]|lia].
  - split.
    + intros [x [E|Hin]]; [inversion E; lia|].
      assert (Hr : start + 1 <= r < start + 1 + Z.of_nat (length l))
        by (apply IH; now exists x).
      lia.
    + intros Hr. destruct (Z.eq_dec r start) as [->|Hne].
      * exists y. now left.
      * destruct (proj2 (IH (start + 1))) as [x Hx]; [lia|].
        exists x. now right.
Qed.

Lemma encounters_rank (A : Type) (L : list (string * list A)) (r : Z) :
  (exists e, In e (encounters L) /\ enc_rank e = r)
  <-> exists sr, In sr L /\ 1 <= r <= Z.of_nat (length (snd sr)).
Proof.
  unfold encounters. split.
  - intros (e & He & <-). apply in_flat_map in He as (sr & Hsr & He).
    apply in_map_iff in He as ([r x] & <- & Hin).
    exists sr. split; [exact Hsr|].
    cbn. assert (H1 : 1 <= r < 1 + Z.of_nat (length (snd sr)))
      by (apply enumerate_In; now exists x).
    lia.
  - intros (sr & Hsr & Hr).
    destruct (proj2 (enumerate_In (snd sr) 1 r)) as [x Hx]; [lia|].
    exists (fst sr, (r, x)). split; [|reflexivity].
    apply in_flat_map. exists sr. split; [exact Hsr|].
    now apply (in_map (fun e => (fst sr, e))) in Hx.
Qed.

Lemma count_in_list {A : Type} `{PericopeAttrs A} (s : string) (i : Z)
      (l : list A) (start : Z) :
  length (List.filter (fun e : string * (Z * A) => enc_id e =? i)
            (List.map (fun e => (s, e)) (Py.enumerate start l)))
  = length (List.filter (fun x => attr_id x =? i) l).
Proof.
  revert start. induction l as [|x l IH]; intros start; [reflexivity|].
  cbn [Py.enumerate List.map List.filter]. unfold enc_id at 1. cbn [snd].
  destruct (attr_id x =? i); cbn [length]; now rewrite IH.
Qed.

Lemma NoDup_count_le {A : Type} `{PericopeAttrs A} (i : Z) (l : list A) :
  List.NoDup (List.map attr_id l) ->
  (length (List.filter (fun x => (attr_id x =? i)%Z) l) <= 1)%nat.
Proof.
  induction l as [|x l IH]; intros Hnd; cbn [List.filter length List.map] in *;
    [lia|].
  apply List.NoDup_cons_iff in Hnd as [Hx Hnd].
  destruct (Z.eqb_spec (attr_id x) i) as [E|Hne]; [|now apply IH].
  cbn [length].
  enough (List.filter (fun y => attr_id y =? i) l = []) as ->
    by (cbn; lia).
  destruct (List.filter _ l) as [|y ys] eqn:Hf; [reflexivity|].
  assert (Hy : In y (List.filter (fun y => attr_id y =? i) l))
    by (rewrite Hf; now left).
  apply filter_In in Hy as [Hy Hid]. apply Z.eqb_eq in Hid.
  exfalso. apply Hx. rewrite E, <- Hid. now apply in_map.
Qed.

Lemma ranks_of_length {A : Type} `{PericopeAttrs A} (i : Z)
      (L : list (string * list A)) :
  (forall sr, In sr L -> List.NoDup (List.map attr_id (snd sr))) ->
  (length (ranks_of i L) <= length L)%nat.
Proof.
  unfold ranks_of. rewrite List.length_map.
  induction L as [|sr L IH]; intros Hnd; [cbn; lia|].
  cbn [encounters flat_map]. rewrite List.filter_app, List.length_app.
  rewrite count_in_list. cbn [length].
  pose proof (NoDup_count_le i (snd sr) (Hnd sr (or_introl eq_refl))).
  assert ((length (List.filter (fun e : string * (Z * A) => (enc_id e =? i)%Z)
                     (encounters L)) <= length L)%nat).
  { apply IH. intros sr' Hsr'. apply Hnd. now right. }
  unfold encounters in *. lia.
Qed.

Lemma ranks_of_nonempty {A : Type} `{PericopeAttrs A} (i : Z)
      (L : list (string * list A)) :
  In i (ids_met L) -> ranks_of i L <> [].
Proof.
  unfold ids_met, ranks_of. intros Hi. apply in_map_iff in Hi as (e & E & He).
  assert (Hf : In e (List.filter (fun e => enc_id e =? i) (encounters L))).
  { apply filter_In. split; [exact He|]. now apply Z.eqb_eq. }
  destruct (List.filter _ (encounters L)); [destruct Hf|discriminate].
Qed.

(** In an input as the pipeline fuses it, a document sits at three ranks at
    most, each between 1 and 20. *)
Lemma pipeline_input_ranks {A : Type} `{PericopeAttrs A} (i : Z)
      (L : list (string * list A)) :
  pipeline_input L ->
  (length (ranks_of i L) <= 3)%nat
  /\ forall r, In r (ranks_of i L) -> 1 <= r <= 20.
Proof.
  intros [Hlen Hlists]. split.
  - etransitivity; [|exact Hlen]. apply ranks_of_length.
    intros sr Hsr. now apply Hlists.
  - intros r Hr. unfold ranks_of in Hr.
    apply in_map_iff in Hr as (e & E & He). apply filter_In in He as [He _].
    destruct (proj1 (encounters_rank A L r)) as (sr & Hsr & Hrank);
      [now exists e|].
    destruct (Hlists sr Hsr) as [Hl _]. lia.
Qed.

(** *** The exhaustive checks *)

Lemma lists_of_In (n : nat) (alphabet l : list Z) :
  In l (lists_of n alphabet) <->
  length l = n /\ (forall x, In x l -> In x alphabet).
Proof.
  revert l. induction n as [|n IH]; intros l; cbn [lists_of].
  - split.
    + intros [<-|[]]. split; [reflexivity|intros x []].
    + intros [Hlen _]. left. symmetry. now apply length_zero_iff_nil.
  - rewrite in_flat_map. split.
    + intros (x & Hx & Hl). apply in_map_iff in Hl as (l' & <- & Hl').
      apply IH in Hl' as [Hlen Hall]. split; [cbn; now rewrite Hlen|].
      intros y [<-|Hy]; auto.
    + intros [Hlen Hall]. destruct l as [|x l']; [discriminate|].
      exists x. split; [apply Hall; now left|].
      apply in_map. apply IH. split; [now injection Hlen|].
      intros y Hy. apply Hall. now right.
Qed.

Lemma binary64_checked : binary64_monotone_check 60 = true.
Proof. vm_compute. reflexivity. Qed.

Lemma pipeline_ranks_In (r : Z) : In r pipeline_ranks <-> 1 <= r <= 20.
Proof.
  unfold pipeline_ranks. rewrite in_map_iff. split.
  - intros (n & <- & Hn). apply in_seq in Hn. lia.
  - intros Hr. exists (Z.to_nat r). split; [lia|]. apply in_seq. lia.
Qed.

Lemma sub_multiset_of_perm (ra rb extra : list Z) :
  Permutation rb (ra ++ extra) -> sub_multiset ra rb = true.
Proof.
  intros Hperm. unfold sub_multiset. apply forallb_forall. intros x _.
  apply Nat.leb_le.
  rewrite (proj1 (Permutation_count_occ Z.eq_dec rb (ra ++ extra)) Hperm x).
  rewrite count_occ_app. lia.
Qed.

(** What the check establishes. *)
Lemma binary64_check_sound (k : Z) (ra rb extra : list Z) :
  binary64_monotone_check k = true ->
  ra <> [] ->
  extra <> [] ->
  Permutation rb (ra ++ extra) ->
  (length rb <= 3)%nat ->
  (forall r, In r rb -> 1 <= r <= 20) ->
  PrimFloat.ltb (binary64_sum k ra) (binary64_sum k rb) = true.
Proof.
  intros Hcheck Hra Hextra Hperm Hlen Hranks.
  pose proof (Permutation_length Hperm) as Hl. rewrite length_app in Hl.
  assert (Hla : (1 <= length ra)%nat) by (destruct ra; [congruence|cbn; lia]).
  assert (Hle : (1 <= length extra)%nat)
    by (destruct extra; [congruence|cbn; lia]).
  unfold binary64_monotone_check in Hcheck.
  rewrite forallb_forall in Hcheck.
  specialize (Hcheck (length rb)).
  rewrite forallb_forall in Hcheck.
  assert (Hnb : In (length rb) [2%nat; 3%nat]) by (cbn; lia).
  specialize (Hcheck Hnb rb). rewrite forallb_forall in Hcheck.
  assert (Hrb : In rb (lists_of (length rb) pipeline_ranks)).
  { apply lists_of_In. split; [reflexivity|].
    intros r Hr. now apply pipeline_ranks_In, Hranks. }
  specialize (Hcheck Hrb (length ra)). rewrite forallb_forall in Hcheck.
  assert (Hna : In (length ra) (seq 1 (length rb - 1)))
    by (apply in_seq; lia).
  specialize (Hcheck Hna ra).
  assert (Hin : In ra (lists_of (length ra) rb)).
  { apply lists_of_In. split; [reflexivity|].
    intros r Hr. apply (Permutation_in r (Permutation_sym Hperm)).
    apply in_or_app. now left. }
  specialize (Hcheck Hin).
  rewrite (sub_multiset_of_perm ra rb extra Hperm) in Hcheck.
  exact Hcheck.
Qed.

Lemma binary64_scores_checked : binary64_score_check 60 = true.
Proof. vm_compute. reflexivity. Qed.

(** What the check establishes. *)
Lemma binary64_score_sound (ranks : list Z) :
  ranks <> [] ->
  (length ranks <= 3)%nat ->
  (forall r, In r ranks -> 1 <= r <= 20) ->
  PrimFloat.ltb 0%float (binary64_sum 60 ranks) = true
  /\ PrimFloat.leb (binary64_sum 60 ranks) (binary64_first 60 (length ranks))
     = true
  /\ PrimFloat.leb (binary64_sum 60 ranks) (binary64_first 60 3) = true
  /\ relevance_binary64 (binary64_sum 60 ranks)
     = PrimFloat.mul (binary64_sum 60 ranks) 10%float
  /\ PrimFloat.ltb 0%float (PrimFloat.mul (binary64_sum 60 ranks) 10%float)
     = true
  /\ PrimFloat.ltb (PrimFloat.mul (binary64_sum 60 ranks) 10%float) 0.5%float
     = true.
Proof.
  intros Hne Hlen Hranks.
  assert (Hn : In (length ranks) [1%nat; 2%nat; 3%nat]).
  { destruct ranks as [|a [|b [|c [|d l]]]]; cbn [length] in *;
      [congruence|now left|right; now left|right; right; now left|lia]. }
  assert (Hin : In ranks (lists_of (length ranks) pipeline_ranks)).
  { apply lists_of_In. split; [reflexivity|].
    intros r Hr. now apply pipeline_ranks_In, Hranks. }
  pose proof binary64_scores_checked as Hcheck.
  unfold binary64_score_check in Hcheck. rewrite forallb_forall in Hcheck.
  specialize (Hcheck (length ranks) Hn). rewrite forallb_forall in Hcheck.
  specialize (Hcheck ranks Hin). cbv zeta in Hcheck.
  rewrite !andb_true_iff in Hcheck.
  destruct Hcheck as (((((Hpos & Hn') & H3) & Hrel) & Hone) & Hhalf).
  unfold relevance_binary64. cbv zeta. rewrite Hone. auto 10.
Qed.

(** In binary64 with [k = 60]: a document that sits at two or three ranks
    between 1 and 20 scores strictly higher than one that sits at some, not
    all, of these ranks. *)
Lemma binary64_more_ranks_higher (ra rb extra : list Z) :
  ra <> [] ->
  extra <> [] ->
  Permutation rb (ra ++ extra) ->
  (length rb <= 3)%nat ->
  (forall r, In r rb -> 1 <= r <= 20) ->
  PrimFloat.ltb (binary64_sum 60 ra) (binary64_sum 60 rb) = true.
Proof. exact (binary64_check_sound 60 ra rb extra binary64_checked). Qed.

(** X5.  The fusion in binary64 with the default constant: if [b] sits at
    every rank at which [a] sits and at one more at least, at three ranks at
    most, none beyond 20, then [b]'s fused score is strictly higher. *)
Lemma fuse_binary64_more_sources_higher
      (lists_a lists_b : list (string * list RetrievalResult.t))
      (a b : Z) (extra : list Z) :
  ranks_of a lists_a <> [] ->
  extra <> [] ->
  Permutation (ranks_of b lists_b) (ranks_of a lists_a ++ extra) ->
  (length (ranks_of b lists_b) <= 3)%nat ->
  (forall r, In r (ranks_of b lists_b) -> r <= 20) ->
  exists out_a out_b,
    fuse_binary64 (RRFFusion.init Config.settings None) lists_a = Ok out_a
    /\ fuse_binary64 (RRFFusion.init Config.settings None) lists_b = Ok out_b
    /\ forall xa xb,
         In xa out_a -> FusedResult.id xa = a ->
         In xb out_b -> FusedResult.id xb = b ->
         PrimFloat.ltb (FusedResult.score xa) (FusedResult.score xb) = true.
Proof.
  intros Ha Hextra Hperm Hlen Hranks.
  assert (Hk : 0 <= RRFFusion.k (RRFFusion.init Config.settings None))
    by (vm_compute; discriminate).
  destruct (@fuse_run float PyFloat_binary64 _ _ _ lists_a Hk)
    as (out_a & Hrun_a & Hitems_a).
  destruct (@fuse_run float PyFloat_binary64 _ _ _ lists_b Hk)
    as (out_b & Hrun_b & Hitems_b).
  exists out_a, out_b. split; [exact Hrun_a|]. split; [exact Hrun_b|].
  intros xa xb Hxa Ea Hxb Eb.
  rewrite (@fused_score_sum float PyFloat_binary64 _ _ _ _ _ Hitems_a xa Hxa).
  rewrite (@fused_score_sum float PyFloat_binary64 _ _ _ _ _ Hitems_b xb Hxb).
  rewrite Ea, Eb.
  apply (binary64_more_ranks_higher _ _ extra); auto.
  intros r Hr. split; [now apply ranks_of_pos in Hr|now apply Hranks].
Qed.


(** What an input as the pipeline fuses it gives in binary64, with the
    constant 60: the fusion returns, and every fused score is the
    left-to-right sum over one to three ranks between 1 and 20. *)
Lemma fuse_binary64_pipeline {A : Type} `{PericopeAttrs A}
      (self : RRFFusion.t) (result_lists : list (string * list A)) :
  RRFFusion.k self = 60 ->
  pipeline_input result_lists ->
  exists out,
    @RRFFusion.fuse float PyFloat_binary64 A _ self result_lists = Ok out
    /\ forall x, In x out ->
         let ranks := ranks_of (FusedResult.id x) result_lists in
         FusedResult.score x = binary64_sum 60 ranks
         /\ ranks <> []
         /\ (length ranks <= length result_lists)%nat
         /\ (length ranks <= 3)%nat
         /\ forall r, In r ranks -> 1 <= r <= 20.
Proof.
  intros Hk Hin.
  assert (Hk0 : 0 <= RRFFusion.k self) by lia.
  destruct (@fuse_run float PyFloat_binary64 _ _ self result_lists Hk0)
    as (out & Hrun & Hitems).
  exists out. split; [exact Hrun|]. intros x Hx. cbv zeta.
  destruct (pipeline_input_ranks (FusedResult.id x) result_lists Hin)
    as [Hlen Hranks].
  split; [|split; [|split; [|split; assumption]]].
  - rewrite (@fused_score_sum float PyFloat_binary64 _ _ _ _ _ Hitems x Hx).
    now rewrite Hk.
  - apply ranks_of_nonempty.
    apply (@fused_ids_met float PyFloat_binary64 _ _ _ _ _ Hitems).
    now apply in_map.
  - apply ranks_of_length. intros sr Hsr. now apply (proj2 Hin).
Qed.



(** * Further properties of the code *)

(** ** [RRFFusion.fuse]: sources, payload, failure and bounds *)

Lemma str_in_app (x : string) (l l' : list string) :
  Py.str_in x (l ++ l') = Py.str_in x l || Py.str_in x l'.
Proof. unfold Py.str_in. apply existsb_app. Qed.

Lemma append_new_fold (names seen : list string) :
  fold_left append_new names seen =
  (seen ++ List.filter (fun y => negb (Py.str_in y seen))
                       (first_names names))%list.
Proof.
  revert seen. induction names as [|x names IH]; intros seen; simpl.
  - now rewrite app_nil_r.
  - rewrite IH. unfold append_new. destruct (Py.str_in x seen) eqn:Hx; simpl.
    + f_equal. rewrite filter_filter_absorb; [reflexivity|].
      intros y Hy.
      destruct (String.eqb_spec y x); [subst; now rewrite Hx in Hy|reflexivity].
    + rewrite <- app_assoc. simpl. f_equal. f_equal.
      rewrite filter_filter_and. apply filter_ext. intros y.
      rewrite str_in_app. unfold Py.str_in at 2. simpl.
      rewrite orb_false_r, negb_orb, andb_comm. reflexivity.
Qed.

Lemma first_names_fold (names : list string) :
  fold_left append_new names [] = first_names names.
Proof. rewrite append_new_fold. simpl. now apply filter_all. Qed.

Lemma first_names_In (x : string) (l : list string) :
  In x (first_names l) <-> In x l.
Proof.
  induction l as [|y l IH]; simpl; [tauto|].
  rewrite filter_In, IH.
  destruct (String.eqb_spec x y); simpl; intuition congruence.
Qed.

Lemma first_names_NoDup (l : list string) : List.NoDup (first_names l).
Proof.
  induction l as [|y l IH]; simpl; constructor.
  - rewrite filter_In, String.eqb_refl. simpl. intros [_ ?]; discriminate.
  - now apply List.NoDup_filter.
Qed.

Lemma mapM_In_inv {A B : Type} (f : A -> outcome B) (l : list A)
      (out : list B) (b : B) :
  Py.mapM f l = Ok out -> In b out -> exists a, In a l /\ f a = Ok b.
Proof.
  revert out. induction l as [|a l IH]; intros out; cbn [Py.mapM].
  - intros [= <-] [].
  - destruct (f a) as [b'|] eqn:Hfa; [|discriminate].
    destruct (Py.mapM f l) as [bs|]; [|discriminate].
    intros [= <-] [<-|Hin].
    + exists a. split; [now left|exact Hfa].
    + destruct (IH bs eq_refl Hin) as (a' & Ha' & Hf).
      exists a'. split; [now right|exact Hf].
Qed.

Lemma mapM_Forall2 {A B : Type} (f : A -> outcome B) (l : list A)
      (out : list B) :
  Py.mapM f l = Ok out -> List.Forall2 (fun a b => f a = Ok b) l out.
Proof.
  revert out. induction l as [|a l IH]; intros out; cbn [Py.mapM].
  - intros [= <-]. constructor.
  - destruct (f a) as [b|] eqn:Hfa; [|discriminate].
    destruct (Py.mapM f l) as [bs|]; [|discriminate].
    intros [= <-]. constructor; [exact Hfa|now apply IH].
Qed.

Lemma mapM_length {A B : Type} (f : A -> outcome B) (l : list A)
      (out : list B) :
  Py.mapM f l = Ok out -> length out = length l.
Proof.
  intros Hrun. apply mapM_Forall2 in Hrun.
  symmetry. exact (List.Forall2_length Hrun).
Qed.

Section FuseDicts.
Context {F : Type} `{PyFloat F} {A : Type} `{PericopeAttrs A}.

Lemma visit_Ok_inv (self : RRFFusion.t) (name : string)
      (d d' : RRFFusion.dicts F A) (e : Z * A) :
  RRFFusion.visit self name d e = Ok d' ->
  (forall i, RRFFusion.doc_data d' !! i =
             match RRFFusion.doc_data d !! i with
             | Some a => Some a
             | None => if attr_id (snd e) =? i then Some (snd e) else None
             end)
  /\ (forall i, default [] (RRFFusion.doc_sources d' !! i) =
                if attr_id (snd e) =? i
                then append_new (default [] (RRFFusion.doc_sources d !! i)) name
                else default [] (RRFFusion.doc_sources d !! i)).
Proof.
  destruct e as [rank result]. unfold RRFFusion.visit. cbn [snd].
  destruct (RRFFusion.rrf_score self rank) as [rrf|ex]; [|discriminate].
  unfold mbind, outcome_bind. intros [= <-].
  cbn [RRFFusion.doc_data RRFFusion.doc_sources]. split.
  - intros i. destruct (RRFFusion.doc_data d !! attr_id result) as [a|] eqn:Ha.
    + destruct (Z.eqb_spec (attr_id result) i) as [<-|Hne].
      * now rewrite Ha.
      * now destruct (RRFFusion.doc_data d !! i).
    + destruct (Z.eqb_spec (attr_id result) i) as [<-|Hne].
      * now rewrite lookup_insert_eq, Ha.
      * rewrite lookup_insert_ne by exact Hne.
        now destruct (RRFFusion.doc_data d !! i).
  - intros i. unfold append_new.
    destruct (Z.eqb_spec (attr_id result) i) as [<-|Hne].
    + destruct (Py.str_in name _); now rewrite lookup_insert_eq.
    + destruct (Py.str_in name _); now rewrite lookup_insert_ne by exact Hne.
Qed.

Lemma fuse_loop_dicts (self : RRFFusion.t) (es : list (string * (Z * A)))
      (d d' : RRFFusion.dicts F A) :
  Py.foldM (fun d e => RRFFusion.visit self (fst e) d (snd e)) es d = Ok d' ->
  (forall i, RRFFusion.doc_data d' !! i =
             match RRFFusion.doc_data d !! i with
             | Some a => Some a
             | None => option_map (fun e => snd (snd e))
                         (List.find (fun e => enc_id e =? i) es)
             end)
  /\ (forall i, default [] (RRFFusion.doc_sources d' !! i) =
                fold_left append_new
                  (List.map fst (List.filter (fun e => enc_id e =? i) es))
                  (default [] (RRFFusion.doc_sources d !! i))).
Proof.
  revert d. induction es as [|e es IH]; intros d; cbn [Py.foldM].
  - intros [= <-]. split; intros i; [now destruct (_ !! i)|reflexivity].
  - destruct (RRFFusion.visit self (fst e) d (snd e)) as [d1|ex] eqn:Hv;
      [|discriminate].
    intros Hrun. apply IH in Hrun as [Hdata Hsrc].
    apply visit_Ok_inv in Hv as [Hdata1 Hsrc1]. split; intros i.
    + rewrite Hdata, Hdata1. cbn [List.find]. unfold enc_id at 2.
      destruct (RRFFusion.doc_data d !! i); [reflexivity|].
      destruct (attr_id (snd (snd e)) =? i); reflexivity.
    + rewrite Hsrc, Hsrc1. cbn [List.filter]. unfold enc_id at 2.
      destruct (attr_id (snd (snd e)) =? i); reflexivity.
Qed.

End FuseDicts.

Section FuseBuilt.
Context {F : Type} `{PyFloat F} {A : Type} `{PericopeAttrs A}.

(** What the second loop of [fuse] makes of the dictionaries of the first:
    the payload of the first encounter of the id and the source names of
    all its encounters. *)
Lemma fuse_Ok_built (self : RRFFusion.t) (L : list (string * list A))
      (out : list (FusedResult.t F)) (x : FusedResult.t F) :
  RRFFusion.fuse self L = Ok out -> In x out ->
  exists e,
    List.find (fun e => enc_id e =? FusedResult.id x) (encounters L) = Some e
    /\ x = FusedResult.mk (FusedResult.id x)
             (attr_book_id (snd (snd e))) (attr_book_name (snd (snd e)))
             (attr_chapter_start (snd (snd e))) (attr_verse_start (snd (snd e)))
             (attr_chapter_end (snd (snd e))) (attr_verse_end (snd (snd e)))
             (attr_title (snd (snd e))) (attr_text (snd (snd e)))
             (FusedResult.score x)
             (first_names
                (List.map fst (encounters_of (FusedResult.id x) L))).
Proof.
  unfold RRFFusion.fuse. rewrite fuse_loops_flat.
  destruct (Py.foldM _ (encounters L) RRFFusion.empty_dicts) as [d|] eqn:Hloop;
    [|discriminate].
  unfold mbind, outcome_bind. intros Hout Hin.
  destruct (mapM_In_inv _ _ _ _ Hout Hin) as ([i s] & _ & Hb).
  apply fuse_loop_dicts in Hloop as [Hdata Hsrc].
  unfold RRFFusion.build in Hb. rewrite Hdata, Hsrc in Hb.
  cbn [RRFFusion.empty_dicts RRFFusion.doc_data RRFFusion.doc_sources] in Hb.
  rewrite !lookup_empty in Hb.
  destruct (List.find _ (encounters L)) as [e|] eqn:Hfind; [|discriminate].
  cbn [option_map default from_option id] in Hb.
  rewrite first_names_fold in Hb. injection Hb as <-.
  cbn [FusedResult.id FusedResult.score]. exists e. split; [exact Hfind|].
  reflexivity.
Qed.

End FuseBuilt.

(** X1.  The source names of a fused result are those of the input lists that
    hold the document, each once, in the order the first loop first met
    them. *)
Theorem fuse_sources_first_met {F : Type} `{PyFloat F} {A : Type}
        `{PericopeAttrs A} (self : RRFFusion.t)
        (result_lists : list (string * list A))
        (out : list (FusedResult.t F)) (x : FusedResult.t F) :
  RRFFusion.fuse self result_lists = Ok out ->
  In x out ->
  FusedResult.sources x
  = first_names (List.map fst (encounters_of (FusedResult.id x) result_lists))
  /\ List.NoDup (FusedResult.sources x)
  /\ FusedResult.sources x <> []
  /\ (forall source_name,
        In source_name (FusedResult.sources x) <->
        exists sr result,
          In sr result_lists /\ fst sr = source_name
          /\ In result (snd sr) /\ attr_id result = FusedResult.id x).
Proof.
  intros Hfuse Hin.
  destruct (fuse_Ok_built self result_lists out x Hfuse Hin)
    as (e & Hfind & Hx).
  assert (Hs : FusedResult.sources x
               = first_names
                   (List.map fst
                      (encounters_of (FusedResult.id x) result_lists))).
  { rewrite Hx at 1. reflexivity. }
  split; [exact Hs|]. rewrite Hs. split; [apply first_names_NoDup|]. split.
  - apply find_some in Hfind as [He Hid].
    assert (Hin' : In (fst e)
                      (first_names
                         (List.map fst
                            (encounters_of (FusedResult.id x) result_lists)))).
    { apply first_names_In, in_map, filter_In. now split. }
    intros E. now rewrite E in Hin'.
  - intros source_name. rewrite first_names_In, in_map_iff. split.
    + intros ([s [r a]] & <- & He). apply filter_In in He as [He Hid].
      apply Z.eqb_eq in Hid. unfold enc_id in Hid. cbn [fst snd] in *.
      unfold encounters in He. apply in_flat_map in He as (sr & Hsr & He).
      apply in_map_iff in He as ([r' a'] & E & He). inversion E; subst.
      exists sr, a. repeat split; auto.
      rewrite <- (enumerate_snd (snd sr) 1). now apply (in_map snd) in He.
    + intros (sr & a & Hsr & <- & Ha & Hid).
      rewrite <- (enumerate_snd (snd sr) 1) in Ha.
      apply in_map_iff in Ha as ([r a'] & E & He). simpl in E. subst a'.
      exists (fst sr, (r, a)). split; [reflexivity|].
      apply filter_In. split.
      * apply in_flat_map. exists sr. split; [exact Hsr|].
        now apply (in_map (fun e => (fst sr, e))) in He.
      * apply Z.eqb_eq. exact Hid.
Qed.

(** On the input of scenario B document 1 has the sources of both
    lists. *)
Lemma fuse_sources_first_met_witness :
  exists (out : list (FusedResult.t Q)) (x : FusedResult.t Q),
    RRFFusion.fuse (RRFFusion.init Config.settings None) scenario_B = Ok out
    /\ In x out
    /\ FusedResult.id x = 1
    /\ FusedResult.sources x = ["dense"; "sparse"].
Proof.
  destruct (RRFFusion.fuse (F:=Q) (RRFFusion.init Config.settings None)
                           scenario_B) as [out|ex] eqn:Hrun;
    [|vm_compute in Hrun; discriminate].
  assert (Hout := Hrun). vm_compute in Hout. injection Hout as Hout.
  destruct out as [|x out]; [discriminate|].
  exists (x :: out), x. split; [reflexivity|]. split; [now left|].
  destruct (fuse_sources_first_met _ _ _ x Hrun (or_introl eq_refl))
    as (Hs & _).
  injection Hout as Hx _. split; [now rewrite <- Hx|].
  rewrite Hs, <- Hx. vm_compute. reflexivity.
Defined.

(** X2.  The payload of a fused result is that of the first result with its id
    that the first loop met: later lists do not replace it. *)
Theorem fuse_payload_first_met {F : Type} `{PyFloat F} {A : Type}
        `{PericopeAttrs A} (self : RRFFusion.t)
        (result_lists : list (string * list A))
        (out : list (FusedResult.t F)) (x : FusedResult.t F) :
  RRFFusion.fuse self result_lists = Ok out ->
  In x out ->
  exists source_name rank result,
    List.find (fun e => enc_id e =? FusedResult.id x) (encounters result_lists)
    = Some (source_name, (rank, result))
    /\ attr_id result = FusedResult.id x
    /\ FusedResult.book_id x = attr_book_id result
    /\ FusedResult.book_name x = attr_book_name result
    /\ FusedResult.chapter_start x = attr_chapter_start result
    /\ FusedResult.verse_start x = attr_verse_start result
    /\ FusedResult.chapter_end x = attr_chapter_end result
    /\ FusedResult.verse_end x = attr_verse_end result
    /\ FusedResult.title x = attr_title result
    /\ FusedResult.text x = attr_text result.
Proof.
  intros Hfuse Hin.
  destruct (fuse_Ok_built self result_lists out x Hfuse Hin)
    as ([s [r a]] & Hfind & Hx).
  exists s, r, a. split; [exact Hfind|]. split.
  - apply find_some in Hfind as [_ Hid]. now apply Z.eqb_eq in Hid.
  - cbn [snd] in Hx. rewrite Hx. cbn. repeat split; reflexivity.
Qed.

(** The dense list comes first, so its payload is the one kept. *)
Lemma fuse_payload_first_met_witness :
  exists (out : list (FusedResult.t Q)) (x : FusedResult.t Q),
    RRFFusion.fuse (RRFFusion.init Config.settings None) two_payloads = Ok out
    /\ In x out
    /\ FusedResult.title x = "Forgiveness"
    /\ FusedResult.sources x = ["dense"; "sparse"].
Proof.
  destruct (RRFFusion.fuse (F:=Q) (RRFFusion.init Config.settings None)
                           two_payloads) as [out|ex] eqn:Hrun;
    [|vm_compute in Hrun; discriminate].
  assert (Hout := Hrun). vm_compute in Hout. injection Hout as Hout.
  destruct out as [|x out]; [discriminate|].
  exists (x :: out), x. split; [reflexivity|]. split; [now left|].
  destruct (fuse_payload_first_met _ _ _ x Hrun (or_introl eq_refl))
    as (s & r & a & Hfind & _ & _ & _ & _ & _ & _ & _ & Htitle & _).
  injection Hout as Hx _. rewrite <- Hx in Hfind. vm_compute in Hfind.
  injection Hfind as _ _ <-. rewrite Htitle. split; [reflexivity|].
  now rewrite <- Hx.
Defined.

Section FuseRaises.
Context {F : Type} `{PyFloat F} {A : Type} `{PericopeAttrs A}.

Lemma fuse_loop_Raise_inv (self : RRFFusion.t) (es : list (string * (Z * A)))
      (d : RRFFusion.dicts F A) (ex : exn) :
  Py.foldM (fun d e => RRFFusion.visit self (fst e) d (snd e)) es d
  = Raise ex ->
  ex = ZeroDivisionError.
Proof.
  revert d.
  induction es as [|[s [r x]] es IH]; intros d; cbn [Py.foldM fst snd];
    [discriminate|].
  unfold RRFFusion.visit at 1, RRFFusion.rrf_score.
  destruct (RRFFusion.k self + r =? 0); cbn [mbind outcome_bind].
  - now intros [= <-].
  - apply IH.
Qed.

(** The second loop never misses a key: with every [k + rank] non-zero,
    [fuse] returns. *)
Lemma fuse_returns (self : RRFFusion.t) (L : list (string * list A)) :
  (forall e, In e (encounters L) -> RRFFusion.k self + enc_rank e <> 0) ->
  exists out, RRFFusion.fuse self L = Ok out.
Proof.
  intros Hk. unfold RRFFusion.fuse. rewrite fuse_loops_flat.
  destruct (fuse_loop_ok self (encounters L) RRFFusion.empty_dicts Hk)
    as (d & Hrun & Hsc & Hdom).
  rewrite Hrun. cbn [mbind outcome_bind]. rewrite Hsc.
  cbn [RRFFusion.doc_scores RRFFusion.empty_dicts].
  destruct (build_all d (Py.sorted_desc fltb snd
              (scores_after (RRFFusion.k self) (encounters L) [])))
    as (out & Hout & _); [|now exists out].
  intros item Hin. apply Hdom. right.
  apply sorted_desc_In in Hin. apply (in_map fst) in Hin.
  rewrite scores_after_keys_nil, first_seen_In in Hin. exact Hin.
Qed.

Lemma fuse_Raise_inv (self : RRFFusion.t) (L : list (string * list A))
      (ex : exn) :
  RRFFusion.fuse self L = Raise ex ->
  ex = ZeroDivisionError
  /\ exists e, In e (encounters L) /\ RRFFusion.k self + enc_rank e = 0.
Proof.
  intros Hr.
  assert (Hex : exists e, In e (encounters L)
                          /\ RRFFusion.k self + enc_rank e = 0).
  { destruct (List.find (fun e => RRFFusion.k self + enc_rank e =? 0)
                        (encounters L)) as [e|] eqn:Hfind.
    - apply find_some in Hfind as [He Hz]. exists e. split; [exact He|lia].
    - destruct (fuse_returns self L) as [out Hout]; [|congruence].
      intros e He. apply (find_none _ _ Hfind) in He. lia. }
  split; [|exact Hex].
  unfold RRFFusion.fuse in Hr. rewrite fuse_loops_flat in Hr.
  destruct (Py.foldM _ (encounters L) RRFFusion.empty_dicts)
    as [d|ex'] eqn:Hloop.
  - destruct Hex as (e & He & Hz).
    now apply (fuse_loop_Ok_inv self _ _ _ Hloop e He) in Hz.
  - cbn [mbind outcome_bind] in Hr. injection Hr as <-.
    exact (fuse_loop_Raise_inv _ _ _ _ Hloop).
Qed.

End FuseRaises.

(** X3.  For a [k] that stays within the range of [float] at every rank of
    the input: [fuse] raises exactly when [k] is negative and some input
    list is long enough to hold the rank [-k]; the exception is then the
    [ZeroDivisionError] of [1.0 / (self.k + rank)], never a [KeyError] of the
    second loop. *)
Theorem fuse_raises_iff {F : Type} `{PyFloat F} {A : Type} `{PericopeAttrs A}
        (self : RRFFusion.t) (result_lists : list (string * list A)) :
  (forall sr rank,
      In sr result_lists -> 1 <= rank <= Z.of_nat (length (snd sr)) ->
      float_range (RRFFusion.k self + rank)) ->
  (RRFFusion.fuse (F:=F) self result_lists = Raise ZeroDivisionError
   <-> exists sr, In sr result_lists
                  /\ 1 <= - RRFFusion.k self <= Z.of_nat (length (snd sr)))
  /\ (forall ex, RRFFusion.fuse (F:=F) self result_lists = Raise ex ->
                 ex = ZeroDivisionError)
  /\ ((exists out, RRFFusion.fuse (F:=F) self result_lists = Ok out)
      <-> forall sr, In sr result_lists ->
                     ~ 1 <= - RRFFusion.k self <= Z.of_nat (length (snd sr))).
Proof.
  intros _.
  assert (Hzero : (exists e, In e (encounters result_lists)
                             /\ RRFFusion.k self + enc_rank e = 0)
                  <-> exists sr,
                        In sr result_lists
                        /\ 1 <= - RRFFusion.k self
                           <= Z.of_nat (length (snd sr))).
  { rewrite <- encounters_rank. split; intros (e & He & Hz); exists e;
      (split; [exact He|lia]). }
  split; [|split].
  - split.
    + intros Hr. apply Hzero. now apply fuse_Raise_inv in Hr as [_ Hex].
    + intros Hsr. apply Hzero in Hsr as (e & He & Hz).
      destruct (RRFFusion.fuse (F:=F) self result_lists) as [out|ex] eqn:Hrun.
      * unfold RRFFusion.fuse in Hrun. rewrite fuse_loops_flat in Hrun.
        destruct (Py.foldM _ (encounters result_lists) RRFFusion.empty_dicts)
          as [d|ex'] eqn:Hloop; [|discriminate].
        now apply (fuse_loop_Ok_inv self _ _ _ Hloop e He) in Hz.
      * now apply fuse_Raise_inv in Hrun as [-> _].
  - intros ex Hr. now apply fuse_Raise_inv in Hr as [-> _].
  - split.
    + intros [out Hout] sr Hsr Hk.
      destruct (proj2 Hzero) as (e & He & Hz); [now exists sr|].
      unfold RRFFusion.fuse in Hout. rewrite fuse_loops_flat in Hout.
      destruct (Py.foldM _ (encounters result_lists) RRFFusion.empty_dicts)
        as [d|ex'] eqn:Hloop; [|discriminate].
      now apply (fuse_loop_Ok_inv self _ _ _ Hloop e He) in Hz.
    + intros Hno. apply fuse_returns. intros e He Hz.
      destruct (proj1 Hzero) as (sr & Hsr & Hk); [now exists e|].
      exact (Hno sr Hsr Hk).
Qed.

(** With [k = -2] the input of scenario B, whose first list has three
    results, raises at rank 2; with [k = -4] no list is long enough. *)
Lemma fuse_raises_iff_witness :
  fuse_binary64 {| RRFFusion.k := -2 |} scenario_B = Raise ZeroDivisionError
  /\ exists out, fuse_binary64 {| RRFFusion.k := -4 |} scenario_B = Ok out.
Proof.
  assert (Hrange : forall k,
             -4 <= k <= 0 ->
             forall (sr : string * list RetrievalResult.t) rank,
               In sr scenario_B ->
               1 <= rank <= Z.of_nat (length (snd sr)) ->
               float_range (k + rank)).
  { intros k Hk sr rank Hsr Hrank. unfold float_range.
    assert (Hbig : 8 < 2 ^ 1024 - 2 ^ 970) by (vm_compute; reflexivity).
    destruct Hsr as [<-|[<-|[]]]; cbn [snd length] in Hrank; lia. }
  split.
  - apply (proj1 (@fuse_raises_iff float PyFloat_binary64 _ _
                    {| RRFFusion.k := -2 |} scenario_B
                    (Hrange (-2) ltac:(lia)))).
    exists ("dense", [passage 1; passage 2; passage 3]).
    split; [now left|]. cbn. lia.
  - apply (proj2 (proj2 (@fuse_raises_iff float PyFloat_binary64 _ _
                           {| RRFFusion.k := -4 |} scenario_B
                           (Hrange (-4) ltac:(lia))))).
    intros sr [<-|[<-|[]]]; cbn; lia.
Defined.

(** X4.  In IEEE binary64 with the constant 60, on an input as the pipeline
    fuses it: the fusion returns, and every fused score is positive, at most
    the score of a document ranked first by as many lists as rank this one,
    and at most the score of a document ranked first by three lists.  A
    fused document is ranked by one list at least and by no more lists than
    the input has. *)
Theorem fuse_score_bounds {A : Type} `{PericopeAttrs A} (self : RRFFusion.t)
        (result_lists : list (string * list A)) :
  RRFFusion.k self = 60 ->
  pipeline_input result_lists ->
  exists out,
    @RRFFusion.fuse float PyFloat_binary64 A _ self result_lists = Ok out
    /\ forall x, In x out ->
         let n := length (ranks_of (FusedResult.id x) result_lists) in
         (1 <= n <= length result_lists)%nat
         /\ PrimFloat.ltb 0%float (FusedResult.score x) = true
         /\ PrimFloat.leb (FusedResult.score x) (binary64_first 60 n) = true
         /\ PrimFloat.leb (FusedResult.score x) (binary64_first 60 3) = true.
Proof.
  intros Hk Hin.
  destruct (fuse_binary64_pipeline self result_lists Hk Hin)
    as (out & Hrun & Hout).
  exists out. split; [exact Hrun|]. intros x Hx. cbv zeta.
  destruct (Hout x Hx) as (-> & Hne & Hle & Hlen & Hranks).
  destruct (binary64_score_sound _ Hne Hlen Hranks)
    as (Hpos & Hfirst & Hthree & _).
  split; [|auto].
  split; [|exact Hle].
  destruct (ranks_of (FusedResult.id x) result_lists); [congruence|cbn; lia].
Qed.

(** On the input of scenario B every fused score is positive and at most
    that of a document ranked first three times. *)
Lemma fuse_score_bounds_witness :
  exists out : list (FusedResult.t float),
    fuse_binary64 (RRFFusion.init Config.settings None) scenario_B = Ok out
    /\ forall x, In x out ->
         PrimFloat.ltb 0%float (FusedResult.score x) = true
         /\ PrimFloat.leb (FusedResult.score x) (binary64_first 60 3) = true.
Proof.
  destruct (fuse_score_bounds (RRFFusion.init Config.settings None)
              scenario_B) as (out & Hrun & Hout).
  - reflexivity.
  - split; [cbn; lia|].
    intros sr [<-|[<-|[]]]; (split; [cbn; lia|]); cbn;
      repeat (apply List.NoDup_cons; [cbn; intuition discriminate|]);
      apply List.NoDup_nil.
  - exists out. split; [exact Hrun|]. intros x Hx.
    destruct (Hout x Hx) as (_ & Hpos & _ & Hthree). now split.
Defined.

(** On [one_more_source] document 2 sits at ranks 2 and 1 and document 1
    at rank 1 only: in binary64 too its score is the higher. *)
Lemma fuse_binary64_more_sources_higher_witness :
  exists out : list (FusedResult.t float),
    fuse_binary64 (RRFFusion.init Config.settings None) one_more_source = Ok out
    /\ forall xa xb,
         In xa out -> FusedResult.id xa = 1 ->
         In xb out -> FusedResult.id xb = 2 ->
         PrimFloat.ltb (FusedResult.score xa) (FusedResult.score xb) = true.
Proof.
  destruct (fuse_binary64_more_sources_higher
              one_more_source one_more_source 1 2 [2])
    as (out_a & out_b & Hrun_a & Hrun_b & Hlt).
  - vm_compute; discriminate.
  - discriminate.
  - vm_compute. apply perm_swap.
  - vm_compute. lia.
  - intros r Hr. vm_compute in Hr. destruct Hr as [<-|[<-|[]]]; lia.
  - exists out_a. split; [exact Hrun_a|].
    intros xa xb Hxa Ea Hxb Eb. apply Hlt; auto.
    rewrite Hrun_a in Hrun_b. now injection Hrun_b as <-.
Defined.

(** ** [ContextBuilder]: the two builders and the reference formats *)

Lemma collect_parts_fst {F : Type} (max_chars : Z)
      (results : list (FusedResult.t F)) (start : Z)
      (context_parts : list string)
      (metadata : list (ContextBuilder.Metadata F)) (total_chars : Z) :
  ContextBuilder.collect_parts max_chars (Py.enumerate start results)
                               context_parts total_chars
  = fst (ContextBuilder.collect max_chars results context_parts metadata
                                total_chars).
Proof.
  revert start context_parts metadata total_chars.
  induction results as [|result rest IH]; intros start parts md total;
    [reflexivity|].
  cbn [Py.enumerate ContextBuilder.collect_parts ContextBuilder.collect].
  destruct (_ && _); [reflexivity|apply IH].
Qed.

(** X6.  [build] and [build_with_metadata] return the same context string, for
    every result list and whatever the [query] argument. *)
Theorem build_is_build_with_metadata {F : Type} (self : ContextBuilder.t)
        (results : list (FusedResult.t F)) (query : option string) :
  ContextBuilder.build self results query
  = fst (ContextBuilder.build_with_metadata self results).
Proof.
  unfold ContextBuilder.build, ContextBuilder.build_with_metadata.
  destruct results as [|result rest]; [reflexivity|].
  rewrite (collect_parts_fst _ _ _ _ []).
  now destruct (ContextBuilder.collect _ _ _ _ _).
Qed.

Lemma append_assoc (s1 s2 s3 : string) :
  (s1 +:+ s2) +:+ s3 = s1 +:+ (s2 +:+ s3).
Proof.
  induction s1 as [|c s1 IH]; [reflexivity|].
  change (String c ((s1 +:+ s2) +:+ s3) = String c (s1 +:+ s2 +:+ s3)).
  now rewrite IH.
Qed.

Lemma append_longer (s t : string) : t <> "" -> s +:+ t <> s.
Proof.
  intros Ht E. apply (f_equal Str.len) in E. rewrite len_append in E.
  destruct t as [|c t]; [congruence|]. unfold Str.len in E. cbn in E. lia.
Qed.

(** X7.  The two reference formats of the code base agree except on a passage
    of a single verse: there [GraphRetrievalResult.reference] repeats the
    verse after a dash where [ContextBuilder._format_reference] does not. *)
Theorem reference_formats {F : Type} (x : FusedResult.t F)
        (g : GraphRetrievalResult.t) :
  FusedResult.book_name x = GraphRetrievalResult.book_name g ->
  FusedResult.chapter_start x = GraphRetrievalResult.chapter_start g ->
  FusedResult.verse_start x = GraphRetrievalResult.verse_start g ->
  FusedResult.chapter_end x = GraphRetrievalResult.chapter_end g ->
  FusedResult.verse_end x = GraphRetrievalResult.verse_end g ->
  (GraphRetrievalResult.reference g = ContextBuilder._format_reference x
   <-> ~ (GraphRetrievalResult.chapter_start g
          = GraphRetrievalResult.chapter_end g
          /\ GraphRetrievalResult.verse_start g
             = GraphRetrievalResult.verse_end g))
  /\ (GraphRetrievalResult.chapter_start g
      = GraphRetrievalResult.chapter_end g ->
      GraphRetrievalResult.verse_start g = GraphRetrievalResult.verse_end g ->
      GraphRetrievalResult.reference g
      = ContextBuilder._format_reference x +:+ "-"
          +:+ Str.of_int (GraphRetrievalResult.verse_end g)).
Proof.
  intros Eb Ecs Evs Ece Eve.
  unfold GraphRetrievalResult.reference, ContextBuilder._format_reference.
  rewrite Eb, Ecs, Evs, Ece, Eve.
  destruct (Z.eqb_spec (GraphRetrievalResult.chapter_start g)
                       (GraphRetrievalResult.chapter_end g)) as [Ec|Hc];
    [destruct (Z.eqb_spec (GraphRetrievalResult.verse_start g)
                          (GraphRetrievalResult.verse_end g)) as [Ev|Hv]|].
  - assert (Happ : forall b c v e : string,
               b +:+ " " +:+ c +:+ ":" +:+ v +:+ "-" +:+ e
               = (b +:+ " " +:+ c +:+ ":" +:+ v) +:+ "-" +:+ e).
    { intros. now rewrite !append_assoc. }
    split; [|intros _ _; apply Happ].
    split; [|tauto]. rewrite Happ. intros E. now apply append_longer in E.
  - split; [|tauto]. split; [tauto|reflexivity].
  - split; [|tauto]. split; [tauto|reflexivity].
Qed.

(** John 3:16: [_format_reference] gives "John 3:16" and the [reference]
    of the graph result "John 3:16-16". *)
Lemma reference_formats_witness :
  GraphRetrievalResult.reference single_verse_graph
  <> ContextBuilder._format_reference single_verse_fused
  /\ GraphRetrievalResult.reference single_verse_graph = "John 3:16-16"
  /\ ContextBuilder._format_reference single_verse_fused = "John 3:16".
Proof.
  destruct (reference_formats single_verse_fused single_verse_graph
              eq_refl eq_refl eq_refl eq_refl eq_refl) as [Hiff Hdash].
  split; [|split; [vm_compute; reflexivity|vm_compute; reflexivity]].
  intros E. apply Hiff in E. apply E. split; reflexivity.
Defined.

(** ** [OllamaLLMClient]: classification *)

(** [classify_query] and [generate_answer] as one call each. *)
Lemma classify_query_run (w : World) (query : string) :
  OllamaLLMClient.classify_query w query
  = let prompt := "請分類這個問題：" +:+ query in
    ([LLMChat ClassifierPrompt prompt (1 # 10) 50],
     match ollama_chat w ClassifierPrompt prompt (1 # 10) 50 with
     | Ok response =>
         Ok (match List.find
                     (fun query_type =>
                        Str.contains query_type
                                     (Str.upper (Str.strip response)))
                     OllamaLLMClient.valid_types with
             | Some query_type => query_type
             | None => "GENERAL_BIBLE_QUESTION"
             end)
     | Raise e => Raise e
     end).
Proof.
  unfold OllamaLLMClient.classify_query, OllamaLLMClient.generate, await.
  change (OllamaLLMClient.float_or (Some (1 # 10)%Q) _) with (1 # 10)%Q.
  change (Py.int_or (Some 50) _) with 50.
  rewrite bind_run. unfold result, trace. cbn [fst snd].
  destruct (ollama_chat w ClassifierPrompt _ _ _); reflexivity.
Qed.

Lemma generate_answer_run (w : World) (query context query_type : string) :
  OllamaLLMClient.generate_answer w query context query_type
  = let prompt := OllamaLLMClient.answer_prompt query context query_type in
    ([LLMChat AnswerPrompt prompt (Config.LLM_TEMPERATURE (cfg w))
              (Config.LLM_MAX_TOKENS (cfg w))],
     ollama_chat w AnswerPrompt prompt (Config.LLM_TEMPERATURE (cfg w))
                 (Config.LLM_MAX_TOKENS (cfg w))).
Proof.
  unfold OllamaLLMClient.generate_answer, OllamaLLMClient.generate, await,
    OllamaLLMClient.float_or, Py.int_or.
  destruct (Qeq_bool _ 0), (_ =? 0); reflexivity.
Qed.

(** X8.  [classify_query] asks the model once, with temperature 0.1 and 50
    tokens; when the model answers, whatever it says, the result is one of
    the five valid types; when the call fails, so does [classify_query]. *)
Theorem classify_query_valid_type (w : World) (query : string) :
  let prompt := "請分類這個問題：" +:+ query in
  trace (OllamaLLMClient.classify_query w query)
  = [LLMChat ClassifierPrompt prompt (1 # 10) 50]
  /\ match ollama_chat w ClassifierPrompt prompt (1 # 10) 50 with
     | Ok _ =>
         exists query_type,
           result (OllamaLLMClient.classify_query w query) = Ok query_type
           /\ In query_type OllamaLLMClient.valid_types
     | Raise e => result (OllamaLLMClient.classify_query w query) = Raise e
     end.
Proof.
  intros prompt. rewrite classify_query_run. fold prompt.
  unfold trace, result. cbn [fst snd]. split; [reflexivity|].
  destruct (ollama_chat w ClassifierPrompt prompt (1 # 10) 50) as [response|e];
    [|reflexivity].
  eexists. split; [reflexivity|].
  destruct (List.find _ OllamaLLMClient.valid_types) as [t|] eqn:Hfind.
  - now apply find_some in Hfind as [Hin _].
  - cbn. tauto.
Qed.

(** X9.  An answer that is, once stripped and put in upper case, exactly one of
    the five types is classified as that type. *)
Theorem classify_query_exact_answer (w : World) (query response : string)
        (query_type : string) :
  ollama_chat w ClassifierPrompt ("請分類這個問題：" +:+ query) (1 # 10) 50
  = Ok response ->
  In query_type OllamaLLMClient.valid_types ->
  Str.upper (Str.strip response) = query_type ->
  result (OllamaLLMClient.classify_query w query) = Ok query_type.
Proof.
  intros Hchat Hin Hup. rewrite classify_query_run. unfold result. cbn [snd].
  rewrite Hchat, Hup. clear Hchat Hup.
  cbn [In OllamaLLMClient.valid_types] in Hin.
  destruct Hin as [<-|[<-|[<-|[<-|[<-|[]]]]]]; vm_compute; reflexivity.
Qed.

(** An answer in lower case, padded with spaces. *)
Lemma classify_query_exact_answer_witness :
  In "PERSON_QUESTION" OllamaLLMClient.valid_types
  /\ Str.upper (Str.strip " person_question ") = "PERSON_QUESTION"
  /\ result (OllamaLLMClient.classify_query
               (with_chat world_ok (fun _ _ _ _ => Ok " person_question "))
               "Who was Abraham?")
     = Ok "PERSON_QUESTION".
Proof.
  assert (Hin : In "PERSON_QUESTION" OllamaLLMClient.valid_types)
    by (vm_compute; tauto).
  assert (Hup : Str.upper (Str.strip " person_question ") = "PERSON_QUESTION")
    by (vm_compute; reflexivity).
  split; [exact Hin|]. split; [exact Hup|].
  exact (classify_query_exact_answer
           (with_chat world_ok (fun _ _ _ _ => Ok " person_question "))
           "Who was Abraham?" " person_question " "PERSON_QUESTION"
           eq_refl Hin Hup).
Defined.

(** ** [GraphRetriever]: failures, entities, dispatch and order *)

Lemma extract_entities_total (self : GraphRetriever.t) (w : World)
      (query query_type : string) :
  exists entities,
    result (GraphRetriever._extract_entities_from_query self w query query_type)
    = Ok entities.
Proof.
  unfold GraphRetriever._extract_entities_from_query.
  destruct (negb (GraphRetriever.llm_client self)); [now eexists|].
  apply try_except_total. intros; now eexists.
Qed.

(** Every path through [retrieve] ends in a list. *)
Lemma retrieve_Ok (self : GraphRetriever.t) (w : World)
      (query query_type : string) (top_k : Z) :
  exists results,
    result (GraphRetriever.retrieve self w query query_type top_k) = Ok results
    /\ forall g, In g results ->
         exists kind query parameters row,
           g = GraphRetriever.result_of_row kind row
           /\ In row (rows_read w query parameters).
Proof.
  unfold GraphRetriever.retrieve.
  destruct (negb (Neo4jClient.is_available w));
    [exists []; split; [reflexivity|intros _ []]|].
  destruct (extract_entities_total self w query query_type) as [entities He].
  rewrite bind_run, He. unfold result. cbn [snd].
  assert (Hscoped : forall q kind,
             exists results,
               snd (GraphRetriever.scoped w q kind entities top_k) = Ok results
               /\ forall g, In g results ->
                    exists kind query parameters row,
                      g = GraphRetriever.result_of_row kind row
                      /\ In row (rows_read w query parameters)).
  { intros q kind. rewrite scoped_run. eexists. split; [reflexivity|].
    intros g Hg. apply in_map_iff in Hg as (row & <- & Hrow).
    now exists kind, q, {| cp_names := entities; cp_limit := top_k |}, row. }
  destruct entities as [|e es]; [exists []; split; [reflexivity|intros _ []]|].
  destruct (String.eqb query_type "PERSON_QUESTION"); [apply Hscoped|].
  destruct (String.eqb query_type "TOPIC_QUESTION"); [apply Hscoped|].
  destruct (String.eqb query_type "EVENT_QUESTION"); [apply Hscoped|].
  rewrite retrieve_general_run. cbn [snd]. eexists. split; [reflexivity|].
  intros g Hg. apply slice_to_In in Hg.
  destruct (dedup_spec
              (Py.sorted_desc Qltb GraphRetrievalResult.score
                 (merged_results w (e :: es) (Z.max (top_k / 3) 5))) ∅ [])
    as (_ & _ & Hfrom & _).
  { intros i. cbn. set_solver. }
  { constructor. }
  apply Hfrom in Hg as [[]|Hg]. apply sorted_desc_In in Hg.
  unfold merged_results in Hg. rewrite !in_app_iff in Hg.
  destruct Hg as [Hg|[Hg|Hg]]; apply in_map_iff in Hg as (row & <- & Hrow);
    eauto 10.
Qed.

(** X10.  [retrieve] never raises: a failure of the entity extraction falls back
    to the query itself and a failure of the graph store to no rows.  Every
    result carries the score [min(1.0, amount / 10.0)] of the amount
    recorded in its own graph context, so no score exceeds 1, and none is
    negative unless the store reported a negative amount. *)
Theorem retrieve_never_raises (self : GraphRetriever.t) (w : World)
        (query query_type : string) (top_k : Z) :
  exists results,
    result (GraphRetriever.retrieve self w query query_type top_k) = Ok results
    /\ forall g, In g results ->
         GraphRetrievalResult.score g
         = GraphRetriever._calculate_score
             (GraphCtx.amount (GraphRetrievalResult.graph_context g))
         /\ (GraphRetrievalResult.score g <= 1)%Q
         /\ ((0 <= GraphCtx.amount (GraphRetrievalResult.graph_context g))%Q ->
             (0 <= GraphRetrievalResult.score g)%Q)
         /\ ((10 <= GraphCtx.amount (GraphRetrievalResult.graph_context g))%Q
             <-> (GraphRetrievalResult.score g == 1)%Q).
Proof.
  destruct (retrieve_Ok self w query query_type top_k)
    as (results & Hrun & Hrows).
  exists results. split; [exact Hrun|]. intros g Hg.
  destruct (Hrows g Hg) as (kind & q & p & row & -> & _).
  cbn [GraphRetriever.result_of_row GraphRetrievalResult.score
       GraphRetrievalResult.graph_context GraphCtx.amount].
  unfold GraphRetriever._calculate_score.
  split; [reflexivity|]. split; [apply Q.le_min_l|]. split.
  - intros Hpos. apply Q.min_glb; [discriminate|].
    apply Qle_shift_div_l; [reflexivity|]. now rewrite Qmult_0_l.
  - split.
    + intros H10. apply Q.min_l. apply Qle_shift_div_l; [reflexivity|].
      now rewrite Qmult_1_l.
    + intros Hone.
      destruct (Qlt_le_dec (row_amount row) 10) as [Hlt|Hle]; [|exact Hle].
      exfalso. assert (Hd : (row_amount row / 10 < 1)%Q).
      { apply Qlt_shift_div_r; [reflexivity|]. now rewrite Qmult_1_l. }
      rewrite Q.min_r in Hone by now apply Qlt_le_weak.
      rewrite Hone in Hd. discriminate.
Qed.

(** *** What [strip] and [split] leave of a string *)

Lemma append_cons (c : ascii) (s t : string) :
  String c s +:+ t = String c (s +:+ t).
Proof. reflexivity. Qed.

Lemma chars_app (s t : string) : chars (s +:+ t) = (chars s ++ chars t)%list.
Proof.
  induction s as [|c s IH]; [reflexivity|].
  rewrite append_cons. cbn [chars list_ascii_of_string app]. f_equal. exact IH.
Qed.

Lemma length_app_string (s t : string) :
  String.length (s +:+ t) = (String.length s + String.length t)%nat.
Proof.
  induction s as [|c s IH]; [reflexivity|].
  rewrite append_cons. cbn [String.length]. now rewrite IH.
Qed.

(** [lstrip] removes a prefix that [lstrip] alone reduces to nothing. *)
Lemma lstrip_split (s : string) :
  exists before, s = before +:+ Str.lstrip s /\ Str.lstrip before = "".
Proof.
  remember (String.length s) as n eqn:Hn. revert s Hn.
  induction n as [n IH] using lt_wf_ind. intros s Hn.
  destruct s as [|c1 s1]; [exists ""; split; reflexivity|].
  cbn [String.length] in Hn. cbn [Str.lstrip].
  destruct (Str.is_space c1) eqn:H1.
  - destruct (IH (String.length s1)) with (s := s1) as (ws & E & Hws);
      [lia|reflexivity|].
    exists (String c1 ws). split.
    + rewrite append_cons. f_equal. exact E.
    + cbn [Str.lstrip]. now rewrite H1.
  - destruct s1 as [|c2 s2]; [exists ""; split; reflexivity|].
    cbn [String.length] in Hn.
    destruct (Str.is_space2 c1 c2) eqn:H2.
    + destruct (IH (String.length s2)) with (s := s2) as (ws & E & Hws);
        [lia|reflexivity|].
      exists (String c1 (String c2 ws)). split.
      * rewrite !append_cons. do 2 f_equal. exact E.
      * cbn [Str.lstrip]. now rewrite H1, H2.
    + destruct s2 as [|c3 s3]; [exists ""; split; reflexivity|].
      cbn [String.length] in Hn.
      destruct (Str.is_space3 c1 c2 c3) eqn:H3;
        [|exists ""; split; reflexivity].
      destruct (IH (String.length s3)) with (s := s3) as (ws & E & Hws);
        [lia|reflexivity|].
      exists (String c1 (String c2 (String c3 ws))). split.
      * rewrite !append_cons. do 3 f_equal. exact E.
      * cbn [Str.lstrip]. now rewrite H1, H2, H3.
Qed.

(** [rstrip] removes a suffix that [rstrip] alone reduces to nothing. *)
Lemma rstrip_split (s : string) :
  exists after, s = Str.rstrip s +:+ after /\ Str.rstrip after = "".
Proof.
  induction s as [|c s (ws & E & Hws)]; [exists ""; split; reflexivity|].
  cbn [Str.rstrip]. cbv zeta.
  destruct (Str.is_space_char (String c (Str.rstrip s))) eqn:Hsp.
  - exists (String c s). split; [reflexivity|].
    cbn [Str.rstrip]. cbv zeta. now rewrite Hsp.
  - exists ws. split; [|exact Hws].
    rewrite append_cons. f_equal. exact E.
Qed.

Lemma rstrip_idem (s : string) : Str.rstrip (Str.rstrip s) = Str.rstrip s.
Proof.
  induction s as [|c s IH]; [reflexivity|]. cbn [Str.rstrip]. cbv zeta.
  destruct (Str.is_space_char (String c (Str.rstrip s))) eqn:Hsp;
    [reflexivity|].
  cbn [Str.rstrip]. cbv zeta. now rewrite IH, Hsp.
Qed.

Lemma lstrip_shorter (s : string) :
  (String.length (Str.lstrip s) <= String.length s)%nat.
Proof.
  destruct (lstrip_split s) as (ws & E & _).
  rewrite E at 2. rewrite length_app_string. lia.
Qed.

(** The strings [lstrip] leaves as they are: those that start with no white
    space character. *)
Lemma lstrip_fixed (s : string) :
  Str.lstrip s = s <-> starts_with_space s = false.
Proof.
  destruct s as [|c1 s1]; [split; reflexivity|].
  cbn [Str.lstrip starts_with_space].
  destruct (Str.is_space c1) eqn:H1.
  { split; [|discriminate]. intros E.
    pose proof (lstrip_shorter s1) as Hl. rewrite E in Hl.
    cbn [String.length] in Hl. lia. }
  cbn [orb]. destruct s1 as [|c2 s2]; [split; reflexivity|].
  destruct (Str.is_space2 c1 c2) eqn:H2.
  { split; [|discriminate]. intros E.
    pose proof (lstrip_shorter s2) as Hl. rewrite E in Hl.
    cbn [String.length] in Hl. lia. }
  cbn [orb]. destruct s2 as [|c3 s3]; [split; reflexivity|].
  destruct (Str.is_space3 c1 c2 c3) eqn:H3; [|split; reflexivity].
  split; [|discriminate]. intros E.
  pose proof (lstrip_shorter s3) as Hl. rewrite E in Hl.
  cbn [String.length] in Hl. lia.
Qed.

(** What [lstrip] returns starts with no white space character. *)
Lemma lstrip_no_space (s : string) : starts_with_space (Str.lstrip s) = false.
Proof.
  remember (String.length s) as n eqn:Hn. revert s Hn.
  induction n as [n IH] using lt_wf_ind. intros s Hn.
  destruct s as [|c1 s1]; [reflexivity|].
  cbn [String.length] in Hn. cbn [Str.lstrip].
  destruct (Str.is_space c1) eqn:H1;
    [apply (IH (String.length s1)); [lia|reflexivity]|].
  destruct s1 as [|c2 s2]; [cbn [starts_with_space]; now rewrite H1|].
  cbn [String.length] in Hn.
  destruct (Str.is_space2 c1 c2) eqn:H2;
    [apply (IH (String.length s2)); [lia|reflexivity]|].
  destruct s2 as [|c3 s3]; [cbn [starts_with_space]; now rewrite H1, H2|].
  cbn [String.length] in Hn.
  destruct (Str.is_space3 c1 c2 c3) eqn:H3;
    [apply (IH (String.length s3)); [lia|reflexivity]|].
  cbn [starts_with_space]. now rewrite H1, H2, H3.
Qed.

(** A prefix of a string that starts with no white space starts with
    none. *)
Lemma prefix_no_space (p rest : string) :
  starts_with_space (p +:+ rest) = false -> starts_with_space p = false.
Proof.
  destruct p as [|c1 [|c2 [|c3 p]]]; [reflexivity| | |].
  - rewrite append_cons. cbn [starts_with_space].
    destruct (Str.is_space c1); [discriminate|reflexivity].
  - rewrite !append_cons. cbn [starts_with_space].
    destruct (Str.is_space c1); [discriminate|].
    destruct (Str.is_space2 c1 c2); [discriminate|reflexivity].
  - rewrite !append_cons. cbn [starts_with_space]. tauto.
Qed.

Lemma strip_idem (s : string) : Str.strip (Str.strip s) = Str.strip s.
Proof.
  unfold Str.strip.
  assert (Hfix : Str.lstrip (Str.rstrip (Str.lstrip s))
                 = Str.rstrip (Str.lstrip s)).
  { apply lstrip_fixed.
    destruct (rstrip_split (Str.lstrip s)) as (ws & E & _).
    apply (prefix_no_space _ ws). rewrite <- E. apply lstrip_no_space. }
  rewrite Hfix. apply rstrip_idem.
Qed.

(** [strip] removes a prefix and a suffix of white space and nothing in
    between. *)
Lemma strip_split (s : string) :
  exists before after,
    s = before +:+ Str.strip s +:+ after
    /\ Str.lstrip before = "" /\ Str.rstrip after = "".
Proof.
  destruct (lstrip_split s) as (before & E1 & Hb).
  destruct (rstrip_split (Str.lstrip s)) as (after & E2 & Ha).
  exists before, after. unfold Str.strip.
  split; [|split; assumption]. now rewrite <- E2.
Qed.

Lemma strip_chars (s : string) (c : ascii) :
  In c (chars (Str.strip s)) -> In c (chars s).
Proof.
  destruct (strip_split s) as (before & after & E & _). intros Hc.
  rewrite E, !chars_app, !in_app_iff. auto.
Qed.

Lemma split_chars (sep : ascii) (s part : string) :
  In part (Str.split sep s) -> ~ In sep (chars part).
Proof.
  revert part. induction s as [|c s IH]; intros part; cbn [Str.split].
  - intros [<-|[]]. cbn. tauto.
  - destruct (Ascii.eqb_spec c sep) as [->|Hne].
    + intros [<-|Hin]; [cbn; tauto|now apply IH].
    + destruct (Str.split sep s) as [|w ws] eqn:Hs.
      * intros [<-|[]]. cbn. intuition congruence.
      * intros [<-|Hin].
        -- cbn [chars list_ascii_of_string In]. intros [E|Hc]; [congruence|].
           apply (IH w); [now left|exact Hc].
        -- apply IH. now right.
Qed.

Lemma split_nonempty (sep : ascii) (s : string) : Str.split sep s <> [].
Proof.
  induction s as [|c s IH]; cbn [Str.split]; [discriminate|].
  destruct (Ascii.eqb c sep); [discriminate|].
  destruct (Str.split sep s); discriminate.
Qed.

Lemma join_cons (sep : string) (c : ascii) (w : string) (ws : list string) :
  Py.join sep (String c w :: ws) = String c (Py.join sep (w :: ws)).
Proof. destruct ws; reflexivity. Qed.

(** [sep.join(s.split(sep))] is [s]. *)
Lemma join_split (sep : ascii) (s : string) :
  Py.join (String sep "") (Str.split sep s) = s.
Proof.
  induction s as [|c s IH]; [reflexivity|]. cbn [Str.split].
  destruct (Ascii.eqb_spec c sep) as [->|Hne].
  - destruct (Str.split sep s) as [|w ws] eqn:Hs;
      [now destruct (split_nonempty sep s)|].
    change (Py.join (String sep "") ("" :: w :: ws))
      with ("" +:+ String sep "" +:+ Py.join (String sep "") (w :: ws)).
    rewrite IH. reflexivity.
  - destruct (Str.split sep s) as [|w ws] eqn:Hs;
      [now destruct (split_nonempty sep s)|].
    rewrite join_cons. now rewrite IH.
Qed.

Lemma filter_sublist {A : Type} (P : A -> bool) (l : list A) :
  List.filter P l `sublist_of` l.
Proof.
  induction l as [|x l IH]; cbn [List.filter]; [constructor|].
  destruct (P x); now constructor.
Qed.

(** X11.  Entity extraction never raises.  Without a client, or when the model
    call fails, the only entity is the query itself.  Otherwise the model
    is asked once; its stripped answer is cut at the commas, and the
    entities are, in the order of the answer, the pieces that are not blank,
    each without the white space around it: every entity is non-empty,
    comma-free, has no white space at either end, and stands in its piece
    between white space only. *)
Theorem extract_entities_clean (self : GraphRetriever.t) (w : World)
        (query query_type : string) :
  exists entities,
    result (GraphRetriever._extract_entities_from_query self w query query_type)
    = Ok entities
    /\ (GraphRetriever.llm_client self = false ->
        entities = [query]
        /\ trace (GraphRetriever._extract_entities_from_query
                    self w query query_type) = [])
    /\ (GraphRetriever.llm_client self = true ->
        trace (GraphRetriever._extract_entities_from_query
                 self w query query_type)
        = [LLMChat EntityPrompt (GraphRetriever.entity_prompt query query_type)
                   (1 # 10) 100]
        /\ match ollama_chat w EntityPrompt
                   (GraphRetriever.entity_prompt query query_type) (1 # 10) 100
           with
           | Raise _ => entities = [query]
           | Ok response =>
               let pieces := Str.split "," (Str.strip response) in
               Py.join "," pieces = Str.strip response
               /\ entities `sublist_of` List.map Str.strip pieces
               /\ (forall piece, In piece pieces ->
                      Str.strip piece <> "" -> In (Str.strip piece) entities)
               /\ (forall e, In e entities ->
                      e <> ""
                      /\ Str.strip e = e
                      /\ ~ In ","%char (chars e)
                      /\ exists piece before after,
                           In piece pieces
                           /\ piece = before +:+ e +:+ after
                           /\ Str.lstrip before = ""
                           /\ Str.rstrip after = "")
           end).
Proof.
  rewrite extract_entities_run.
  destruct (GraphRetriever.llm_client self).
  - cbv zeta. unfold result, trace. cbn [fst snd].
    destruct (ollama_chat w EntityPrompt _ _ _) as [response|ex].
    + eexists. split; [reflexivity|]. split; [discriminate|].
      intros _. split; [reflexivity|].
      split; [apply (join_split ","%char)|].
      split; [apply filter_sublist|]. split.
      * intros piece Hpiece Hne. apply filter_In. split; [now apply in_map|].
        unfold GraphRetriever.nonempty.
        now destruct (String.eqb_spec (Str.strip piece) "").
      * intros e He. apply filter_In in He as [He Hne].
        apply in_map_iff in He as (piece & <- & Hpiece).
        split; [|split; [apply strip_idem|split]].
        -- unfold GraphRetriever.nonempty in Hne.
           destruct (String.eqb_spec (Str.strip piece) "");
             [discriminate|assumption].
        -- intros Hc. apply strip_chars in Hc.
           exact (split_chars _ _ _ Hpiece Hc).
        -- destruct (strip_split piece) as (before & after & E & Hb & Ha).
           now exists piece, before, after.
    + exists [query]. split; [reflexivity|]. split; [discriminate|].
      intros _. split; reflexivity.
  - exists [query]. split; [reflexivity|]. split; [|discriminate].
    intros _. split; reflexivity.
Qed.

(** X12.  With the graph store available and at least one entity extracted,
    [retrieve] runs one Cypher text with the whole [top_k] as limit for the
    three [*_QUESTION] tags, and for any other tag the three texts, each
    with [max(top_k // 3, 5)]; with no entity it runs none. *)
Theorem retrieve_dispatch (self : GraphRetriever.t) (w : World)
        (query query_type : string) (top_k : Z) (entities : list string) :
  Neo4jClient.is_available w = true ->
  result (GraphRetriever._extract_entities_from_query self w query query_type)
  = Ok entities ->
  cypher_runs (trace (GraphRetriever.retrieve self w query query_type top_k))
  = if RAGPipeline.is_empty entities then []
    else
      let scoped := {| cp_names := entities; cp_limit := top_k |} in
      let general := {| cp_names := entities;
                        cp_limit := Z.max (top_k / 3) 5 |} in
      if String.eqb query_type "PERSON_QUESTION" then
        [(PersonCypher, scoped)]
      else if String.eqb query_type "TOPIC_QUESTION" then
        [(TopicCypher, scoped)]
      else if String.eqb query_type "EVENT_QUESTION" then
        [(EventCypher, scoped)]
      else [(PersonCypher, general); (TopicCypher, general);
            (EventCypher, general)].
Proof.
  intros Hup He. unfold GraphRetriever.retrieve. rewrite Hup. cbn [negb].
  rewrite (bind_trace_Ok _ _ entities He). unfold cypher_runs.
  rewrite flat_map_app.
  assert (Hnone : flat_map (fun e => match e with
                                     | Neo4jRun q p => [(q, p)]
                                     | _ => []
                                     end)
                    (trace (GraphRetriever._extract_entities_from_query
                              self w query query_type)) = []).
  { rewrite extract_entities_run.
    now destruct (GraphRetriever.llm_client self). }
  rewrite Hnone. cbn [app].
  assert (Hread : forall q p, read_events w q p = [Neo4jRun q p]).
  { intros q p. unfold read_events. now rewrite Hup. }
  destruct entities as [|e es]; [reflexivity|]. cbn [RAGPipeline.is_empty].
  unfold GraphRetriever._retrieve_by_person, GraphRetriever._retrieve_by_topic,
    GraphRetriever._retrieve_by_event.
  destruct (String.eqb query_type "PERSON_QUESTION");
    [rewrite scoped_run, Hread; reflexivity|].
  destruct (String.eqb query_type "TOPIC_QUESTION");
    [rewrite scoped_run, Hread; reflexivity|].
  destruct (String.eqb query_type "EVENT_QUESTION");
    [rewrite scoped_run, Hread; reflexivity|].
  rewrite retrieve_general_run. cbv zeta. rewrite !Hread. reflexivity.
Qed.

(** A person question in the world where every backend answers. *)
Lemma retrieve_dispatch_witness :
  Neo4jClient.is_available world_ok = true
  /\ cypher_runs (trace (GraphRetriever.retrieve
                           {| GraphRetriever.llm_client := true |} world_ok
                           "Who was Abraham?" "PERSON_QUESTION" 20))
     = [(PersonCypher, {| cp_names := ["Abraham"; "faith"]; cp_limit := 20 |})].
Proof.
  split; [reflexivity|].
  exact (retrieve_dispatch {| GraphRetriever.llm_client := true |} world_ok
           "Who was Abraham?" "PERSON_QUESTION" 20 ["Abraham"; "faith"]
           eq_refl eq_refl).
Defined.

Lemma slice_to_firstn {A : Type} (l : list A) (n : Z) :
  exists m, Py.slice_to l n = firstn m l.
Proof. unfold Py.slice_to. destruct (n <? 0); eauto. Qed.

Lemma StronglySorted_firstn {A : Type} (R : A -> A -> Prop) (l : list A)
      (m : nat) :
  StronglySorted R l -> StronglySorted R (firstn m l).
Proof.
  revert m. induction l as [|x l IH]; intros m Hs.
  - rewrite firstn_nil. constructor.
  - destruct m as [|m]; [constructor|]. cbn [firstn].
    apply StronglySorted_inv in Hs as [Hs Hx]. constructor; [now apply IH|].
    rewrite List.Forall_forall in *. intros y Hy. apply Hx.
    rewrite <- (firstn_skipn m l). apply in_or_app. now left.
Qed.

Lemma StronglySorted_remove {A : Type} (R : A -> A -> Prop) (l1 : list A)
      (x : A) (l2 : list A) :
  StronglySorted R (l1 ++ x :: l2) -> StronglySorted R (l1 ++ l2).
Proof.
  induction l1 as [|a l1 IH]; cbn [app]; intros Hs.
  - now apply StronglySorted_inv in Hs.
  - apply StronglySorted_inv in Hs as [Hs Ha]. constructor; [now apply IH|].
    rewrite List.Forall_forall in *. intros y Hy. apply Ha.
    apply in_app_or in Hy as [Hy|Hy]; apply in_or_app; [now left|].
    right. now right.
Qed.

Lemma StronglySorted_app_inv {A : Type} (R : A -> A -> Prop) (l1 l2 : list A)
      (x y : A) :
  StronglySorted R (l1 ++ l2) -> In x l1 -> In y l2 -> R x y.
Proof.
  induction l1 as [|a l1 IH]; cbn [app]; intros Hs Hx Hy; [destruct Hx|].
  apply StronglySorted_inv in Hs as [Hs Ha]. destruct Hx as [<-|Hx].
  - rewrite List.Forall_forall in Ha. apply Ha, in_or_app. now right.
  - now apply IH.
Qed.

Lemma dedup_sorted
      (R : GraphRetrievalResult.t -> GraphRetrievalResult.t -> Prop)
      (l : list GraphRetrievalResult.t) (seen_ids : gset Z)
      (unique_results : list GraphRetrievalResult.t) :
  StronglySorted R (unique_results ++ l) ->
  StronglySorted R (GraphRetriever.dedup l seen_ids unique_results).
Proof.
  revert seen_ids unique_results.
  induction l as [|r l IH]; intros seen acc Hs; cbn [GraphRetriever.dedup].
  - now rewrite app_nil_r in Hs.
  - destruct (decide (GraphRetrievalResult.id r ∈ seen)).
    + apply IH. now apply StronglySorted_remove in Hs.
    + apply IH. now rewrite <- app_assoc.
Qed.

(** X13.  The general strategy returns its results best first, and drops no
    passage that outranks a returned one: a merged result whose passage is
    not returned has a score no higher than any returned result. *)
Theorem retrieve_general_best_first (w : World) (keywords : list string)
        (top_k : Z) :
  exists results,
    result (GraphRetriever._retrieve_general w keywords top_k) = Ok results
    /\ StronglySorted (desc Qltb GraphRetrievalResult.score) results
    /\ forall r,
         In r (merged_results w keywords (Z.max (top_k / 3) 5)) ->
         ~ In (GraphRetrievalResult.id r)
              (List.map GraphRetrievalResult.id results) ->
         forall x, In x results ->
           (GraphRetrievalResult.score r <= GraphRetrievalResult.score x)%Q.
Proof.
  rewrite retrieve_general_run. unfold result. cbn [snd].
  set (merged := merged_results w keywords (Z.max (top_k / 3) 5)).
  set (sorted := Py.sorted_desc Qltb GraphRetrievalResult.score merged).
  set (unique := GraphRetriever.dedup sorted ∅ []).
  eexists. split; [reflexivity|].
  assert (Hsorted : StronglySorted (desc Qltb GraphRetrievalResult.score)
                                   sorted).
  { apply sorted_desc_sorted.
    - exact (fltb_asym (F:=Q)).
    - exact (fltb_negtrans (F:=Q)). }
  assert (Hunique : StronglySorted (desc Qltb GraphRetrievalResult.score)
                                   unique).
  { apply dedup_sorted. exact Hsorted. }
  destruct (slice_to_firstn unique top_k) as [m ->].
  split; [now apply StronglySorted_firstn|].
  intros r Hr Hid x Hx.
  destruct (dedup_spec sorted ∅ []) as (_ & _ & _ & Hkept).
  { intros i. cbn. set_solver. }
  { constructor. }
  destruct (Hkept r) as (u & Hu & Eid & Hord); [now apply sorted_desc_In|].
  fold unique in Hu.
  assert (Hru : (GraphRetrievalResult.score r
                 <= GraphRetrievalResult.score u)%Q).
  { destruct Hord as [[]|[->|Hp]]; [apply Qle_refl|].
    apply Qltb_ge. exact (StronglySorted_precedes _ _ _ _ Hsorted Hp). }
  assert (Hlate : In u (skipn m unique)).
  { rewrite <- (firstn_skipn m unique) in Hu.
    apply in_app_or in Hu as [Hu|Hu]; [|exact Hu].
    exfalso. apply Hid. rewrite <- Eid. now apply in_map. }
  rewrite <- (firstn_skipn m unique) in Hunique.
  pose proof (StronglySorted_app_inv _ _ _ x u Hunique Hx Hlate) as Hxu.
  apply Qltb_ge in Hxu. exact (Qle_trans _ _ _ Hru Hxu).
Qed.

(** ** [RAGPipeline]: the shape of a response *)

(** What a response of steps 2 to 6 is made of. *)
Lemma respond_Ok_inv (self : RAGPipeline.t) (w : World) (query : string)
      (options : RAGPipeline.Options) (query_type : string)
      (response : QueryResponse.t) :
  result (RAGPipeline.respond self w query options query_type) = Ok response ->
  exists r fused_results segments,
    result (RAGPipeline.run_retrievers self w query query_type options) = Ok r
    /\ RAGPipeline.fuse_and_limit self r (RAGPipeline.max_results_of w options)
       = Ok fused_results
    /\ result (RAGPipeline.answer_for w query
                 (fst (ContextBuilder.build_with_metadata
                         (RAGPipeline.context_builder self) fused_results))
                 query_type fused_results)
       = Ok (QueryResponse.answer response)
    /\ Py.mapM RAGPipeline.segment_of fused_results = Ok segments
    /\ QueryResponse.segments response = segments
    /\ QueryMeta.used_retrievers (QueryResponse.meta response)
       = RAGPipeline.used_retrievers r
    /\ QueryResponse.graph_context response
       = RAGPipeline.graph_context_of (RAGPipeline.graph_context_data r).
Proof.
  unfold RAGPipeline.respond. intros Hrun.
  apply bind_Ok_inv in Hrun as (r & Hr & Hrun).
  apply bind_Ok_inv in Hrun as (fused & Hfused & Hrun).
  exists r, fused.
  destruct (ContextBuilder.build_with_metadata _ fused) as [context metadata].
  apply bind_Ok_inv in Hrun as (answer & Hanswer & Hrun).
  apply bind_Ok_inv in Hrun as (segments & Hsegments & Hrun).
  apply bind_Ok_inv in Hrun as (meta & Hmeta & Hrun).
  cbn in Hrun. injection Hrun as <-. exists segments.
  cbn [QueryResponse.meta QueryResponse.answer QueryResponse.segments
       QueryResponse.graph_context fst].
  unfold RAGPipeline.lift, result, QueryMeta.validate in Hmeta.
  cbn [snd QueryMeta.total_processing_time_ms] in Hmeta.
  destruct (0 <=? _); [|discriminate]. injection Hmeta as <-.
  repeat split; assumption.
Qed.

Lemma substring_length (n : nat) (s : string) :
  (String.length (String.substring 0 n s) <= n)%nat.
Proof.
  revert s. induction n as [|n IH]; intros s.
  - destruct s; cbn; lia.
  - destruct s as [|c s]; cbn; [lia|]. specialize (IH s). lia.
Qed.

Lemma segment_of_Ok (x : FusedResult.t Q) (segment : PericopeSegment.t) :
  RAGPipeline.segment_of x = Ok segment ->
  PericopeSegment.id segment = FusedResult.id x
  /\ PericopeSegment.type segment = "pericope"
  /\ Str.len (PericopeSegment.text_excerpt segment) <= 203
  /\ (Str.len (FusedResult.text x) <= 200 ->
      PericopeSegment.text_excerpt segment = FusedResult.text x)
  /\ (0 <= PericopeSegment.relevance_score segment)%Q
  /\ (PericopeSegment.relevance_score segment <= 1)%Q.
Proof.
  unfold RAGPipeline.segment_of, PericopeSegment.validate.
  cbn [PericopeSegment.relevance_score].
  destruct (Qle_bool 0 _) eqn:H0; [|discriminate].
  destruct (Qle_bool _ 1) eqn:H1; [|discriminate].
  cbn [andb]. intros [= <-].
  cbn [PericopeSegment.id PericopeSegment.type PericopeSegment.text_excerpt
       PericopeSegment.relevance_score].
  apply Qle_bool_iff in H0, H1.
  split; [reflexivity|]. split; [reflexivity|]. split; [|split; [|now split]].
  - destruct (Z.gtb_spec (Str.len (FusedResult.text x)) 200) as [Hlong|Hshort].
    + rewrite len_append. unfold Str.take, Str.len at 1.
      pose proof (substring_length 200 (FusedResult.text x)).
      change (Str.len "...") with 3. lia.
    + lia.
  - intros Hshort.
    destruct (Z.gtb_spec (Str.len (FusedResult.text x)) 200); [lia|reflexivity].
Qed.

Lemma NoDup_map_firstn {A B : Type} (f : A -> B) (l : list A) (m : nat) :
  List.NoDup (List.map f l) -> List.NoDup (List.map f (firstn m l)).
Proof.
  intros Hnd. rewrite <- (firstn_skipn m l), List.map_app in Hnd.
  now apply List.NoDup_app_remove_r in Hnd.
Qed.

Lemma fuse_and_limit_NoDup (self : RAGPipeline.t) (r : RAGPipeline.Retrieved)
      (max_results : Z) (fused_results : list (FusedResult.t Q)) :
  RAGPipeline.fuse_and_limit self r max_results = Ok fused_results ->
  List.NoDup (List.map FusedResult.id fused_results)
  /\ (0 <= max_results ->
      Z.of_nat (length fused_results) <= max_results).
Proof.
  unfold RAGPipeline.fuse_and_limit.
  destruct (RAGPipeline.is_empty (RAGPipeline.result_lists r)).
  - cbn [mbind outcome_bind]. intros [= <-].
    destruct (slice_to_firstn (@nil (FusedResult.t Q)) max_results) as [m ->].
    rewrite firstn_nil. split; [constructor|cbn; lia].
  - destruct (RRFFusion.fuse _ _) as [out|] eqn:Hfuse; [|discriminate].
    cbn [mbind outcome_bind]. intros [= <-]. split.
    + destruct (slice_to_firstn out max_results) as [m ->].
      apply NoDup_map_firstn.
      exact (fused_ids_NoDup _ _ _ (fuse_Ok_items _ _ _ Hfuse)).
    + intros Hmax. now apply slice_to_nonneg.
Qed.

(** X14.  The segments of a response: one per fused result and in the same
    order, so with distinct ids and no more than [max_results] of them;
    each is of type "pericope", with an excerpt of at most 203 characters
    and a relevance score between 0 and 1. *)
Theorem response_segments (self : RAGPipeline.t) (w : World) (query : string)
        (options : RAGPipeline.Options) (query_type : string)
        (response : QueryResponse.t) :
  result (RAGPipeline.respond self w query options query_type) = Ok response ->
  (0 <= RAGPipeline.max_results_of w options ->
   Z.of_nat (length (QueryResponse.segments response))
   <= RAGPipeline.max_results_of w options)
  /\ List.NoDup (List.map PericopeSegment.id (QueryResponse.segments response))
  /\ (forall segment, In segment (QueryResponse.segments response) ->
        PericopeSegment.type segment = "pericope"
        /\ Str.len (PericopeSegment.text_excerpt segment) <= 203
        /\ (0 <= PericopeSegment.relevance_score segment)%Q
        /\ (PericopeSegment.relevance_score segment <= 1)%Q).
Proof.
  intros Hrun.
  apply respond_Ok_inv in Hrun
    as (r & fused & segments & _ & Hfused & _ & Hseg & -> & _).
  apply fuse_and_limit_NoDup in Hfused as [Hnd Hlen].
  pose proof (fun b => mapM_In_inv _ _ _ b Hseg) as Hfrom.
  apply mapM_Forall2 in Hseg.
  assert (Hids : List.map PericopeSegment.id segments
                 = List.map FusedResult.id fused).
  { clear Hnd Hlen Hfrom. induction Hseg as [|x s l l' Hx _ IH]; [reflexivity|].
    cbn [List.map]. apply segment_of_Ok in Hx as [-> _]. now rewrite IH. }
  split; [|split].
  - rewrite <- (List.Forall2_length Hseg). exact Hlen.
  - now rewrite Hids.
  - intros segment Hin.
    destruct (Hfrom segment Hin) as (x & _ & Hx).
    apply segment_of_Ok in Hx as (_ & Ht & He & _ & H0 & H1). auto.
Qed.

(** A person question with the default options in the world where every
    backend answers: at most five segments, no id twice. *)
Lemma response_segments_witness :
  exists response,
    result (RAGPipeline.respond (RAGPipeline.init world_ok true) world_ok
                                "Who was Abraham?" RAGPipeline.no_options
                                "PERSON_QUESTION") = Ok response
    /\ Z.of_nat (length (QueryResponse.segments response)) <= 5
    /\ List.NoDup (List.map PericopeSegment.id
                            (QueryResponse.segments response)).
Proof.
  destruct (result (RAGPipeline.respond (RAGPipeline.init world_ok true)
                      world_ok "Who was Abraham?" RAGPipeline.no_options
                      "PERSON_QUESTION")) as [response|ex] eqn:Hrun;
    [|vm_compute in Hrun; discriminate].
  exists response. split; [reflexivity|].
  destruct (response_segments _ _ _ _ _ _ Hrun) as (Hlen & Hnd & _).
  split; [|exact Hnd]. apply Hlen. vm_compute. discriminate.
Defined.

(** The events of steps 2 to 6 once the fusion returned: those of the
    retrievers, then those of the answer. *)
Lemma respond_trace (self : RAGPipeline.t) (w : World) (query : string)
      (options : RAGPipeline.Options) (query_type : string)
      (r : RAGPipeline.Retrieved) (fused_results : list (FusedResult.t Q)) :
  result (RAGPipeline.run_retrievers self w query query_type options) = Ok r ->
  RAGPipeline.fuse_and_limit self r (RAGPipeline.max_results_of w options)
  = Ok fused_results ->
  trace (RAGPipeline.respond self w query options query_type)
  = (trace (RAGPipeline.run_retrievers self w query query_type options)
     ++ trace (RAGPipeline.answer_for w query
                 (fst (ContextBuilder.build_with_metadata
                         (RAGPipeline.context_builder self) fused_results))
                 query_type fused_results))%list.
Proof.
  unfold RAGPipeline.respond. intros Hr Hfused.
  rewrite (bind_trace_Ok _ _ r Hr). f_equal.
  rewrite (bind_trace_Ok _ _ fused_results) by exact Hfused.
  cbn [RAGPipeline.lift trace fst app].
  destruct (ContextBuilder.build_with_metadata _ fused_results)
    as [context metadata]. cbn [fst].
  rewrite bind_run.
  destruct (result (RAGPipeline.answer_for w query context query_type
                                           fused_results)) as [answer|ex];
    [|reflexivity].
  unfold trace at 1. cbn [fst].
  match goal with |- (_ ++ ?t)%list = _ =>
    enough (Hnil : t = []) by (rewrite Hnil; apply app_nil_r) end.
  unfold RAGPipeline.lift.
  destruct (Py.mapM RAGPipeline.segment_of fused_results) as [segments|];
    [|reflexivity].
  destruct (QueryMeta.validate _); reflexivity.
Qed.

Lemma run_retrievers_no_generation (self : RAGPipeline.t) (w : World)
      (query query_type : string) (options : RAGPipeline.Options) :
  Forall (fun e => is_generation e = false)
         (trace (RAGPipeline.run_retrievers self w query query_type options)).
Proof. apply run_retrievers_events; reflexivity. Qed.

(** X15.  A response has segments exactly when the answer was generated: then
    the run made one answer call, after the retrievals, and the answer is
    the model's reply; with no segment the run made no answer call and the
    answer is the apology.  For [max_results >= 1], there is no segment
    exactly when no retriever is listed as used. *)
Theorem answer_generated_iff_segments (self : RAGPipeline.t) (w : World)
        (query : string) (options : RAGPipeline.Options) (query_type : string)
        (response : QueryResponse.t) :
  result (RAGPipeline.respond self w query options query_type) = Ok response ->
  (QueryResponse.segments response = [] ->
   QueryResponse.answer response = RAGPipeline.apology
   /\ Forall (fun e => is_generation e = false)
             (trace (RAGPipeline.respond self w query options query_type)))
  /\ (QueryResponse.segments response <> [] ->
      exists retrievals prompt,
        trace (RAGPipeline.respond self w query options query_type)
        = (retrievals
           ++ [LLMChat AnswerPrompt prompt (Config.LLM_TEMPERATURE (cfg w))
                       (Config.LLM_MAX_TOKENS (cfg w))])%list
        /\ Forall (fun e => is_generation e = false) retrievals
        /\ ollama_chat w AnswerPrompt prompt (Config.LLM_TEMPERATURE (cfg w))
                       (Config.LLM_MAX_TOKENS (cfg w))
           = Ok (QueryResponse.answer response))
  /\ (1 <= RAGPipeline.max_results_of w options ->
      (QueryResponse.segments response = []
       <-> QueryMeta.used_retrievers (QueryResponse.meta response) = [])).
Proof.
  intros Hrun.
  destruct (respond_Ok_inv _ _ _ _ _ _ Hrun)
    as (r & fused & segments & Hr & Hfused & Hanswer & Hseg & Es & Eu & _).
  rewrite (respond_trace _ _ _ _ _ _ _ Hr Hfused), Es, Eu.
  pose proof (mapM_length _ _ _ Hseg) as Hlen.
  pose proof (run_retrievers_no_generation self w query query_type options)
    as Hnogen.
  unfold RAGPipeline.answer_for in *.
  split; [|split].
  - intros ->. destruct fused; [|discriminate]. cbn [RAGPipeline.is_empty] in *.
    cbn in Hanswer. injection Hanswer as <-. split; [reflexivity|].
    cbn [trace fst mret M_ret]. now rewrite app_nil_r.
  - intros Hne.
    destruct fused as [|x fused]; [destruct segments; [tauto|discriminate]|].
    cbn [RAGPipeline.is_empty] in *.
    rewrite generate_answer_run in *. unfold result, trace in *.
    cbn [fst snd] in *.
    exists (fst (RAGPipeline.run_retrievers self w query query_type options)).
    eexists. split; [reflexivity|]. split; [exact Hnogen|exact Hanswer].
  - intros Hmax. rewrite (run_retrievers_used _ _ _ _ _ _ Hr). split.
    + intros ->. destruct fused; [|discriminate].
      apply fuse_and_limit_nil in Hfused as (-> & -> & ->);
        [reflexivity|exact Hmax].
    + intros Hused.
      assert (Hempty : RAGPipeline.result_lists r = []).
      { unfold RAGPipeline.result_lists.
        destruct (RAGPipeline.is_empty (RAGPipeline.dense_results r));
          [|discriminate].
        destruct (RAGPipeline.is_empty (RAGPipeline.sparse_results r));
          [|discriminate].
        destruct (RAGPipeline.is_empty (RAGPipeline.graph_results r));
          [reflexivity|discriminate]. }
      unfold RAGPipeline.fuse_and_limit in Hfused. rewrite Hempty in Hfused.
      cbn in Hfused. injection Hfused as <-.
      destruct (slice_to_firstn (@nil (FusedResult.t Q))
                  (RAGPipeline.max_results_of w options)) as [m Hm].
      rewrite Hm, firstn_nil in Hlen. now destruct segments.
Qed.

(** The same run: the answer is the reply of the model. *)
Lemma answer_generated_iff_segments_witness :
  exists response,
    result (RAGPipeline.respond (RAGPipeline.init world_ok true) world_ok
                                "Who was Abraham?" RAGPipeline.no_options
                                "PERSON_QUESTION") = Ok response
    /\ QueryResponse.segments response <> []
    /\ QueryResponse.answer response = "An answer.".
Proof.
  destruct (result (RAGPipeline.respond (RAGPipeline.init world_ok true)
                      world_ok "Who was Abraham?" RAGPipeline.no_options
                      "PERSON_QUESTION")) as [response|ex] eqn:Hrun;
    [|vm_compute in Hrun; discriminate].
  exists response. split; [reflexivity|].
  assert (Hne : QueryResponse.segments response <> []).
  { assert (Hval := Hrun). vm_compute in Hval. injection Hval as <-.
    discriminate. }
  split; [exact Hne|].
  destruct (answer_generated_iff_segments _ _ _ _ _ _ Hrun) as (_ & Hgen & _).
  destruct (Hgen Hne) as (retrievals & prompt & _ & _ & Hchat).
  cbn in Hchat. now injection Hchat as <-.
Defined.

Lemma result_lists_length (r : RAGPipeline.Retrieved) :
  (length (RAGPipeline.result_lists r) <= 3)%nat.
Proof.
  unfold RAGPipeline.result_lists.
  destruct (RAGPipeline.is_empty (RAGPipeline.dense_results r)),
    (RAGPipeline.is_empty (RAGPipeline.sparse_results r)),
    (RAGPipeline.is_empty (RAGPipeline.graph_results r)); cbn; lia.
Qed.

Lemma result_lists_NoDup (r : RAGPipeline.Retrieved) :
  List.NoDup (List.map RetrievalResult.id (RAGPipeline.dense_results r)) ->
  List.NoDup (List.map RetrievalResult.id (RAGPipeline.sparse_results r)) ->
  List.NoDup (List.map GraphRetrievalResult.id (RAGPipeline.graph_results r)) ->
  forall sr, In sr (RAGPipeline.result_lists r) ->
             List.NoDup (List.map attr_id (snd sr)).
Proof.
  intros Hd Hs Hg sr. unfold RAGPipeline.result_lists. rewrite !in_app_iff.
  intros [Hin|[Hin|Hin]];
    [destruct (RAGPipeline.is_empty (RAGPipeline.dense_results r))
    |destruct (RAGPipeline.is_empty (RAGPipeline.sparse_results r))
    |destruct (RAGPipeline.is_empty (RAGPipeline.graph_results r))];
    cbn [In] in Hin; try tauto; destruct Hin as [<-|[]]; cbn [snd];
    rewrite List.map_map; assumption.
Qed.

(** What step 3 hands to the fusion is an input within the bounds when each
    retriever returned at most 20 results and no passage twice. *)
Lemma result_lists_pipeline_input (r : RAGPipeline.Retrieved) :
  (length (RAGPipeline.dense_results r) <= 20)%nat ->
  (length (RAGPipeline.sparse_results r) <= 20)%nat ->
  (length (RAGPipeline.graph_results r) <= 20)%nat ->
  List.NoDup (List.map RetrievalResult.id (RAGPipeline.dense_results r)) ->
  List.NoDup (List.map RetrievalResult.id (RAGPipeline.sparse_results r)) ->
  List.NoDup (List.map GraphRetrievalResult.id (RAGPipeline.graph_results r)) ->
  pipeline_input (RAGPipeline.result_lists r).
Proof.
  intros Ld Ls Lg Hd Hs Hg. split; [apply result_lists_length|].
  intros sr Hsr. split; [|now apply (result_lists_NoDup r Hd Hs Hg)].
  unfold RAGPipeline.result_lists in Hsr. rewrite !in_app_iff in Hsr.
  destruct Hsr as [Hsr|[Hsr|Hsr]];
    [destruct (RAGPipeline.is_empty (RAGPipeline.dense_results r))
    |destruct (RAGPipeline.is_empty (RAGPipeline.sparse_results r))
    |destruct (RAGPipeline.is_empty (RAGPipeline.graph_results r))];
    cbn [In] in Hsr; try contradiction; destruct Hsr as [<-|[]];
    cbn [snd]; now rewrite List.length_map.
Qed.

(** X16.  In IEEE binary64 with the default constant 60, when each retriever
    returned at most 20 results and no passage twice: the fusion of step 3
    returns, and for every result kept by the limit the relevance score
    [min(1.0, result.score * 10)] of step 6 is ten times the fused score:
    [min] never caps it, and it lies strictly between 0 and one half, so
    within the bounds of [PericopeSegment.relevance_score]. *)
Theorem relevance_score_uncapped (self : RAGPipeline.t)
        (r : RAGPipeline.Retrieved) (max_results : Z) :
  RRFFusion.k (RAGPipeline.fusion self) = 60 ->
  (length (RAGPipeline.dense_results r) <= 20)%nat ->
  (length (RAGPipeline.sparse_results r) <= 20)%nat ->
  (length (RAGPipeline.graph_results r) <= 20)%nat ->
  List.NoDup (List.map RetrievalResult.id (RAGPipeline.dense_results r)) ->
  List.NoDup (List.map RetrievalResult.id (RAGPipeline.sparse_results r)) ->
  List.NoDup (List.map GraphRetrievalResult.id (RAGPipeline.graph_results r)) ->
  exists out,
    @RRFFusion.fuse float PyFloat_binary64 AnyResult _ (RAGPipeline.fusion self)
                    (RAGPipeline.result_lists r) = Ok out
    /\ forall x, In x (Py.slice_to out max_results) ->
         relevance_binary64 (FusedResult.score x)
         = PrimFloat.mul (FusedResult.score x) 10%float
         /\ PrimFloat.ltb 0%float (relevance_binary64 (FusedResult.score x))
            = true
         /\ PrimFloat.ltb (relevance_binary64 (FusedResult.score x)) 0.5%float
            = true.
Proof.
  intros Hk Ld Ls Lg Hd Hs Hg.
  pose proof (result_lists_pipeline_input r Ld Ls Lg Hd Hs Hg) as Hin.
  destruct (fuse_binary64_pipeline (RAGPipeline.fusion self)
              (RAGPipeline.result_lists r) Hk Hin) as (out & Hrun & Hout).
  exists out. split; [exact Hrun|]. intros x Hx. apply slice_to_In in Hx.
  destruct (Hout x Hx) as (-> & Hne & _ & Hlen & Hranks).
  destruct (binary64_score_sound _ Hne Hlen Hranks)
    as (_ & _ & _ & Heq & Hpos & Hhalf).
  rewrite Heq. auto.
Qed.

(** On what step 2 leaves behind on the input of scenario B. *)
Lemma relevance_score_uncapped_witness :
  exists out,
    @RRFFusion.fuse float PyFloat_binary64 AnyResult _
                    (RRFFusion.init Config.settings None)
                    (RAGPipeline.result_lists retrieved_B) = Ok out
    /\ List.map FusedResult.id out = [1; 2; 3]
    /\ forall x, In x out ->
         PrimFloat.ltb (relevance_binary64 (FusedResult.score x)) 0.5%float
         = true.
Proof.
  destruct (relevance_score_uncapped (RAGPipeline.init world_ok true)
              retrieved_B 5) as (out & Hrun & Hout).
  - reflexivity.
  - cbn; lia.
  - cbn; lia.
  - cbn; lia.
  - cbn. repeat (apply List.NoDup_cons; [cbn; intuition discriminate|]).
    apply List.NoDup_nil.
  - cbn. repeat (apply List.NoDup_cons; [cbn; intuition discriminate|]).
    apply List.NoDup_nil.
  - apply List.NoDup_nil.
  - exists out. split; [exact Hrun|].
    assert (Hval := Hrun). vm_compute in Hval. injection Hval as <-.
    split; [reflexivity|].
    intros x Hx. apply Hout. exact Hx.
Defined.

(** ** [RAGPipeline]: graph context, used retrievers, calls and failures *)

Lemma gather_spec (kind : string) (results : list GraphRetrievalResult.t)
      (acc : gset string) (name : string) :
  name ∈ RAGPipeline.gather kind results acc
  <-> name ∈ acc \/ names_of_kind kind results name.
Proof.
  revert acc. induction results as [|r results IH]; intros acc;
    cbn [RAGPipeline.gather].
  - split; [tauto|]. intros [?|(r & [] & _)]. assumption.
  - destruct (String.eqb_spec
                (GraphCtx.type (GraphRetrievalResult.graph_context r)) kind)
      as [Ek|Hne]; rewrite IH.
    + rewrite elem_of_union, elem_of_list_to_set, list_elem_of_In. split.
      * intros [[?|Hin]|(r' & Hr' & ?)]; [now left| |].
        -- right. exists r. split; [now left|]. now split.
        -- right. exists r'. split; [now right|assumption].
      * intros [?|(r' & [<-|Hr'] & Ht & Hn)]; [tauto|tauto|].
        right. exists r'. now split.
    + split.
      * intros [?|(r' & Hr' & ?)]; [now left|].
        right. exists r'. split; [now right|assumption].
      * intros [?|(r' & [<-|Hr'] & Ht & Hn)]; [tauto|congruence|].
        right. exists r'. now split.
Qed.

Lemma first_elements (X : gset string) (n : nat) :
  (length (firstn n (elements X)) <= n)%nat
  /\ List.NoDup (firstn n (elements X))
  /\ (forall name, In name (firstn n (elements X)) -> name ∈ X)
  /\ ((length (firstn n (elements X)) < n)%nat ->
      forall name, name ∈ X -> In name (firstn n (elements X))).
Proof.
  split; [apply List.firstn_le_length|]. split; [|split].
  - apply NoDup_ListNoDup.
    apply (sublist_NoDup _ (elements X)); [apply NoDup_elements|].
    apply sublist_take.
  - intros name Hin. apply elem_of_elements, list_elem_of_In.
    rewrite <- (firstn_skipn n (elements X)). apply in_or_app. now left.
  - intros Hlt name Hin. rewrite List.firstn_all2.
    + now apply list_elem_of_In, elem_of_elements.
    + rewrite List.length_firstn in Hlt. lia.
Qed.

(** X17.  [_build_graph_context] lists at most ten topics and ten persons, none
    twice.  The topics are entity names of results of type "topic" and the
    persons of results of type "person"; results of type "event" add to
    neither.  A list shorter than ten holds every such name. *)
Theorem build_graph_context_bounded (results : list GraphRetrievalResult.t) :
  let topics := fst (RAGPipeline._build_graph_context results) in
  let persons := snd (RAGPipeline._build_graph_context results) in
  (length topics <= 10)%nat
  /\ (length persons <= 10)%nat
  /\ List.NoDup topics
  /\ List.NoDup persons
  /\ (forall name, In name topics -> names_of_kind "topic" results name)
  /\ (forall name, In name persons -> names_of_kind "person" results name)
  /\ ((length topics < 10)%nat ->
      forall name, names_of_kind "topic" results name -> In name topics)
  /\ ((length persons < 10)%nat ->
      forall name, names_of_kind "person" results name -> In name persons).
Proof.
  intros topics persons. subst topics persons.
  unfold RAGPipeline._build_graph_context. cbn [fst snd].
  destruct (first_elements (RAGPipeline.gather "topic" results ∅) 10)
    as (Ht1 & Ht2 & Ht3 & Ht4).
  destruct (first_elements (RAGPipeline.gather "person" results ∅) 10)
    as (Hp1 & Hp2 & Hp3 & Hp4).
  assert (Hspec : forall kind name,
             name ∈ RAGPipeline.gather kind results ∅
             <-> names_of_kind kind results name).
  { intros kind name. rewrite gather_spec.
    pose proof (not_elem_of_empty (C:=gset string) name). tauto. }
  repeat split; auto.
  - intros name Hin. now apply Hspec, Ht3.
  - intros name Hin. now apply Hspec, Hp3.
  - intros Hlt name Hin. now apply Ht4, Hspec.
  - intros Hlt name Hin. now apply Hp4, Hspec.
Qed.

Lemma build_graph_context_aux (results : list GraphRetrievalResult.t) :
  (length (fst (RAGPipeline._build_graph_context results)) <= 10)%nat
  /\ (length (snd (RAGPipeline._build_graph_context results)) <= 10)%nat.
Proof.
  unfold RAGPipeline._build_graph_context. cbn [fst snd].
  split; apply List.firstn_le_length.
Qed.

Lemma run_graph_context (self : RAGPipeline.t) (w : World)
      (query query_type : string) (options : RAGPipeline.Options)
      (used : list string) (g : list GraphRetrievalResult.t)
      (c : list string * list string) (u : list string) :
  result (RAGPipeline.run_graph self w query query_type options used)
  = Ok (g, c, u) ->
  c = if RAGPipeline.is_empty g then ([], [])
      else RAGPipeline._build_graph_context g.
Proof.
  unfold RAGPipeline.run_graph.
  destruct (RAGPipeline.graph_retriever self) as [retriever|];
    [destruct (default true _ && Neo4jClient.is_available w)|].
  - rewrite try_except_run, bind_run.
    destruct (result (GraphRetriever.retrieve _ _ _ _ _)) as [g'|e];
      unfold result; cbn [fst snd mret M_ret].
    + destruct g'; cbn [RAGPipeline.is_empty]; intros Hr;
        injection Hr as <- <- <-; reflexivity.
    + intros Hr. now injection Hr as <- <- <-.
  - cbn. intros Hr. now injection Hr as <- <- <-.
  - cbn. intros Hr. now injection Hr as <- <- <-.
Qed.

Lemma run_retrievers_context (self : RAGPipeline.t) (w : World)
      (query query_type : string) (options : RAGPipeline.Options)
      (r : RAGPipeline.Retrieved) :
  result (RAGPipeline.run_retrievers self w query query_type options) = Ok r ->
  RAGPipeline.graph_context_data r
  = if RAGPipeline.is_empty (RAGPipeline.graph_results r) then ([], [])
    else RAGPipeline._build_graph_context (RAGPipeline.graph_results r).
Proof.
  unfold RAGPipeline.run_retrievers. intros Hr.
  apply bind_Ok_inv in Hr as ([d u1] & Hd & Hr).
  apply bind_Ok_inv in Hr as ([s u2] & Hs & Hr).
  apply bind_Ok_inv in Hr as ([[g c] u3] & Hg & Hr).
  unfold result in Hr. cbn [snd mret M_ret] in Hr. injection Hr as <-.
  cbn [RAGPipeline.graph_context_data RAGPipeline.graph_results].
  exact (run_graph_context _ _ _ _ _ _ _ _ _ Hg).
Qed.

(** X18.  The retrievers a response lists are some of "dense", "sparse" and
    "graph", in this order.  "graph" is listed only when the pipeline has a
    graph retriever, the option [include_graph] is not false and the graph
    store is available; and only then can the response carry a graph
    context, which names at most ten topics and ten persons, one of the two
    lists not empty. *)
Theorem response_used_retrievers (self : RAGPipeline.t) (w : World)
        (query : string) (options : RAGPipeline.Options) (query_type : string)
        (response : QueryResponse.t) :
  result (RAGPipeline.respond self w query options query_type) = Ok response ->
  QueryMeta.used_retrievers (QueryResponse.meta response)
    `sublist_of` ["dense"; "sparse"; "graph"]
  /\ (In "graph" (QueryMeta.used_retrievers (QueryResponse.meta response)) ->
      RAGPipeline.graph_retriever self <> None
      /\ RAGPipeline.opt_include_graph options <> Some false
      /\ Neo4jClient.is_available w = true)
  /\ (forall c, QueryResponse.graph_context response = Some c ->
        In "graph" (QueryMeta.used_retrievers (QueryResponse.meta response))
        /\ (length (GraphContext.related_topics c) <= 10)%nat
        /\ (length (GraphContext.related_persons c) <= 10)%nat
        /\ (GraphContext.related_topics c <> []
            \/ GraphContext.related_persons c <> [])).
Proof.
  intros Hrun.
  destruct (respond_Ok_inv _ _ _ _ _ _ Hrun)
    as (r & fused & segments & Hr & _ & _ & _ & _ & -> & ->).
  pose proof (run_retrievers_used _ _ _ _ _ _ Hr) as Hused.
  pose proof (run_retrievers_context _ _ _ _ _ _ Hr) as Hctx.
  split; [|split].
  - rewrite Hused.
    destruct (RAGPipeline.is_empty (RAGPipeline.dense_results r)),
      (RAGPipeline.is_empty (RAGPipeline.sparse_results r)),
      (RAGPipeline.is_empty (RAGPipeline.graph_results r)); cbn [app];
      repeat first
        [apply sublist_nil_l | apply sublist_skip | apply sublist_cons].
  - intros Hin.
    assert (Hnot : ~ (RAGPipeline.opt_include_graph options = Some false
                      \/ RAGPipeline.graph_retriever self = None
                      \/ Neo4jClient.is_available w = false)).
    { intros Hskip.
      rewrite (run_retrievers_skipped _ _ _ _ _ Hskip) in Hr.
      now apply retrieve_dense_sparse_used in Hr as [_ Hno]. }
    destruct (Neo4jClient.is_available w); tauto.
  - intros c Hc. rewrite Hctx in Hc. rewrite Hused.
    destruct (RAGPipeline.graph_results r) as [|g gs] eqn:Hg;
      cbn [RAGPipeline.is_empty] in *; [discriminate|].
    split; [rewrite !in_app_iff; cbn; tauto|].
    destruct (build_graph_context_aux (g :: gs)) as (Ht & Hp).
    unfold RAGPipeline.graph_context_of in Hc.
    destruct (RAGPipeline._build_graph_context (g :: gs)) as [topics persons].
    cbn [fst snd] in *.
    destruct topics as [|t ts], persons as [|p ps];
      cbn [RAGPipeline.is_empty andb] in Hc;
      [discriminate| | |]; injection Hc as <-;
      cbn [GraphContext.related_topics GraphContext.related_persons];
      (split; [exact Ht|split; [exact Hp|]]);
      [right|left|left]; discriminate.
Qed.

(** The run of a person question with the default options. *)
Lemma response_used_retrievers_witness :
  exists response,
    result (RAGPipeline.respond (RAGPipeline.init world_ok true) world_ok
                                "Who was Abraham?" RAGPipeline.no_options
                                "PERSON_QUESTION") = Ok response
    /\ QueryMeta.used_retrievers (QueryResponse.meta response)
       = ["dense"; "sparse"; "graph"]
    /\ QueryMeta.used_retrievers (QueryResponse.meta response)
         `sublist_of` ["dense"; "sparse"; "graph"].
Proof.
  destruct (result (RAGPipeline.respond (RAGPipeline.init world_ok true)
                      world_ok "Who was Abraham?" RAGPipeline.no_options
                      "PERSON_QUESTION")) as [response|ex] eqn:Hrun;
    [|vm_compute in Hrun; discriminate].
  exists response. split; [reflexivity|]. split.
  - assert (Hval := Hrun). vm_compute in Hval. now injection Hval as <-.
  - now destruct (response_used_retrievers _ _ _ _ _ _ Hrun) as (Hsub & _).
Defined.

(** *** The calls of a request *)

Lemma calls_bind {A B : Type} (m : M A) (f : A -> M B) (l1 l2 : list string) :
  calls m `sublist_of` l1 -> (forall a, calls (f a) `sublist_of` l2) ->
  calls (m ≫= f) `sublist_of` (l1 ++ l2)%list.
Proof.
  intros H1 H2. unfold calls in *. rewrite bind_run.
  destruct (result m) as [a|ex]; unfold trace at 1; cbn [fst].
  - rewrite List.map_app. now apply sublist_app.
  - now apply sublist_inserts_r.
Qed.

Lemma calls_try {A : Type} (body : M A) (handler : exn -> M A)
      (l : list string) :
  calls body `sublist_of` l -> (forall e, trace (handler e) = []) ->
  calls (try_except body handler) `sublist_of` l.
Proof.
  intros Hb Hh. unfold calls in *. rewrite try_except_run.
  destruct (result body) as [a|ex]; unfold trace at 1; cbn [fst];
    [exact Hb|].
  now rewrite Hh, app_nil_r.
Qed.

Lemma calls_nil {A : Type} (m : M A) (l : list string) :
  trace m = [] -> calls m `sublist_of` l.
Proof. unfold calls. intros ->. apply sublist_nil_l. Qed.

Lemma calls_classify (w : World) (query mode : string) :
  calls (RAGPipeline.classify w query mode) `sublist_of` ["classify"].
Proof.
  unfold RAGPipeline.classify. destruct (String.eqb mode "auto");
    [|now apply calls_nil].
  unfold calls. rewrite classify_query_run. reflexivity.
Qed.

Lemma calls_run_dense (w : World) (query : string) (used : list string) :
  calls (RAGPipeline.run_dense w query used) `sublist_of` ["dense"].
Proof.
  unfold RAGPipeline.run_dense. apply calls_try; [|reflexivity].
  rewrite <- (app_nil_r ["dense"]). apply calls_bind; [reflexivity|].
  intros a. now apply calls_nil.
Qed.

Lemma calls_run_sparse (w : World) (query : string) (used : list string) :
  calls (RAGPipeline.run_sparse w query used) `sublist_of` ["sparse"].
Proof.
  unfold RAGPipeline.run_sparse. apply calls_try; [|reflexivity].
  rewrite <- (app_nil_r ["sparse"]). apply calls_bind; [reflexivity|].
  intros a. now apply calls_nil.
Qed.

Lemma calls_scoped (w : World) (query : Cypher) (kind : string)
      (names : list string) (top_k : Z) :
  calls (GraphRetriever.scoped w query kind names top_k)
  `sublist_of` [cypher_name query].
Proof.
  unfold calls. rewrite scoped_run. unfold trace, read_events. cbn [fst].
  destruct (Neo4jClient.is_available w); [reflexivity|apply sublist_nil_l].
Qed.

Lemma calls_retrieve (self : GraphRetriever.t) (w : World)
      (query query_type : string) (top_k : Z) :
  calls (GraphRetriever.retrieve self w query query_type top_k)
  `sublist_of` ["extract"; "person"; "topic"; "event"].
Proof.
  unfold GraphRetriever.retrieve.
  destruct (negb (Neo4jClient.is_available w)); [now apply calls_nil|].
  apply (calls_bind _ _ ["extract"] ["person"; "topic"; "event"]).
  - unfold calls. rewrite extract_entities_run.
    destruct (GraphRetriever.llm_client self);
      [reflexivity|apply sublist_nil_l].
  - intros [|e es]; [now apply calls_nil|].
    assert (Hone : forall q kind,
               calls (GraphRetriever.scoped w q kind (e :: es) top_k)
               `sublist_of` ["person"; "topic"; "event"]).
    { intros q kind. transitivity [cypher_name q]; [apply calls_scoped|].
      destruct q; cbn [cypher_name];
        repeat first [apply sublist_nil_l|apply sublist_skip
                     |apply sublist_cons]. }
    destruct (String.eqb query_type "PERSON_QUESTION"); [apply Hone|].
    destruct (String.eqb query_type "TOPIC_QUESTION"); [apply Hone|].
    destruct (String.eqb query_type "EVENT_QUESTION"); [apply Hone|].
    unfold GraphRetriever._retrieve_general.
    apply (calls_bind _ _ ["person"] ["topic"; "event"]);
      [apply (calls_scoped w PersonCypher)|].
    intros person.
    apply (calls_bind _ _ ["topic"] ["event"]);
      [apply (calls_scoped w TopicCypher)|].
    intros topic. rewrite <- (app_nil_r ["event"]).
    apply calls_bind; [apply (calls_scoped w EventCypher)|].
    intros event. now apply calls_nil.
Qed.

Lemma calls_run_graph (self : RAGPipeline.t) (w : World)
      (query query_type : string) (options : RAGPipeline.Options)
      (used : list string) :
  calls (RAGPipeline.run_graph self w query query_type options used)
  `sublist_of` ["extract"; "person"; "topic"; "event"].
Proof.
  unfold RAGPipeline.run_graph.
  destruct (RAGPipeline.graph_retriever self) as [retriever|];
    [|now apply calls_nil].
  destruct (_ && _); [|now apply calls_nil].
  apply calls_try; [|reflexivity].
  rewrite <- (app_nil_r [_; _; _; _]).
  apply calls_bind; [apply calls_retrieve|].
  intros a. now apply calls_nil.
Qed.

Lemma calls_run_retrievers (self : RAGPipeline.t) (w : World)
      (query query_type : string) (options : RAGPipeline.Options) :
  calls (RAGPipeline.run_retrievers self w query query_type options)
  `sublist_of` ["dense"; "sparse"; "extract"; "person"; "topic"; "event"].
Proof.
  unfold RAGPipeline.run_retrievers.
  apply (calls_bind _ _ ["dense"] [_; _; _; _; _]); [apply calls_run_dense|].
  intros [d u1].
  apply (calls_bind _ _ ["sparse"] [_; _; _; _]); [apply calls_run_sparse|].
  intros [s u2]. rewrite <- (app_nil_r [_; _; _; _]).
  apply calls_bind; [apply calls_run_graph|].
  intros [[g c] u3]. now apply calls_nil.
Qed.

Lemma calls_respond (self : RAGPipeline.t) (w : World) (query : string)
      (options : RAGPipeline.Options) (query_type : string) :
  calls (RAGPipeline.respond self w query options query_type)
  `sublist_of` ["dense"; "sparse"; "extract"; "person"; "topic"; "event";
                "answer"].
Proof.
  unfold RAGPipeline.respond.
  apply (calls_bind _ _ [_; _; _; _; _; _] ["answer"]);
    [apply calls_run_retrievers|].
  intros r. apply (calls_bind _ _ [] ["answer"]); [now apply calls_nil|].
  intros fused. destruct (ContextBuilder.build_with_metadata _ fused)
    as [context metadata].
  rewrite <- (app_nil_r ["answer"]). apply calls_bind.
  - unfold RAGPipeline.answer_for. destruct (RAGPipeline.is_empty fused);
      [now apply calls_nil|].
    unfold calls. rewrite generate_answer_run. reflexivity.
  - intros answer. apply (calls_bind _ _ [] []); [now apply calls_nil|].
    intros segments. apply (calls_bind _ _ [] []); now intros; apply calls_nil.
Qed.

(** X19.  Whatever the request and the backends do, the calls of a request are
    a subsequence of: one classification, one dense and one sparse
    retrieval, one entity extraction, one run of the person Cypher, one of
    the topic Cypher, one of the event Cypher, one answer generation.  No
    call is made twice, and none out of this order. *)
Theorem request_call_order (w : World) (b : QueryRequest.body) :
  calls (QueryEndpoint.post w b) `sublist_of` call_order.
Proof.
  unfold QueryEndpoint.post.
  apply (calls_bind _ _ [] call_order); [now apply calls_nil|].
  intros request. unfold QueryEndpoint.execute_query.
  apply calls_try; [|reflexivity].
  apply (calls_bind _ _ [] call_order); [now apply calls_nil|].
  intros embed_service.
  apply (calls_bind _ _ [] call_order); [now apply calls_nil|].
  intros llm_client. unfold RAGPipeline.execute.
  apply (calls_bind _ _ ["classify"] [_; _; _; _; _; _; _]);
    [apply calls_classify|].
  intros query_type. apply calls_respond.
Qed.

(** *** The failures of a request *)

Lemma validate_Raise (b : QueryRequest.body) (e : exn) :
  QueryRequest.validate b = Raise e -> e = ValidationError.
Proof.
  unfold QueryRequest.validate.
  destruct (negb _); [now intros [= <-]|].
  destruct (QueryRequest.body_mode b) as [s|].
  - unfold QueryMode.of_value. destruct (List.find _ QueryMode.all);
      cbn [mbind outcome_bind]; [|now intros [= <-]].
    unfold QueryOptions.validate. destruct (_ && _); cbn; [discriminate|].
    now intros [= <-].
  - cbn [mbind outcome_bind]. unfold QueryOptions.validate.
    destruct (_ && _); cbn; [discriminate|]. now intros [= <-].
Qed.

Lemma bind_Raise_inv {A B : Type} (m : M A) (f : A -> M B) (e : exn) :
  result (m ≫= f) = Raise e ->
  result m = Raise e \/ exists a, result m = Ok a /\ result (f a) = Raise e.
Proof.
  rewrite bind_run.
  destruct (result m) as [a|ex]; unfold result at 1; cbn [snd].
  - intros Hf. right. now exists a.
  - intros [= <-]. now left.
Qed.

(** With a fusion constant that is not negative and a clock that does not
    step back, steps 2 to 6 fail only when the answer generation fails. *)
Lemma respond_Raise_inv (self : RAGPipeline.t) (w : World) (query : string)
      (options : RAGPipeline.Options) (query_type : string) (e : exn) :
  0 <= RRFFusion.k (RAGPipeline.fusion self) ->
  (time_time w 0 <= time_time w 1)%Q ->
  result (RAGPipeline.respond self w query options query_type) = Raise e ->
  exists prompt t n, ollama_chat w AnswerPrompt prompt t n = Raise e.
Proof.
  intros Hk Hclock. unfold RAGPipeline.respond. intros Hrun.
  destruct (run_retrievers_total self w query query_type options) as [r Hr].
  apply bind_Raise_inv in Hrun as [Hrun|(r' & Hr' & Hrun)]; [congruence|].
  rewrite Hr in Hr'. injection Hr' as <-.
  destruct (fuse_and_limit_total self r (RAGPipeline.max_results_of w options)
              Hk) as (fused & Hfused & Hscores).
  apply bind_Raise_inv in Hrun as [Hrun|(fused' & Hf' & Hrun)].
  { unfold RAGPipeline.lift, result in Hrun. cbn [snd] in Hrun. congruence. }
  unfold RAGPipeline.lift, result in Hf'. cbn [snd] in Hf'.
  rewrite Hfused in Hf'. injection Hf' as <-.
  destruct (ContextBuilder.build_with_metadata _ fused) as [context metadata].
  apply bind_Raise_inv in Hrun as [Hrun|(answer & _ & Hrun)].
  { unfold RAGPipeline.answer_for in Hrun.
    destruct (RAGPipeline.is_empty fused); [discriminate|].
    rewrite generate_answer_run in Hrun. unfold result in Hrun.
    cbn [snd] in Hrun. eauto. }
  exfalso.
  destruct (mapM_total RAGPipeline.segment_of fused) as [segments Hseg].
  { intros x Hx. apply segment_of_total. now apply Hscores. }
  apply bind_Raise_inv in Hrun as [Hrun|(segments' & _ & Hrun)].
  { unfold RAGPipeline.lift, result in Hrun. cbn [snd] in Hrun. congruence. }
  apply bind_Raise_inv in Hrun as [Hrun|(meta & _ & Hrun)]; [|discriminate].
  unfold RAGPipeline.lift, result, QueryMeta.validate in Hrun.
  cbn [snd QueryMeta.total_processing_time_ms] in Hrun.
  apply elapsed_nonneg in Hclock. apply Z.leb_le in Hclock.
  now rewrite Hclock in Hrun.
Qed.

(** X20.  A request fails in one of two ways.  A body that does not validate is
    refused with a [ValidationError] before any backend is called.  A
    valid request fails only as [HTTPException(500)]; with a fusion
    constant that is not negative and stays within the range of [float]
    whatever rank is added to it, and a clock that does not step back, the
    cause is then that the embedding service or the LLM client could not be
    had, or a failure of the language model at classification or at answer
    generation: no failure of a retriever fails the request. *)
Theorem request_failures (w : World) (b : QueryRequest.body) (e : exn) :
  result (QueryEndpoint.post w b) = Raise e ->
  (e = ValidationError
   /\ QueryRequest.validate b = Raise ValidationError
   /\ trace (QueryEndpoint.post w b) = [])
  \/ (exists request cause,
        QueryRequest.validate b = Ok request
        /\ e = HTTPException 500 cause
        /\ (0 <= Config.RRF_K (cfg w) ->
            float_range (Config.RRF_K (cfg w) + maxsize) ->
            (time_time w 0 <= time_time w 1)%Q ->
            get_embedding_service w = Raise cause
            \/ get_llm_client w = Raise cause
            \/ exists prompt t n,
                 (ollama_chat w ClassifierPrompt prompt t n = Raise cause
                  \/ ollama_chat w AnswerPrompt prompt t n = Raise cause))).
Proof.
  unfold QueryEndpoint.post. rewrite bind_run.
  unfold RAGPipeline.lift at 1 2, result at 1, trace at 1 2. cbn [fst snd].
  destruct (QueryRequest.validate b) as [request|e'] eqn:Hv.
  - intros Hrun. right. exists request.
    unfold result in Hrun. cbn [snd] in Hrun.
    fold (result (QueryEndpoint.execute_query w request)) in Hrun.
    rewrite execute_query_run, try_except_run in Hrun.
    destruct (result (_ ≫= _)) as [response|cause] eqn:Hbody;
      unfold result in Hrun; cbn [snd] in Hrun; [discriminate|].
    unfold RAGPipeline.lift in Hrun. cbn [snd] in Hrun. injection Hrun as <-.
    exists cause. split; [reflexivity|]. split; [reflexivity|].
    intros Hk _ Hclock.
    apply bind_Raise_inv in Hbody as [He|(embed_service & _ & Hbody)];
      [now left|].
    apply bind_Raise_inv in Hbody as [Hl|(llm_client & _ & Hbody)];
      [right; now left|].
    right. right.
    apply bind_Raise_inv in Hbody as [Hc|(query_type & _ & Hr)].
    + unfold RAGPipeline.classify in Hc.
      destruct (String.eqb _ "auto"); [|discriminate].
      rewrite classify_query_run in Hc. unfold result in Hc. cbn [snd] in Hc.
      destruct (ollama_chat w ClassifierPrompt _ _ _) eqn:Hchat;
        [discriminate|].
      injection Hc as <-. eauto 6.
    + apply respond_Raise_inv in Hr as (prompt & t & n & Hchat);
        [eauto 6| |exact Hclock].
      cbn. unfold Py.int_or. exact Hk.
  - intros [= <-]. left. apply validate_Raise in Hv as ->. now split.
Qed.

(** With the language model down, a valid request in mode "auto" fails with
    the failure of a call of the model. *)
Lemma request_failures_witness :
  result (QueryEndpoint.post world_llm_down plain_body)
  = Raise (HTTPException 500 (BackendError "ollama"))
  /\ exists prompt t n,
       ollama_chat world_llm_down ClassifierPrompt prompt t n
       = Raise (BackendError "ollama")
       \/ ollama_chat world_llm_down AnswerPrompt prompt t n
          = Raise (BackendError "ollama").
Proof.
  assert (Hrun : result (QueryEndpoint.post world_llm_down plain_body)
                 = Raise (HTTPException 500 (BackendError "ollama")))
    by (vm_compute; reflexivity).
  split; [exact Hrun|].
  destruct (request_failures _ _ _ Hrun)
    as [(E & _)|(request & cause & Hv & E & Hcause)]; [discriminate|].
  injection E as <-.
  destruct Hcause as [He|[Hl|Hchat]].
  - vm_compute. discriminate.
  - unfold float_range. vm_compute. reflexivity.
  - vm_compute. discriminate.
  - discriminate.
  - discriminate.
  - exact Hchat.
Defined.

(** ** [SparseRetriever.retrieve] and [DenseRetriever.retrieve] *)

Lemma normalized_score_range (raw_rank : Q) :
  (0 <= SparseRetriever.normalized_score raw_rank)%Q
  /\ (SparseRetriever.normalized_score raw_rank <= 1)%Q
  /\ ((0 < SparseRetriever.normalized_score raw_rank)%Q <-> (0 < raw_rank)%Q).
Proof.
  unfold SparseRetriever.normalized_score.
  destruct (Qltb 0 raw_rank) eqn:Hpos.
  - apply Qltb_lt in Hpos.
    assert (Hd : (0 < raw_rank / (1 # 2))%Q).
    { apply Qlt_shift_div_l; [reflexivity|]. now rewrite Qmult_0_l. }
    split; [|split; [apply Q.le_min_l|]].
    + apply Q.min_glb; [discriminate|now apply Qlt_le_weak].
    + split; [intros _; exact Hpos|]. intros _.
      apply Q.min_glb_lt; [reflexivity|exact Hd].
  - apply Qltb_ge in Hpos. split; [apply Qle_refl|]. split; [discriminate|].
    split; [intros H; discriminate H|]. intros H.
    exfalso. exact (Qlt_not_le _ _ H Hpos).
Qed.

Lemma dict_set_keys (key : Z) (value : Q) (d : list (Z * Q)) :
  List.map fst (SparseRetriever.dict_set key value d)
  = (List.map fst d ++ if has_key (List.map fst d) key then [] else [key])%list.
Proof.
  induction d as [|[k v] d IH]; [reflexivity|].
  cbn [SparseRetriever.dict_set List.map fst has_key existsb].
  destruct (Z.eqb_spec k key) as [->|Hne]; cbn [orb List.map fst].
  - now rewrite app_nil_r.
  - rewrite IH. reflexivity.
Qed.

Lemma has_key_In (keys : list Z) (y : Z) : has_key keys y = true <-> In y keys.
Proof.
  unfold has_key. rewrite existsb_exists. split.
  - intros (j & Hj & E). apply Z.eqb_eq in E. now subst.
  - intros Hy. exists y. split; [exact Hy|apply Z.eqb_refl].
Qed.

Lemma ranks_dict_keys (rows : list (Z * Q)) :
  List.NoDup (List.map fst (SparseRetriever.ranks_dict rows))
  /\ forall i, In i (List.map fst (SparseRetriever.ranks_dict rows))
               <-> In i (List.map fst rows).
Proof.
  unfold SparseRetriever.ranks_dict.
  enough (Hgen : forall d,
             List.NoDup (List.map fst d) ->
             List.NoDup
               (List.map fst
                  (fold_left
                     (fun d row =>
                        SparseRetriever.dict_set (fst row) (snd row) d)
                     rows d))
             /\ forall i,
                  In i (List.map fst
                          (fold_left
                             (fun d row =>
                                SparseRetriever.dict_set (fst row) (snd row) d)
                             rows d))
                  <-> In i (List.map fst d) \/ In i (List.map fst rows)).
  { destruct (Hgen [] (List.NoDup_nil _)) as [Hnd Hin]. split; [exact Hnd|].
    intros i. rewrite Hin. cbn. tauto. }
  induction rows as [|[k v] rows IH]; intros d Hd;
    cbn [fold_left List.map fst snd].
  - split; [exact Hd|]. intros i. cbn. tauto.
  - destruct (IH (SparseRetriever.dict_set k v d)) as [Hnd Hin].
    + rewrite dict_set_keys. destruct (has_key (List.map fst d) k) eqn:Hk.
      * now rewrite app_nil_r.
      * apply List.NoDup_app; [exact Hd|repeat constructor; cbn; tauto|].
        intros x Hx [<-|[]]. apply has_key_In in Hx. congruence.
    + split; [exact Hnd|]. intros i. rewrite Hin, dict_set_keys, in_app_iff.
      destruct (has_key (List.map fst d) k) eqn:Hk; cbn [In].
      * apply has_key_In in Hk. split; [tauto|].
        intros [?|[<-|?]]; tauto.
      * tauto.
Qed.

Lemma sparse_result_of_Ok (db : SparseRetriever.Db)
      (pericope_ranks : list (Z * Q)) (pericope : SparseRetriever.Pericope)
      (r : RetrievalResult.t) :
  SparseRetriever.result_of db pericope_ranks pericope = Ok r ->
  RetrievalResult.id r = SparseRetriever.id pericope
  /\ RetrievalResult.score r
     = SparseRetriever.normalized_score
         (SparseRetriever.get pericope_ranks (SparseRetriever.id pericope)).
Proof.
  unfold SparseRetriever.result_of.
  destruct (SparseRetriever.verse_texts db _); [|discriminate].
  cbn [mbind outcome_bind]. intros [= <-]. now split.
Qed.

(** X21.  Whenever the sparse retriever returns, its results are in descending
    order of score, every score lies between 0 and 1, and for [top_k >= 0]
    there are at most [top_k] of them.  Each result is a pericope the
    database returned for the ranked ids (no id twice, at most [top_k] of
    them), and its score is positive exactly when the verse statement
    ranked its id positively. *)
Theorem sparse_retrieve_ranked (db : SparseRetriever.Db) (query : string)
        (top_k : Z) (results : list RetrievalResult.t) :
  SparseRetriever.retrieve db query top_k = Ok results ->
  StronglySorted (desc Qltb RetrievalResult.score) results
  /\ (forall r, In r results ->
        (0 <= RetrievalResult.score r)%Q /\ (RetrievalResult.score r <= 1)%Q)
  /\ (0 <= top_k -> Z.of_nat (length results) <= top_k)
  /\ (results <> [] ->
      exists rows pericope_ids pericopes,
        SparseRetriever.verse_ranks db query (top_k * 2) = Ok rows
        /\ SparseRetriever.pericopes_in db pericope_ids = Ok pericopes
        /\ List.NoDup pericope_ids
        /\ (forall i, In i pericope_ids -> In i (List.map fst rows))
        /\ (0 <= top_k -> Z.of_nat (length pericope_ids) <= top_k)
        /\ forall r, In r results ->
             In (RetrievalResult.id r)
                (List.map SparseRetriever.id pericopes)
             /\ ((0 < RetrievalResult.score r)%Q
                 <-> (0 < SparseRetriever.get (SparseRetriever.ranks_dict rows)
                                              (RetrievalResult.id r))%Q)).
Proof.
  unfold SparseRetriever.retrieve.
  destruct (SparseRetriever.verse_ranks db query (top_k * 2))
    as [rows|] eqn:Hrows; [|discriminate].
  cbn [mbind outcome_bind].
  destruct (SparseRetriever.ranks_dict rows) as [|kv d] eqn:Hdict.
  { intros [= <-]. split; [constructor|]. split; [intros r []|].
    split; [cbn; lia|]. now intros []. }
  rewrite <- Hdict.
  destruct (SparseRetriever.pericopes_in db _) as [pericopes|] eqn:Hper;
    [|discriminate].
  cbn [mbind outcome_bind].
  destruct (Py.mapM _ pericopes) as [all|] eqn:Hall; [|discriminate].
  cbn [mbind outcome_bind]. intros [= <-].
  assert (Hfrom : forall r, In r (Py.slice_to
                    (Py.sorted_desc Qltb RetrievalResult.score all) top_k) ->
                  exists p, In p pericopes
                    /\ RetrievalResult.id r = SparseRetriever.id p
                    /\ RetrievalResult.score r
                       = SparseRetriever.normalized_score
                           (SparseRetriever.get
                              (SparseRetriever.ranks_dict rows)
                              (SparseRetriever.id p))).
  { intros r Hr. apply slice_to_In, sorted_desc_In in Hr.
    destruct (mapM_In_inv _ _ _ _ Hall Hr) as (p & Hp & Hr').
    apply sparse_result_of_Ok in Hr' as [Hid Hsc]. now exists p. }
  destruct (ranks_dict_keys rows) as [Hnd Hkeys].
  split; [|split; [|split]].
  - destruct (slice_to_firstn (Py.sorted_desc Qltb RetrievalResult.score all)
                              top_k) as [m ->].
    apply StronglySorted_firstn, sorted_desc_sorted.
    + exact (fltb_asym (F:=Q)).
    + exact (fltb_negtrans (F:=Q)).
  - intros r Hr. destruct (Hfrom r Hr) as (p & _ & _ & ->).
    destruct (normalized_score_range
                (SparseRetriever.get (SparseRetriever.ranks_dict rows)
                                     (SparseRetriever.id p))) as (H0 & H1 & _).
    now split.
  - intros Hk. now apply slice_to_nonneg.
  - intros _. exists rows. eexists. exists pericopes.
    split; [reflexivity|]. split; [exact Hper|]. split; [|split; [|split]].
    + destruct (slice_to_firstn (List.map fst (SparseRetriever.ranks_dict rows))
                                top_k) as [m ->].
      rewrite <- (firstn_skipn m (List.map fst _)) in Hnd.
      now apply List.NoDup_app_remove_r in Hnd.
    + intros i Hi. apply slice_to_In in Hi. now apply Hkeys.
    + intros Hk. now apply slice_to_nonneg.
    + intros r Hr. destruct (Hfrom r Hr) as (p & Hp & Hid & Hsc). split.
      * rewrite Hid. now apply in_map.
      * rewrite Hsc, Hid. apply normalized_score_range.
Qed.

(** Two results asked of the small database: pericope 3, ranked 0.6 and
    scored 1, comes before pericope 7, ranked 0.3 and scored 0.6. *)
Lemma sparse_retrieve_ranked_witness :
  exists results,
    SparseRetriever.retrieve sparse_db "forgive" 2 = Ok results
    /\ List.map RetrievalResult.id results = [3; 7]
    /\ StronglySorted (desc Qltb RetrievalResult.score) results.
Proof.
  destruct (SparseRetriever.retrieve sparse_db "forgive" 2)
    as [results|ex] eqn:Hrun; [|vm_compute in Hrun; discriminate].
  exists results. split; [reflexivity|]. split.
  - assert (Hval := Hrun). vm_compute in Hval. now injection Hval as <-.
  - now destruct (sparse_retrieve_ranked _ _ _ _ Hrun) as (Hs & _).
Defined.

Lemma dense_result_of_Ok (db : DenseRetriever.Db) (row : DenseRetriever.Row)
      (r : RetrievalResult.t) :
  DenseRetriever.result_of db row = Ok r ->
  RetrievalResult.id r = DenseRetriever.id row
  /\ RetrievalResult.score r = (1 - DenseRetriever.distance row)%Q.
Proof.
  unfold DenseRetriever.result_of.
  destruct (DenseRetriever.book_name_zh db _); [|discriminate].
  cbn [mbind outcome_bind].
  destruct (DenseRetriever.verse_texts db _); [|discriminate].
  cbn [mbind outcome_bind]. intros [= <-]. now split.
Qed.

(** X22.  Whenever the dense retriever returns, it returns one result per row of
    the similarity statement, in the order of the rows, with the score
    [1 - distance]: rows in ascending distance give results in descending
    score, and distances between 0 and 2 give scores between -1 and 1. *)
Theorem dense_retrieve_order (db : DenseRetriever.Db) (query : string)
        (top_k : Z) (results : list RetrievalResult.t) :
  DenseRetriever.retrieve db query top_k = Ok results ->
  exists rows,
    DenseRetriever.nearest db query top_k = Ok rows
    /\ List.map RetrievalResult.id results = List.map DenseRetriever.id rows
    /\ List.map RetrievalResult.score results
       = List.map (fun row => (1 - DenseRetriever.distance row)%Q) rows
    /\ (StronglySorted
          (fun a b =>
             (DenseRetriever.distance a <= DenseRetriever.distance b)%Q)
          rows ->
        StronglySorted (desc Qltb RetrievalResult.score) results)
    /\ ((forall row, In row rows ->
           (0 <= DenseRetriever.distance row)%Q
           /\ (DenseRetriever.distance row <= 2)%Q) ->
        forall r, In r results ->
          (-1 <= RetrievalResult.score r)%Q
          /\ (RetrievalResult.score r <= 1)%Q).
Proof.
  unfold DenseRetriever.retrieve.
  destruct (DenseRetriever.nearest db query top_k) as [rows|]; [|discriminate].
  cbn [mbind outcome_bind]. intros Hrun. exists rows. split; [reflexivity|].
  apply mapM_Forall2 in Hrun.
  induction Hrun as [|row r rows results Hr Hrest IH].
  - repeat split; try constructor; contradiction.
  - apply dense_result_of_Ok in Hr as [Hid Hsc].
    destruct IH as (Hids & Hscores & Hsorted & Hrange).
    cbn [List.map]. rewrite Hid, Hsc, Hids, Hscores.
    split; [reflexivity|]. split; [reflexivity|]. split.
    + intros Hs. apply StronglySorted_inv in Hs as [Hs Hrow].
      constructor; [now apply Hsorted|].
      rewrite List.Forall_forall in *. intros r' Hr'.
      assert (Hin : In (RetrievalResult.score r')
                       (List.map RetrievalResult.score results))
        by now apply in_map.
      rewrite Hscores in Hin. apply in_map_iff in Hin as (row' & E & Hrow').
      unfold desc. apply Qltb_ge. rewrite Hsc, <- E.
      specialize (Hrow row' Hrow'). cbn beta in Hrow.
      unfold Qminus. apply Qplus_le_r, Qopp_le_compat. exact Hrow.
    + intros Hd r' [<-|Hr'].
      * rewrite Hsc. destruct (Hd row (or_introl eq_refl)) as [H0 H2].
        unfold Qle, Qminus, Qplus, Qopp in *. cbn in *. lia.
      * apply Hrange; [|exact Hr']. intros row' Hrow'. apply Hd. now right.
Qed.

(** The two rows of the small database, in their order. *)
Lemma dense_retrieve_order_witness :
  exists results,
    DenseRetriever.retrieve dense_db "forgive" 20 = Ok results
    /\ List.map RetrievalResult.id results = [3; 7]
    /\ List.map RetrievalResult.score results
       = [(1 - (1 # 5))%Q; (1 - (2 # 5))%Q].
Proof.
  destruct (DenseRetriever.retrieve dense_db "forgive" 20)
    as [results|ex] eqn:Hrun; [|vm_compute in Hrun; discriminate].
  exists results. split; [reflexivity|].
  destruct (dense_retrieve_order _ _ _ _ Hrun)
    as (rows & Hrows & Hids & Hscores & _).
  vm_compute in Hrows. injection Hrows as <-. now split.
Defined.

(** ** [Neo4jClient]: the class state and the health check *)

Lemma initialize_verified
      (connect : Neo4jClientState.res Neo4jClientState.Driver)
      (cls : Neo4jClientState.t) :
  verified cls -> verified (fst (Neo4jClientState.initialize connect cls)).
Proof.
  unfold Neo4jClientState.initialize. intros Hv.
  destruct (Neo4jClientState._driver cls) as [d|] eqn:Hd; [exact Hv|].
  destruct connect as [driver|e].
  - destruct (Neo4jClientState.verify_connectivity driver) as [[]|e] eqn:Hc.
    + intros _. now exists driver.
    + destruct e; cbn; try discriminate; intros Hi; cbn in Hi;
        destruct (Hv Hi) as (d' & Hd' & _); congruence.
  - destruct e; cbn; try discriminate; exact Hv.
Qed.

Lemma close_verified (cls : Neo4jClientState.t) :
  verified cls -> verified (fst (Neo4jClientState.close cls)).
Proof.
  unfold Neo4jClientState.close. intros Hv.
  destruct (Neo4jClientState._driver cls) as [d|]; [|exact Hv].
  destruct (Neo4jClientState.driver_close d); [discriminate|exact Hv].
Qed.

Lemma after_verified (calls : list lifecycle_call) :
  verified (state_after calls).
Proof.
  unfold state_after.
  enough (Hgen : forall cls, verified cls ->
                             verified (fold_left lifecycle_step calls cls)).
  { apply Hgen. discriminate. }
  induction calls as [|c calls IH]; intros cls Hv; [exact Hv|].
  cbn [fold_left]. apply IH. destruct c as [connect|].
  - now apply initialize_verified.
  - now apply close_verified.
Qed.

(** X23.  After any sequence of [initialize] and [close] calls, whatever
    the driver did, the client is available exactly when [_initialized] is
    set, and then it holds a driver whose connectivity was verified; reads
    on an unavailable client return no record and writes raise
    [RuntimeError]. *)
Theorem neo4j_state_invariant (calls : list lifecycle_call) :
  let cls := state_after calls in
  Neo4jClientState.is_available cls = Neo4jClientState._initialized cls
  /\ (Neo4jClientState.is_available cls = true ->
      exists driver,
        Neo4jClientState._driver cls = Some driver
        /\ Neo4jClientState.verify_connectivity driver
           = Neo4jClientState.Returns tt)
  /\ (Neo4jClientState.is_available cls = false ->
      forall query,
        Neo4jClientState.execute_read cls query = Neo4jClientState.Returns []
        /\ Neo4jClientState.execute_write cls query
           = Neo4jClientState.Raises
               (Neo4jClientState.RuntimeError "Neo4j is not available")).
Proof.
  intros cls. pose proof (after_verified calls) as Hv. fold cls in Hv.
  unfold verified in Hv.
  assert (Ha : Neo4jClientState.is_available cls
               = Neo4jClientState._initialized cls).
  { unfold Neo4jClientState.is_available.
    destruct (Neo4jClientState._initialized cls); [|reflexivity].
    destruct (Hv eq_refl) as (d & -> & _). reflexivity. }
  split; [exact Ha|]. split.
  - rewrite Ha. exact Hv.
  - intros Hdown query.
    unfold Neo4jClientState.execute_read, Neo4jClientState.execute_write.
    now rewrite Hdown.
Qed.

Lemma execute_read_returns (cls : Neo4jClientState.t) (query : string) :
  exists records,
    Neo4jClientState.execute_read cls query
    = Neo4jClientState.Returns records.
Proof.
  unfold Neo4jClientState.execute_read.
  destruct (negb (Neo4jClientState.is_available cls)); [now eexists|].
  destruct (Neo4jClientState.in_session cls query); now eexists.
Qed.

Lemma available_driver (cls : Neo4jClientState.t) :
  Neo4jClientState.is_available cls = true ->
  exists driver, Neo4jClientState._driver cls = Some driver.
Proof.
  unfold Neo4jClientState.is_available.
  destruct (Neo4jClientState._driver cls) as [d|]; [now exists d|].
  now rewrite andb_false_r.
Qed.

(** The status as a function of what the probe query gave. *)
Lemma health_check_run (cls : Neo4jClientState.t)
      (driver : Neo4jClientState.Driver) :
  Neo4jClientState.is_available cls = true ->
  Neo4jClientState._driver cls = Some driver ->
  Neo4jClientState.health_check cls
  = match Neo4jClientState.session_run driver "RETURN 1 as n" with
    | Neo4jClientState.Returns (record :: _) =>
        match Neo4jClientState.record_get record "n" with
        | Some 1 => Neo4jClientState.Healthy
        | _ => Neo4jClientState.Unknown
        end
    | _ => Neo4jClientState.Unknown
    end.
Proof.
  intros Ha Hd.
  unfold Neo4jClientState.health_check, Neo4jClientState.execute_read,
    Neo4jClientState.in_session.
  rewrite Ha, Hd. cbn [negb].
  now destruct (Neo4jClientState.session_run driver "RETURN 1 as n")
    as [[|record rest]|e].
Qed.

Lemma healthy_or_unknown (n : option Z) :
  match n with
  | Some 1 => Neo4jClientState.Healthy
  | _ => Neo4jClientState.Unknown
  end
  = if decide (n = Some 1) then Neo4jClientState.Healthy
    else Neo4jClientState.Unknown.
Proof.
  destruct (decide (n = Some 1)) as [->|Hn]; [reflexivity|].
  destruct n as [[|[p|p|]|p]|]; try reflexivity. congruence.
Qed.

(** X24.  [health_check] reports "unavailable" exactly when the client is
    not available and "healthy" exactly when the probe query returns a
    first record with [n = 1]; a failed probe is reported as "unknown": the
    status "unhealthy" is never returned, since [execute_read] raises
    nothing. *)
Theorem health_check_status (cls : Neo4jClientState.t) :
  (forall query,
      exists records,
        Neo4jClientState.execute_read cls query
        = Neo4jClientState.Returns records)
  /\ (forall e,
        Neo4jClientState.health_check cls <> Neo4jClientState.Unhealthy e)
  /\ (Neo4jClientState.health_check cls = Neo4jClientState.Unavailable
      <-> Neo4jClientState.is_available cls = false)
  /\ (Neo4jClientState.health_check cls = Neo4jClientState.Healthy <->
      exists driver record rest,
        Neo4jClientState.is_available cls = true
        /\ Neo4jClientState._driver cls = Some driver
        /\ Neo4jClientState.session_run driver "RETURN 1 as n"
           = Neo4jClientState.Returns (record :: rest)
        /\ Neo4jClientState.record_get record "n" = Some 1)
  /\ (forall driver e,
        Neo4jClientState.is_available cls = true ->
        Neo4jClientState._driver cls = Some driver ->
        Neo4jClientState.session_run driver "RETURN 1 as n"
        = Neo4jClientState.Raises e ->
        Neo4jClientState.health_check cls = Neo4jClientState.Unknown).
Proof.
  split; [apply execute_read_returns|].
  destruct (Neo4jClientState.is_available cls) eqn:Ha.
  2: { assert (Hdown : Neo4jClientState.health_check cls
                       = Neo4jClientState.Unavailable).
       { unfold Neo4jClientState.health_check. now rewrite Ha. }
       rewrite Hdown. split; [intros e; discriminate|]. split; [tauto|].
       split; [|discriminate]. split; [discriminate|].
       now intros (d & r & rest & Hf & _). }
  destruct (available_driver cls Ha) as [d Hd].
  rewrite (health_check_run cls d Ha Hd).
  destruct (Neo4jClientState.session_run d "RETURN 1 as n")
    as [[|record rest]|e] eqn:Hrun.
  - split; [intros e; discriminate|]. split; [split; discriminate|]. split.
    + split; [discriminate|].
      intros (d' & r & rest & _ & Hd' & Hr & _). congruence.
    + now intros.
  - rewrite healthy_or_unknown.
    destruct (decide (Neo4jClientState.record_get record "n" = Some 1))
      as [Hn|Hn].
    + split; [intros e; discriminate|].
      split; [split; discriminate|]. split.
      * split; [|reflexivity]. intros _. now exists d, record, rest.
      * intros d' e _ Hd' Hr. congruence.
    + split; [intros e; discriminate|].
      split; [split; discriminate|]. split.
      * split; [discriminate|].
        intros (d' & r & rest' & _ & Hd' & Hr & Hg).
        assert (d' = d) as -> by congruence.
        rewrite Hrun in Hr. injection Hr as <- <-. congruence.
      * now intros.
  - split; [intros e'; discriminate|]. split; [split; discriminate|]. split.
    + split; [discriminate|].
      intros (d' & r & rest & _ & Hd' & Hr & _). congruence.
    + now intros.
Qed.

(** X25.  When the connectivity check of a new driver fails with an
    exception other than the two that [initialize] catches, the exception
    propagates and the driver stays in place, unverified: the client is not
    available, and every later [initialize] returns at once without
    connecting again. *)
Theorem initialize_keeps_unverified_driver
        (cls : Neo4jClientState.t) (driver : Neo4jClientState.Driver)
        (msg : string) :
  Neo4jClientState._driver cls = None ->
  Neo4jClientState._initialized cls = false ->
  Neo4jClientState.verify_connectivity driver
  = Neo4jClientState.Raises (Neo4jClientState.OtherError msg) ->
  let first := Neo4jClientState.initialize
                 (Neo4jClientState.Returns driver) cls in
  snd first = Neo4jClientState.Raises (Neo4jClientState.OtherError msg)
  /\ Neo4jClientState._driver (fst first) = Some driver
  /\ Neo4jClientState.is_available (fst first) = false
  /\ forall connect,
       Neo4jClientState.initialize connect (fst first)
       = (fst first, Neo4jClientState.Returns tt).
Proof.
  intros Hd Hi Hv first. subst first. unfold Neo4jClientState.initialize.
  rewrite Hd, Hv. cbn [Neo4jClientState.connection_failed fst snd
    Neo4jClientState._driver Neo4jClientState._initialized].
  split; [reflexivity|]. split; [reflexivity|]. split.
  - unfold Neo4jClientState.is_available.
    cbn [Neo4jClientState._initialized]. now rewrite Hi.
  - reflexivity.
Qed.

(** From the declared state, with a driver whose check times out. *)
Lemma initialize_keeps_unverified_driver_witness :
  Neo4jClientState.is_available
    (state_after [Initialize (Neo4jClientState.Returns unverified_driver);
                  Initialize (Neo4jClientState.Returns unverified_driver)])
  = false
  /\ Neo4jClientState._driver
       (state_after [Initialize (Neo4jClientState.Returns unverified_driver)])
     = Some unverified_driver.
Proof.
  destruct (initialize_keeps_unverified_driver Neo4jClientState.initial
              unverified_driver "timeout" eq_refl eq_refl eq_refl)
    as (_ & Hdriver & Hdown & Hagain).
  split; [|exact Hdriver].
  unfold state_after. cbn [fold_left lifecycle_step].
  now rewrite Hagain.
Defined.
